(** * Multi-tenant notes backend: access-control chain, subscription gate,
      note ownership policy and token codec.

    A shallow embedding of the decision logic of the Express/Mongoose
    backend: [models/Tenant.js], [models/Note.js], [utils/jwt.js],
    [middleware/auth.js], [controllers/noteController.js] and
    [controllers/tenantController.js].  The document store is an explicit
    value threaded through every handler; [await]ed calls are steps of a
    small state-and-exception monad. *)

From Stdlib Require Import String Ascii ZArith List Bool Lia.
Import ListNotations.
Local Open Scope string_scope.
Local Open Scope Z_scope.

Set Implicit Arguments.

(** ** Identifiers and strings *)

(** A Mongo [ObjectId] is represented by its [toString()] rendering, the
    24-digit hexadecimal string; the rendering is injective, so comparing
    two renderings with [===] is comparing the ids. *)
Definition ObjectId := string.

Definition toString (o : ObjectId) : string := o.

(** A value that Mongoose has to cast to an [ObjectId] before it can run a
    query (a path parameter): either it casts, or the query throws a
    [CastError] whose [kind] is ["ObjectId"]. *)
Inductive QueryId :=
| Castable (o : ObjectId)
| Uncastable (raw : string).

(** Strings.  A [string] stands for a JS string whose UTF-16 code units
    are all below 256 (Basic Latin and Latin-1 Supplement), one [ascii]
    per code unit; [String.length] is the [length] of the JS string.  On
    these strings [trim] and [toLowerCase] are the JS functions: the white
    space and line terminators of ECMAScript below 256 are the code units
    9 to 13, 32 and 160 (no-break space), and the code units with a lower
    case of their own are A to Z and 192 to 222 without 215 (the
    multiplication sign), whose lower case is 32 further on. *)
Definition is_space (c : ascii) : bool :=
  let n := nat_of_ascii c in
  (Nat.eqb n 32 || Nat.eqb n 160 || (Nat.leb 9 n && Nat.leb n 13))%bool.

Fixpoint trimStart (s : string) : string :=
  match s with
  | String c s' => if is_space c then trimStart s' else s
  | EmptyString => EmptyString
  end.

Fixpoint trimEnd (s : string) : string :=
  match s with
  | String c s' =>
      match trimEnd s' with
      | EmptyString => if is_space c then EmptyString else String c EmptyString
      | r => String c r
      end
  | EmptyString => EmptyString
  end.

Definition trim (s : string) : string := trimEnd (trimStart s).

Definition is_upper (c : ascii) : bool :=
  let n := nat_of_ascii c in
  ((Nat.leb 65 n && Nat.leb n 90)
   || (Nat.leb 192 n && Nat.leb n 222 && negb (Nat.eqb n 215)))%bool.

Definition lower_unit (c : ascii) : ascii :=
  if is_upper c then ascii_of_nat (nat_of_ascii c + 32) else c.

Fixpoint toLowerCase (s : string) : string :=
  match s with
  | String c s' => String (lower_unit c) (toLowerCase s')
  | EmptyString => EmptyString
  end.

(** [String.prototype.replace] with a string pattern: the first
    occurrence of [pat], if any, is replaced by [rep]. *)
Fixpoint drop (n : nat) (s : string) : string :=
  match n, s with
  | S n', String _ s' => drop n' s'
  | _, _ => s
  end.

Fixpoint replace (pat rep s : string) : string :=
  if String.prefix pat s then rep ++ drop (String.length pat) s
  else match s with
       | String c s' => String c (replace pat rep s')
       | EmptyString => EmptyString
       end.

(** [String.prototype.includes] *)
Fixpoint includes (pat s : string) : bool :=
  if String.prefix pat s then true
  else match s with
       | String _ s' => includes pat s'
       | EmptyString => false
       end.

(** JS truthiness of a possibly [undefined] string. *)
Definition truthy (v : option string) : bool :=
  match v with
  | Some (String _ _) => true
  | _ => false
  end.

(** ** Documents *)

Inductive Plan := free | pro.

Definition Plan_eqb (a b : Plan) : bool :=
  match a, b with
  | free, free | pro, pro => true
  | _, _ => false
  end.

Inductive Role := admin | member.

Definition Role_eqb (a b : Role) : bool :=
  match a, b with
  | admin, admin | member, member => true
  | _, _ => false
  end.

Definition Role_name (r : Role) : string :=
  match r with admin => "admin" | member => "member" end.

(** [["admin", "member"].includes(role)] on a request-body value. *)
Definition Role_parse (v : option string) : option Role :=
  match v with
  | Some s => if String.eqb s "admin" then Some admin
              else if String.eqb s "member" then Some member
              else None
  | None => None
  end.

Module Tenant.
(** [tenantSchema] of models/Tenant.js (timestamps left out). *)
Record doc := mk {
  _id : ObjectId;
  name : string;
  slug : string;
  plan : Plan;                  (* subscription.plan *)
  upgraded_at : option Z;       (* subscription.upgraded_at *)
  max_notes : Z                 (* settings.max_notes *)
}.

(** What [Tenant.create] is given; absent fields take the schema
    defaults. *)
Record input := mkInput {
  in_name : string;
  in_slug : string;
  in_plan : option Plan;
  in_max_notes : option Z
}.

Definition default_plan : Plan := free.
Definition default_max_notes : Z := 3.

(** Schema setters and defaults applied to a new document. *)
Definition build (oid : ObjectId) (i : input) : doc :=
  {| _id := oid;
     name := trim (in_name i);
     slug := trim (toLowerCase (in_slug i));
     plan := match in_plan i with Some p => p | None => default_plan end;
     upgraded_at := None;
     max_notes := match in_max_notes i with
                  | Some m => m
                  | None => default_max_notes
                  end |}.

(** The virtual [isPro]. *)
Definition isPro (this : doc) : bool := Plan_eqb (plan this) pro.
End Tenant.

Module User.
(** Modelled from the spec: models/User.js is not among the sources.
    Fields as section 3 of the specification lists them and as the
    controllers and the seeder use them: a unique email, a hashed
    credential, a role in {admin, member}, the owning tenant reference
    and the active flag. *)
Record doc := mk {
  _id : ObjectId;
  email : string;
  password : string;
  role : Role;
  tenant : ObjectId;
  isActive : bool
}.

(** A user document after [.populate("tenant").select("-password")]:
    the tenant reference is replaced by the tenant document, or by
    [null] when the reference dangles. *)
Record populated := mkPopulated {
  p_id : ObjectId;
  p_email : string;
  p_role : Role;
  p_tenant : option Tenant.doc;
  p_isActive : bool
}.
End User.

Module Note.
(** [noteSchema] of models/Note.js (timestamps left out). *)
Record doc := mk {
  _id : ObjectId;
  title : string;
  content : string;
  author : ObjectId;
  tenant : ObjectId;
  tags : list string;
  isArchived : bool
}.

(** The author of a note as [.populate("author", "email role")] joins it
    in: the [_id] of the user document and the two selected fields. *)
Record author_doc := mkAuthor {
  a_id : ObjectId;
  a_email : string;
  a_role : Role
}.

(** What the [author] path of a note document in memory holds: the stored
    reference, or, once the path has been populated, the author's
    document, or [null] when no user has the referenced id. *)
Inductive author_path :=
| Ref (o : ObjectId)
| Populated (a : author_doc)
| Dangling.

(** A note document in memory, as a query returned it: the stored fields
    and what the [author] path holds. *)
Record loaded := mkLoaded {
  stored : doc;
  path_author : author_path
}.
End Note.

(** ** The store and the handler monad *)

Record Store := mkStore {
  tenants : list Tenant.doc;
  users : list User.doc;
  notes : list Note.doc
}.

(** A thrown JS error: its [name], [message] and, for Mongoose cast
    errors, its [kind]. *)
Record JsError := mkError {
  err_name : string;
  err_message : string;
  err_kind : option string
}.

Definition Error (msg : string) : JsError := mkError "Error" msg None.
Definition TypeError (msg : string) : JsError := mkError "TypeError" msg None.
Definition CastError : JsError :=
  mkError "CastError" "Cast to ObjectId failed" (Some "ObjectId").
Definition ValidationError (msg : string) : JsError :=
  mkError "ValidationError" msg None.

(** What a handler does that an observer of the store or of the ownership
    policy can see, in program order: the calls of [canModify] and the
    store calls that write. *)
Inductive Event :=
| EvCanModify (n : Note.doc) (userId : ObjectId) (userRole : Role)
| EvNoteInsert (n : Note.doc)
| EvNoteUpdate (id : ObjectId)
| EvNoteDelete (id : ObjectId)
| EvUserSave (id : ObjectId)
| EvTenantSave (id : ObjectId).

Inductive Completion (A : Type) :=
| Returned (a : A)
| Threw (e : JsError).
Arguments Returned {A} a.
Arguments Threw {A} e.

Record Outcome (A : Type) := mkOutcome {
  completion : Completion A;
  store : Store;
  trace : list Event
}.

Definition Async (A : Type) := Store -> Outcome A.

Definition ret {A} (a : A) : Async A :=
  fun s => mkOutcome (Returned a) s [].

Definition throw {A} (e : JsError) : Async A :=
  fun s => mkOutcome (Threw e) s [].

Definition bind {A B} (m : Async A) (k : A -> Async B) : Async B :=
  fun s =>
    match m s with
    | mkOutcome (Returned a) s1 tr1 =>
        match k a s1 with
        | mkOutcome c s2 tr2 => mkOutcome c s2 (tr1 ++ tr2)
        end
    | mkOutcome (Threw e) s1 tr1 => mkOutcome (Threw e) s1 tr1
    end.

(** [try { body } catch (error) { handler }] *)
Definition try_catch {A} (body : Async A) (handler : JsError -> Async A)
  : Async A :=
  fun s =>
    match body s with
    | mkOutcome (Returned a) s1 tr1 => mkOutcome (Returned a) s1 tr1
    | mkOutcome (Threw e) s1 tr1 =>
        match handler e s1 with
        | mkOutcome c s2 tr2 => mkOutcome c s2 (tr1 ++ tr2)
        end
    end.

Definition emit (e : Event) : Async unit :=
  fun s => mkOutcome (Returned tt) s [e].

Definition get_store : Async Store :=
  fun s => mkOutcome (Returned s) s [].

Definition put_store (s' : Store) : Async unit :=
  fun _ => mkOutcome (Returned tt) s' [].

Declare Scope async_scope.
Delimit Scope async_scope with async.
Notation "'await' x <- m ;; k" := (bind m (fun x => k))
  (at level 10, x name, m at level 100, k at level 200) : async_scope.
Notation "'await_' m ;; k" := (bind m (fun _ => k))
  (at level 10, m at level 100, k at level 200) : async_scope.
Local Open Scope async_scope.

(** ** Collection queries (the Mongoose calls the sources make) *)

Definition castId {A} (q : QueryId) (k : ObjectId -> Async A) : Async A :=
  match q with
  | Castable o => k o
  | Uncastable _ => throw CastError
  end.

(** [Note.countDocuments(filter)] *)
Definition Note_countDocuments (f : Note.doc -> bool) : Async nat :=
  await s <- get_store ;; ret (length (filter f (notes s))).

(** ** models/Tenant.js *)

(** [tenantSchema.methods.canCreateNote] *)
Definition canCreateNote (this : Tenant.doc) : Async bool :=
  if Plan_eqb (Tenant.plan this) pro then ret true
  else
    await noteCount <-
      Note_countDocuments
        (fun n => String.eqb (Note.tenant n) (Tenant._id this)) ;;
    ret (Z.of_nat noteCount <? Tenant.max_notes this).

(** [upgradeToPro]: the document is rewritten and saved. *)
Definition upgradedDoc (now : Z) (this : Tenant.doc) : Tenant.doc :=
  {| Tenant._id := Tenant._id this;
     Tenant.name := Tenant.name this;
     Tenant.slug := Tenant.slug this;
     Tenant.plan := pro;
     Tenant.upgraded_at := Some now;
     Tenant.max_notes := -1 |}.

(** The setters of the [slug] path of [tenantSchema], [lowercase] and
    [trim].  Mongoose runs the setters of a path on a value it stores
    under the path and on a value it casts for the path in a query
    filter. *)
Definition castSlug (v : string) : string := trim (toLowerCase v).

(** [Tenant.findOne({ slug })]: the filter is cast by the schema, and the
    first tenant whose stored slug is the cast string is returned. *)
Definition tenantBySlug (s : Store) (slug : string) : option Tenant.doc :=
  find (fun t => String.eqb (Tenant.slug t) (castSlug slug)) (tenants s).

Definition Tenant_findOne_slug (slug : string)
  : Async (option Tenant.doc) :=
  await s <- get_store ;; ret (tenantBySlug s slug).

Definition tenantById (s : Store) (id : ObjectId) : option Tenant.doc :=
  find (fun t => String.eqb (Tenant._id t) id) (tenants s).

(** ** Users *)

Definition userById (s : Store) (id : ObjectId) : option User.doc :=
  find (fun u => String.eqb (User._id u) id) (users s).

(** [User.findById(id)]: the value is cast to an [ObjectId] first. *)
Definition User_findById (id : QueryId) : Async (option User.doc) :=
  castId id (fun i => await s <- get_store ;; ret (userById s i)).

Definition populate_tenant (s : Store) (u : User.doc) : User.populated :=
  {| User.p_id := User._id u;
     User.p_email := User.email u;
     User.p_role := User.role u;
     User.p_tenant := tenantById s (User.tenant u);
     User.p_isActive := User.isActive u |}.

(** [User.findById(id).populate("tenant").select("-password")] *)
Definition User_findById_populated (id : QueryId)
  : Async (option User.populated) :=
  await u <- User_findById id ;;
  await s <- get_store ;;
  ret (option_map (populate_tenant s) u).

(** [User.findOne({ _id: userId, tenant: tenantId })] *)
Definition userInTenant (s : Store) (id tenantId : ObjectId)
  : option User.doc :=
  find (fun u => (String.eqb (User._id u) id
                  && String.eqb (User.tenant u) tenantId)%bool)
       (users s).

Definition User_findOne_id_tenant (userId : QueryId) (tenantId : ObjectId)
  : Async (option User.doc) :=
  castId userId (fun id =>
    await s <- get_store ;; ret (userInTenant s id tenantId)).

Fixpoint replace_first {A} (p : A -> bool) (f : A -> A) (l : list A)
  : list A :=
  match l with
  | [] => []
  | x :: l' => if p x then f x :: l' else x :: replace_first p f l'
  end.

Fixpoint remove_first {A} (p : A -> bool) (l : list A) : list A :=
  match l with
  | [] => []
  | x :: l' => if p x then l' else x :: remove_first p l'
  end.

(** [doc.save()] on a document that came from the store and had some of
    its paths assigned: the assignments ([change]) are written to the
    stored document with that [_id]. *)
Definition User_save (id : ObjectId) (change : User.doc -> User.doc)
  : Async unit :=
  await s <- get_store ;;
  await_ put_store
    (mkStore (tenants s)
       (replace_first (fun x => String.eqb (User._id x) id) change (users s))
       (notes s)) ;;
  emit (EvUserSave id).

Definition Tenant_save (id : ObjectId) (change : Tenant.doc -> Tenant.doc)
  : Async unit :=
  await s <- get_store ;;
  await_ put_store
    (mkStore
       (replace_first (fun x => String.eqb (Tenant._id x) id) change
          (tenants s))
       (users s) (notes s)) ;;
  emit (EvTenantSave id).

Definition upgradeToPro (now : Z) (this : Tenant.doc) : Async Tenant.doc :=
  await_ Tenant_save (Tenant._id this) (upgradedDoc now) ;;
  ret (upgradedDoc now this).

(** ** models/Note.js *)

(** What [Note.create] receives from the controller. *)
Record NoteInput := mkNoteInput {
  in_title : option string;
  in_content : option string;
  in_tags : list string;
  in_author : ObjectId;
  in_tenant : ObjectId
}.

(** What [Note.findByIdAndUpdate] receives: only the keys that were put
    into [updateData]. *)
Record NoteUpdate := mkNoteUpdate {
  up_title : option string;
  up_content : option string;
  up_tags : option (list string)
}.

Definition castTags (l : list string) : list string :=
  map (fun t => toLowerCase (trim t)) l.

(** Schema validators of [title] ([required], [trim], [maxlength: 200]). *)
Definition valid_title (t : string) : bool :=
  (negb (String.eqb (trim t) "")
   && (Z.of_nat (String.length (trim t)) <=? 200))%bool.

(** Schema validators of [content] ([required], [maxlength: 10000]). *)
Definition valid_content (c : string) : bool :=
  (negb (String.eqb c "") && (Z.of_nat (String.length c) <=? 10000))%bool.

(** Casting and validation of a new note document. *)
Definition noteSchema_validate (oid : ObjectId) (i : NoteInput)
  : Completion Note.doc :=
  match in_title i, in_content i with
  | Some t, Some c =>
      if (valid_title t && valid_content c)%bool then
        Returned {| Note._id := oid;
                    Note.title := trim t;
                    Note.content := c;
                    Note.author := in_author i;
                    Note.tenant := in_tenant i;
                    Note.tags := castTags (in_tags i);
                    Note.isArchived := false |}
      else Threw (ValidationError "Note validation failed")
  | _, _ => Threw (ValidationError "Note validation failed")
  end.

(** [noteSchema.pre("save")]: notes belong to the tenant of their author. *)
Definition noteSchema_pre_save (isNew : bool) (this : Note.doc)
  : Async unit :=
  if isNew then
    await user <- User_findById (Castable (Note.author this)) ;;
    match user with
    | None => throw (Error "Author not found")
    | Some u =>
        if negb (String.eqb (toString (User.tenant u))
                            (toString (Note.tenant this)))
        then throw (Error "Note tenant must match author tenant")
        else ret tt
    end
  else ret tt.

(** [Note.create(input)]; [oid] is the identifier the driver generates
    for the new document. *)
Definition Note_create (oid : ObjectId) (i : NoteInput) : Async Note.doc :=
  match noteSchema_validate oid i with
  | Threw e => throw e
  | Returned n =>
      await_ noteSchema_pre_save true n ;;
      await s <- get_store ;;
      await_ put_store (mkStore (tenants s) (users s) (notes s ++ [n])) ;;
      await_ emit (EvNoteInsert n) ;;
      ret n
  end.

(** [Note.findOne({ _id: id, tenant: tenantId })] *)
Definition noteInTenant (s : Store) (id tenantId : ObjectId)
  : option Note.doc :=
  find (fun n => (String.eqb (Note._id n) id
                  && String.eqb (Note.tenant n) tenantId)%bool)
       (notes s).

(** A note document as a query without populate returns it. *)
Definition unpopulated (n : Note.doc) : Note.loaded :=
  Note.mkLoaded n (Note.Ref (Note.author n)).

(** [.populate("author", "email role")] on a note document. *)
Definition populate_author (s : Store) (n : Note.doc) : Note.loaded :=
  Note.mkLoaded n
    (match userById s (Note.author n) with
     | Some u =>
         Note.Populated
           (Note.mkAuthor (User._id u) (User.email u) (User.role u))
     | None => Note.Dangling
     end).

Definition Note_findOne_id_tenant (id : QueryId) (tenantId : ObjectId)
  : Async (option Note.loaded) :=
  castId id (fun i =>
    await s <- get_store ;;
    ret (option_map unpopulated (noteInTenant s i tenantId))).

(** [Note.findOne({ _id: id, tenant: tenantId }).populate("author",
    "email role")] *)
Definition Note_findOne_id_tenant_populated (id : QueryId)
  (tenantId : ObjectId) : Async (option Note.loaded) :=
  castId id (fun i =>
    await s <- get_store ;;
    ret (option_map (populate_author s) (noteInTenant s i tenantId))).

Definition valid_update (u : NoteUpdate) : bool :=
  (match up_title u with Some t => valid_title t | None => true end
   && match up_content u with Some c => valid_content c | None => true end)%bool.

Definition apply_update (u : NoteUpdate) (n : Note.doc) : Note.doc :=
  {| Note._id := Note._id n;
     Note.title := match up_title u with
                   | Some t => trim t
                   | None => Note.title n
                   end;
     Note.content := match up_content u with
                     | Some c => c
                     | None => Note.content n
                     end;
     Note.author := Note.author n;
     Note.tenant := Note.tenant n;
     Note.tags := match up_tags u with
                  | Some l => castTags l
                  | None => Note.tags n
                  end;
     Note.isArchived := Note.isArchived n |}.

(** [Note.findByIdAndUpdate(id, updateData, { new: true, runValidators:
    true })]: the filter is the id alone. *)
Definition Note_findByIdAndUpdate (id : QueryId) (u : NoteUpdate)
  : Async (option Note.doc) :=
  castId id (fun i =>
    if valid_update u then
      await s <- get_store ;;
      let hit := fun n => String.eqb (Note._id n) i in
      match find hit (notes s) with
      | None => ret None
      | Some n =>
          await_ put_store
            (mkStore (tenants s) (users s)
               (replace_first hit (apply_update u) (notes s))) ;;
          await_ emit (EvNoteUpdate i) ;;
          ret (Some (apply_update u n))
      end
    else throw (ValidationError "Validation failed")).

(** [Note.findByIdAndDelete(id)] *)
Definition Note_findByIdAndDelete (id : QueryId)
  : Async (option Note.doc) :=
  castId id (fun i =>
    await s <- get_store ;;
    let hit := fun n => String.eqb (Note._id n) i in
    match find hit (notes s) with
    | None => ret None
    | Some n =>
        await_ put_store
          (mkStore (tenants s) (users s) (remove_first hit (notes s))) ;;
        await_ emit (EvNoteDelete i) ;;
        ret (Some n)
    end).

(** What [this.author.toString()] returns.  On a reference it is the
    rendering of the id.  On a populated author it is Mongoose's
    [Document.prototype.toString], the text [util.inspect] prints for the
    fields of the document: a text that opens with a brace and so is the
    rendering of no id. *)
Inductive AuthorText :=
| IdText (rendering : string)
| DocumentDump (a : Note.author_doc).

Definition author_toString (p : Note.author_path) : Completion AuthorText :=
  match p with
  | Note.Ref o => Returned (IdText (toString o))
  | Note.Populated a => Returned (DocumentDump a)
  | Note.Dangling => Threw (TypeError "Cannot read properties of null")
  end.

(** [text === id.toString()] for an id. *)
Definition is_rendering_of (text : AuthorText) (id : ObjectId) : bool :=
  match text with
  | IdText r => String.eqb r (toString id)
  | DocumentDump _ => false
  end.

(** [noteSchema.methods.canModify] *)
Definition canModify (this : Note.loaded) (userId : ObjectId)
  (userRole : Role) : Completion bool :=
  if Role_eqb userRole admin then Returned true
  else
    match author_toString (Note.path_author this) with
    | Returned text => Returned (is_rendering_of text userId)
    | Threw e => Threw e
    end.

(** ** The jsonwebtoken library *)

(** The claim set [generateAccessToken] assembles from a user and hands
    to [generateToken].  [userId] is the value [authenticate] passes to
    [User.findById], which casts it: the rendering of an id, as the
    backend issues it, or a value that does not cast. *)
Record Claims := mkClaims {
  userId : QueryId;
  email : string;
  role : Role;
  tenantId : ObjectId;
  tenantSlug : string
}.

(** The registered claims [jwt.sign] adds to the payload. *)
Record JwtPayload := mkPayload {
  claims : Claims;
  iat : Z;
  exp : option Z;
  iss : option string
}.

Record Jwt := mkJwt {
  payload : JwtPayload;
  signature : string
}.

(** jsonwebtoken is a dependency of the backend, not part of it; what
    follows is its documented behaviour for the two calls the backend
    makes.  The parts of the library that are cryptography and text
    encoding are operations of an interface: the keyed signature over a
    payload, the compact serialization of a signed token and its parser. *)
Class JwtLib := {
  hs256 : string -> JwtPayload -> string;
  compact : Jwt -> string;
  parseCompact : string -> option Jwt
}.

(** The parser reads back what the serializer wrote. *)
Definition lossless (L : JwtLib) : Prop :=
  forall j : Jwt, parseCompact (compact j) = Some j.

Definition JsonWebTokenError (msg : string) : JsError :=
  mkError "JsonWebTokenError" msg None.
Definition TokenExpiredError : JsError :=
  mkError "TokenExpiredError" "jwt expired" None.

(** The string held by a value that has been tested truthy. *)
Definition str (v : option string) : string :=
  match v with Some s => s | None => "" end.

(** [process.env]: the signing secret and the token life time (the
    time-span string already read as seconds), each possibly unset. *)
Record Env := mkEnv {
  JWT_SECRET : option string;
  JWT_EXPIRES_IN : option Z
}.

Section JsonWebToken.
Context {L : JwtLib}.

(** [jwt.sign(payload, secret, { expiresIn, issuer })] at clock [now]
    (seconds); [expiresIn] is the time span in seconds. *)
Definition jwt_sign (now : Z) (c : Claims) (secret : option string)
  (expiresIn : Z) (issuer : string) : Completion string :=
  if truthy secret then
    let p := mkPayload c now (Some (now + expiresIn)) (Some issuer) in
    Returned (compact (mkJwt p (hs256 (str secret) p)))
  else Threw (Error "secretOrPrivateKey must have a value").

(** [jwt.verify(token, secret)] at clock [now]: the token has to parse,
    carry the signature of its payload under [secret], and, when it has
    an [exp], the clock has to be strictly before it. *)
Definition jwt_verify (now : Z) (token : string) (secret : option string)
  : Completion JwtPayload :=
  match parseCompact token with
  | None => Threw (JsonWebTokenError "jwt malformed")
  | Some j =>
      if negb (truthy secret)
      then Threw (JsonWebTokenError "secret or public key must be provided")
      else if negb (String.eqb (signature j)
                      (hs256 (str secret) (payload j)))
      then Threw (JsonWebTokenError "invalid signature")
      else match exp (payload j) with
           | Some e => if e <=? now then Threw TokenExpiredError
                       else Returned (payload j)
           | None => Returned (payload j)
           end
  end.

(** ** utils/jwt.js *)

Definition seven_days : Z := 7 * 24 * 60 * 60.

(** [process.env.JWT_EXPIRES_IN || "7d"] *)
Definition expiresIn (env : Env) : Z :=
  match JWT_EXPIRES_IN env with Some d => d | None => seven_days end.

Definition generateToken (env : Env) (now : Z) (p : Claims)
  : Completion string :=
  jwt_sign now p (JWT_SECRET env) (expiresIn env) "notes-saas".

Definition verifyToken (env : Env) (now : Z) (token : string)
  : Completion JwtPayload :=
  match jwt_verify now token (JWT_SECRET env) with
  | Returned p => Returned p
  | Threw _ => Threw (Error "Invalid token")
  end.

(** [extractToken]: the strict reading of the header (not the one the
    middleware uses). *)
Definition extractToken (authHeader : option string) : option string :=
  match authHeader with
  | Some h => if (truthy (Some h) && String.prefix "Bearer " h)%bool
              then Some (drop 7 h) else None
  | None => None
  end.
End JsonWebToken.

(** ** Requests and responses *)

(** The value of [req.body.tags]. *)
Inductive TagsValue :=
| TagsArray (l : list string)
| TagsOther.

Record Body := mkBody {
  b_title : option string;
  b_content : option string;
  b_tags : option TagsValue;
  b_role : option string
}.

(** The request object the middleware chain passes along.  [user] and
    [tenant] are what [authenticate] and [validateTenant] attach;
    [validationErrors] is what [validationResult(req)] holds after the
    route's express-validator chain. *)
Record Request := mkRequest {
  header_Authorization : option string;
  params_slug : string;
  params_id : QueryId;
  params_userId : QueryId;
  body : Body;
  validationErrors : list string;
  user : option User.populated;
  tenant : option Tenant.doc
}.

Definition attach (req : Request) (u : option User.populated)
  (t : option Tenant.doc) : Request :=
  mkRequest (header_Authorization req) (params_slug req) (params_id req)
    (params_userId req) (body req) (validationErrors req) u t.

Definition set_header (req : Request) (h : option string) : Request :=
  mkRequest h (params_slug req) (params_id req) (params_userId req)
    (body req) (validationErrors req) (user req) (tenant req).

(** The JSON bodies the handlers send, by shape. *)
Inductive Json :=
| JError (error : string)
| JValidation (details : list string)
| JQuota (error message upgradeUrl : string)
| JNote (message : string) (note : option Note.doc)
| JUser (message : string) (u : User.doc)
| JMessage (message : string).

Record Response := mkResponse {
  status : nat;
  json : Json
}.

(** What a middleware does with a request: answer it, or call [next()]. *)
Inductive Step :=
| Next (req : Request)
| Respond (res : Response).

Definition lift {A} (c : Completion A) : Async A :=
  match c with
  | Returned a => ret a
  | Threw e => throw e
  end.

(** ** middleware/auth.js *)

Section Middleware.
Context {L : JwtLib}.

Definition authenticate (env : Env) (now : Z) (req : Request)
  : Async Step :=
  try_catch
    (let token :=
       option_map (replace "Bearer " "") (header_Authorization req) in
     if negb (truthy token) then
       ret (Respond (mkResponse 401
                       (JError "Access denied. No token provided.")))
     else
       await decoded <-
         lift (jwt_verify now (str token) (JWT_SECRET env)) ;;
       await user <- User_findById_populated (userId (claims decoded)) ;;
       match user with
       | None =>
           ret (Respond (mkResponse 401
                           (JError "Invalid token. User not found.")))
       | Some u =>
           if negb (User.p_isActive u) then
             ret (Respond (mkResponse 401
                             (JError "Account is deactivated.")))
           else ret (Next (attach req (Some u) (User.p_tenant u)))
       end)
    (fun _ => ret (Respond (mkResponse 401 (JError "Invalid token.")))).
End Middleware.

Definition requireAdmin (req : Request) : Step :=
  match user req with
  | None => Respond (mkResponse 401 (JError "Authentication required."))
  | Some u =>
      if negb (Role_eqb (User.p_role u) admin) then
        Respond (mkResponse 403
                   (JError "Access denied. Admin privileges required."))
      else Next req
  end.

Definition requireMember (req : Request) : Step :=
  match user req with
  | None => Respond (mkResponse 401 (JError "Authentication required."))
  | Some u =>
      if negb (Role_eqb (User.p_role u) member
               || Role_eqb (User.p_role u) admin) then
        Respond (mkResponse 403
                   (JError "Access denied. Member privileges required."))
      else Next req
  end.

Definition validateTenant (req : Request) : Async Step :=
  try_catch
    (let tenantSlug := params_slug req in
     if negb (truthy (Some tenantSlug)) then
       ret (Respond (mkResponse 400 (JError "Tenant slug is required.")))
     else
       match user req with
       | Some u =>
           match User.p_tenant u with
           | None => throw (TypeError "Cannot read properties of null")
           | Some t =>
               if negb (String.eqb (Tenant.slug t) tenantSlug) then
                 ret (Respond
                        (mkResponse 403
                           (JError
                              "Access denied. You do not belong to this tenant.")))
               else ret (Next req)
           end
       | None =>
           await tenant <- Tenant_findOne_slug tenantSlug ;;
           match tenant with
           | None =>
               ret (Respond (mkResponse 404 (JError "Tenant not found.")))
           | Some t => ret (Next (attach req (user req) (Some t)))
           end
       end)
    (fun _ =>
       ret (Respond (mkResponse 500 (JError "Internal server error.")))).

(** ** controllers/noteController.js *)

Definition internal_error : Response :=
  mkResponse 500 (JError "Internal server error").

Definition note_not_found : Response :=
  mkResponse 404 (JError "Note not found").

(** The [catch] block shared by [getNote], [updateNote] and [deleteNote]. *)
Definition catch_note (error : JsError) : Async Response :=
  match err_kind error with
  | Some k => if String.eqb k "ObjectId" then ret note_not_found
              else ret internal_error
  | None => ret internal_error
  end.

(** Reading [req.tenant._id] and [req.user]: a [TypeError] when nothing
    is attached. *)
Definition tenant_of (req : Request) : Async Tenant.doc :=
  match tenant req with
  | Some t => ret t
  | None => throw (TypeError "Cannot read properties of undefined")
  end.

Definition user_of (req : Request) : Async User.populated :=
  match user req with
  | Some u => ret u
  | None => throw (TypeError "Cannot read properties of undefined")
  end.

(** The call [note.canModify(req.user._id, req.user.role)] as a handler
    step, so that the trace records on which note the policy was run. *)
Definition call_canModify (this : Note.loaded) (userId : ObjectId)
  (userRole : Role) : Async bool :=
  await_ emit (EvCanModify (Note.stored this) userId userRole) ;;
  lift (canModify this userId userRole).

(** The handlers.  A response that carries a note is given the stored
    fields of the document the handler holds. *)
Definition getNote (req : Request) : Async Response :=
  try_catch
    (await t <- tenant_of req ;;
     await note <-
       Note_findOne_id_tenant_populated (params_id req) (Tenant._id t) ;;
     match note with
     | None => ret note_not_found
     | Some n => ret (mkResponse 200 (JNote "" (Some (Note.stored n))))
     end)
    catch_note.

Definition createNote (oid : ObjectId) (req : Request) : Async Response :=
  try_catch
    (match validationErrors req with
     | _ :: _ =>
         ret (mkResponse 400 (JValidation (validationErrors req)))
     | [] =>
         await t <- tenant_of req ;;
         await canCreate <- canCreateNote t ;;
         if negb canCreate then
           ret (mkResponse 403
                  (JQuota "Note limit reached for your subscription plan"
                     "Upgrade to Pro plan for unlimited notes"
                     ("/tenants/" ++ Tenant.slug t ++ "/upgrade")))
         else
           let tags := match b_tags (body req) with
                       | Some (TagsArray l) => l
                       | _ => []
                       end in
           await u <- user_of req ;;
           await note <-
             Note_create oid
               (mkNoteInput (b_title (body req)) (b_content (body req))
                  tags (User.p_id u) (Tenant._id t)) ;;
           ret (mkResponse 201
                  (JNote "Note created successfully" (Some note)))
     end)
    (fun _ => ret internal_error).

(** The keys [updateNote] copies from the body into [updateData]: those
    that are not [undefined]. *)
Definition updateData_of (b : Body) : NoteUpdate :=
  mkNoteUpdate (b_title b) (b_content b)
    (match b_tags b with
     | Some (TagsArray l) => Some l
     | Some TagsOther => Some []
     | None => None
     end).

Definition updateNote (req : Request) : Async Response :=
  try_catch
    (match validationErrors req with
     | _ :: _ =>
         ret (mkResponse 400 (JValidation (validationErrors req)))
     | [] =>
         await t <- tenant_of req ;;
         await note <-
           Note_findOne_id_tenant_populated (params_id req) (Tenant._id t) ;;
         match note with
         | None => ret note_not_found
         | Some n =>
             await u <- user_of req ;;
             await allowed <- call_canModify n (User.p_id u) (User.p_role u) ;;
             if negb allowed then
               ret (mkResponse 403
                      (JError
                         "Access denied. You can only edit your own notes."))
             else
               let updateData := updateData_of (body req) in
               await updatedNote <-
                 Note_findByIdAndUpdate (params_id req) updateData ;;
               ret (mkResponse 200
                      (JNote "Note updated successfully" updatedNote))
         end
     end)
    catch_note.

Definition deleteNote (req : Request) : Async Response :=
  try_catch
    (await t <- tenant_of req ;;
     await note <- Note_findOne_id_tenant (params_id req) (Tenant._id t) ;;
     match note with
     | None => ret note_not_found
     | Some n =>
         await u <- user_of req ;;
         await allowed <- call_canModify n (User.p_id u) (User.p_role u) ;;
         if negb allowed then
           ret (mkResponse 403
                  (JError
                     "Access denied. You can only delete your own notes."))
         else
           await_ Note_findByIdAndDelete (params_id req) ;;
           ret (mkResponse 200 (JMessage "Note deleted successfully"))
     end)
    catch_note.

(** ** controllers/tenantController.js *)

Definition tenant_not_found : Response :=
  mkResponse 404 (JError "Tenant not found").

Definition user_not_in_tenant : Response :=
  mkResponse 404 (JError "User not found in this tenant").

(** [req.user.tenant._id]: a [TypeError] when no user is attached or its
    tenant did not populate. *)
Definition user_tenant_id (req : Request) : Async ObjectId :=
  await u <- user_of req ;;
  match User.p_tenant u with
  | Some t => ret (Tenant._id t)
  | None => throw (TypeError "Cannot read properties of null")
  end.

Definition with_role (u : User.doc) (r : Role) : User.doc :=
  User.mk (User._id u) (User.email u) (User.password u) r (User.tenant u)
    (User.isActive u).

Definition with_isActive (u : User.doc) (b : bool) : User.doc :=
  User.mk (User._id u) (User.email u) (User.password u) (User.role u)
    (User.tenant u) b.

Definition updateUserRole (req : Request) : Async Response :=
  try_catch
    (match Role_parse (b_role (body req)) with
     | None =>
         ret (mkResponse 400
                (JError "Invalid role. Must be admin or member."))
     | Some role =>
         await tenant <- Tenant_findOne_slug (params_slug req) ;;
         match tenant with
         | None => ret tenant_not_found
         | Some t =>
             await own <- user_tenant_id req ;;
             if negb (String.eqb (toString own) (toString (Tenant._id t)))
             then
               ret (mkResponse 403
                      (JError
                         "Access denied. You can only manage users in your own tenant."))
             else
               await u <- user_of req ;;
               if negb (Role_eqb (User.p_role u) admin) then
                 ret (mkResponse 403
                        (JError "Access denied. Admin privileges required."))
               else
                 await userToUpdate <-
                   User_findOne_id_tenant (params_userId req)
                     (Tenant._id t) ;;
                 match userToUpdate with
                 | None => ret user_not_in_tenant
                 | Some target =>
                     if (String.eqb (toString (User._id target))
                                    (toString (User.p_id u))
                         && negb (Role_eqb role admin))%bool
                     then
                       ret (mkResponse 400
                              (JError
                                 "You cannot remove your own admin privileges"))
                     else
                       await_ User_save (User._id target)
                                (fun x => with_role x role) ;;
                       ret (mkResponse 200
                              (JUser "User role updated successfully"
                                 (with_role target role)))
                 end
         end
     end)
    (fun _ => ret internal_error).

Definition deactivateUser (req : Request) : Async Response :=
  try_catch
    (await tenant <- Tenant_findOne_slug (params_slug req) ;;
     match tenant with
     | None => ret tenant_not_found
     | Some t =>
         await own <- user_tenant_id req ;;
         await u <- user_of req ;;
         if (negb (String.eqb (toString own) (toString (Tenant._id t)))
             || negb (Role_eqb (User.p_role u) admin))%bool
         then
           ret (mkResponse 403
                  (JError "Access denied. Admin privileges required."))
         else
           await userToDeactivate <-
             User_findOne_id_tenant (params_userId req) (Tenant._id t) ;;
           match userToDeactivate with
           | None => ret user_not_in_tenant
           | Some target =>
               if String.eqb (toString (User._id target))
                             (toString (User.p_id u))
               then
                 ret (mkResponse 400
                        (JError "You cannot deactivate your own account"))
               else
                 await_ User_save (User._id target)
                          (fun x => with_isActive x false) ;;
                 ret (mkResponse 200
                        (JMessage "User deactivated successfully"))
           end
     end)
    (fun _ => ret internal_error).

(** ** Histories

    The requests that write to the store, and the store after a sequence
    of them. *)

Inductive Op :=
| OpCreateNote (oid : ObjectId) (req : Request)
| OpUpdateNote (req : Request)
| OpDeleteNote (req : Request)
| OpUpdateUserRole (req : Request)
| OpDeactivateUser (req : Request).

Definition step (s : Store) (op : Op) : Store :=
  match op with
  | OpCreateNote oid req => store (createNote oid req s)
  | OpUpdateNote req => store (updateNote req s)
  | OpDeleteNote req => store (deleteNote req s)
  | OpUpdateUserRole req => store (updateUserRole req s)
  | OpDeactivateUser req => store (deactivateUser req s)
  end.

Definition run_ops (ops : list Op) (s : Store) : Store :=
  fold_left step ops s.

(** ** A reference instance of the token interface

    A length-prefixed text encoding and a keyed tag that is not secret:
    enough to run the middleware on concrete headers, and to see that the
    interface and [lossless] can be met. *)

Module TextCodec.
Fixpoint marks (n : nat) (rest : string) : string :=
  match n with
  | O => rest
  | S n' => String "#" (marks n' rest)
  end.

Fixpoint take (n : nat) (s : string) : string :=
  match n, s with
  | S n', String c s' => String c (take n' s')
  | _, _ => EmptyString
  end.

(** One field: as many marks as the field has characters, a comma, the
    field, and then whatever follows. *)
Definition put (a rest : string) : string :=
  marks (String.length a) (String "," (a ++ rest)).

Fixpoint read_len (s : string) : option (nat * string) :=
  match s with
  | String c s' =>
      if Ascii.eqb c "," then Some (O, s')
      else if Ascii.eqb c "#" then
        match read_len s' with
        | Some (n, r) => Some (S n, r)
        | None => None
        end
      else None
  | EmptyString => None
  end.

Definition get (s : string) : option (string * string) :=
  match read_len s with
  | Some (n, r) => Some (take n r, drop n r)
  | None => None
  end.

Definition ztext (z : Z) : string :=
  String (if z <? 0 then "-"%char else "+"%char) (marks (Z.abs_nat z) "").

Definition zparse (s : string) : option Z :=
  match s with
  | String c r =>
      Some (if Ascii.eqb c "-" then - Z.of_nat (String.length r)
            else Z.of_nat (String.length r))
  | EmptyString => None
  end.

Definition otext {A} (f : A -> string) (o : option A) : string :=
  match o with
  | Some a => String "S" (f a)
  | None => "N"
  end.

Definition oparse {A} (f : string -> option A) (s : string)
  : option (option A) :=
  match s with
  | String c r => if Ascii.eqb c "S" then option_map Some (f r)
                  else Some None
  | EmptyString => None
  end.

Definition qtext (q : QueryId) : string :=
  match q with
  | Castable o => String "C" o
  | Uncastable raw => String "U" raw
  end.

Definition qparse (s : string) : option QueryId :=
  match s with
  | String c r => Some (if Ascii.eqb c "C" then Castable r else Uncastable r)
  | EmptyString => None
  end.

Definition payload_text (p : JwtPayload) (rest : string) : string :=
  put (qtext (userId (claims p)))
    (put (email (claims p))
       (put (Role_name (role (claims p)))
          (put (tenantId (claims p))
             (put (tenantSlug (claims p))
                (put (ztext (iat p))
                   (put (otext ztext (exp p))
                      (put (otext (fun x => x) (iss p)) rest))))))).

Definition parse_payload (s : string) : option (JwtPayload * string) :=
  match get s with
  | Some (uid, s1) =>
  match get s1 with
  | Some (mail, s2) =>
  match get s2 with
  | Some (rl, s3) =>
  match get s3 with
  | Some (tid, s4) =>
  match get s4 with
  | Some (tslug, s5) =>
  match get s5 with
  | Some (i, s6) =>
  match get s6 with
  | Some (e, s7) =>
  match get s7 with
  | Some (issuer, s8) =>
      match qparse uid, Role_parse (Some rl), zparse i, oparse zparse e,
            oparse (fun x => Some x) issuer with
      | Some q, Some r, Some i', Some e', Some issuer' =>
          Some (mkPayload (mkClaims q mail r tid tslug) i' e' issuer', s8)
      | _, _, _, _, _ => None
      end
  | None => None end
  | None => None end
  | None => None end
  | None => None end
  | None => None end
  | None => None end
  | None => None end
  | None => None end.

Definition tag (key : string) (p : JwtPayload) : string :=
  put key (payload_text p "").

Definition print (j : Jwt) : string :=
  payload_text (payload j) (put (signature j) "").

Definition parse (s : string) : option Jwt :=
  match parse_payload s with
  | Some (p, r) =>
      match get r with
      | Some (sg, EmptyString) => Some (mkJwt p sg)
      | _ => None
      end
  | None => None
  end.

Definition lib : JwtLib :=
  {| hs256 := tag; compact := print; parseCompact := parse |}.
End TextCodec.

(** ** Derived notions used in the statements *)

(** The status a handler answered with. *)
Definition status_of (o : Outcome Response) : option nat :=
  match completion o with
  | Returned r => Some (status r)
  | Threw _ => None
  end.

(** The status a middleware rejected with, if it did. *)
Definition rejection (o : Outcome Step) : option nat :=
  match completion o with
  | Returned (Respond r) => Some (status r)
  | _ => None
  end.

(** A handler answering [r], leaving the store [s] and the trace [tr]. *)
Definition reply (r : Response) (s : Store) (tr : list Event)
  : Outcome Response :=
  mkOutcome (Returned r) s tr.

(** A middleware answering with an error body, the store untouched. *)
Definition answer (code : nat) (msg : string) (s : Store) : Outcome Step :=
  mkOutcome (Returned (Respond (mkResponse code (JError msg)))) s [].

(** [pat] does not match at any position inside [a] when [a] is followed
    by [rest]. *)
Definition no_match_before (pat a rest : string) : Prop :=
  forall a1 a2, a = a1 ++ a2 -> a2 <> "" ->
                String.prefix pat (a2 ++ rest) = false.

(** What a middleware decided, leaving aside the parts of the request it
    does not write: the response it sent, or the user and tenant the
    forwarded request carries. *)
Inductive Verdict :=
| Rejected (res : Response)
| Forwarded (u : option User.populated) (t : option Tenant.doc)
| Crashed (e : JsError).

Definition verdict (o : Outcome Step) : Verdict :=
  match completion o with
  | Returned (Respond r) => Rejected r
  | Returned (Next req) => Forwarded (user req) (tenant req)
  | Threw e => Crashed e
  end.

(** [x] is the first element of [l] with the property [P]: what a
    [findOne] returns among the documents that match. *)
Definition first_such {A} (P : A -> Prop) (l : list A) (x : A) : Prop :=
  exists l1 l2, l = (l1 ++ x :: l2)%list /\ P x /\
                forall y, In y l1 -> ~ P y.

(** [pu] is the stored user [u] as a request carries it: the password
    left out, and in place of the tenant reference the stored tenant with
    that id, or [null] when the store has none. *)
Definition populated_from (s : Store) (u : User.doc) (pu : User.populated)
  : Prop :=
  User.p_id pu = User._id u /\ User.p_email pu = User.email u /\
  User.p_role pu = User.role u /\ User.p_isActive pu = User.isActive u /\
  match User.p_tenant pu with
  | Some t => first_such (fun x => Tenant._id x = User.tenant u) (tenants s) t
  | None => forall t, In t (tenants s) -> Tenant._id t <> User.tenant u
  end.

(** The token string [authenticate] takes from the header. *)
Definition token_of (req : Request) : option string :=
  option_map (replace "Bearer " "") (header_Authorization req).

(** Every note the ownership policy was run on while the handler ran
    belongs to the tenant attached to the request. *)
Definition canModify_calls_in_tenant (req : Request)
  (o : Outcome Response) : Prop :=
  forall n uid r, In (EvCanModify n uid r) (trace o) ->
    exists t, tenant req = Some t /\ Note.tenant n = Tenant._id t.

(** The fields of a note that tie it to its owner. *)
Definition ownership (n : Note.doc) : ObjectId * ObjectId * ObjectId :=
  (Note._id n, Note.author n, Note.tenant n).

(** A note's tenant is its author's tenant. *)
Definition tenant_matches_author (s : Store) (n : Note.doc) : Prop :=
  exists u, userById s (Note.author n) = Some u /\
            User.tenant u = Note.tenant n.

Definition notes_inv (s : Store) : Prop :=
  forall n, In n (notes s) -> tenant_matches_author s n.

(** All notes a tenant owns, archived or not: the documents
    [countDocuments({ tenant })] counts. *)
Definition notesOfTenant (s : Store) (t : Tenant.doc) : list Note.doc :=
  filter (fun n => String.eqb (Note.tenant n) (Tenant._id t)) (notes s).

Definition noteCount (s : Store) (t : Tenant.doc) : Z :=
  Z.of_nat (length (notesOfTenant s t)).

(** The test [canModify] makes on a note whose [author] path holds the
    stored reference. *)
Definition owns_or_admin (n : Note.doc) (userId : ObjectId)
  (userRole : Role) : bool :=
  (Role_eqb userRole admin || String.eqb (Note.author n) userId)%bool.

(** The ownership policy as the specification words it, over a user
    document: an admin of the note's tenant may always modify; anybody
    else may iff they are the author. *)
Definition canModify_spec (n : Note.doc) (actingUser : User.doc) : bool :=
  if (Role_eqb (User.role actingUser) admin
      && String.eqb (User.tenant actingUser) (Note.tenant n))%bool
  then true
  else String.eqb (Note.author n) (User._id actingUser).

(** ** config/seeder.js: the seeded documents *)

Module Seed.
Definition acmeId : ObjectId := "650000000000000000000001".
Definition globexId : ObjectId := "650000000000000000000002".

Definition acmeTenant : Tenant.doc :=
  Tenant.build acmeId (Tenant.mkInput "Acme Corporation" "acme" (Some free) None).
Definition globexTenant : Tenant.doc :=
  Tenant.build globexId
    (Tenant.mkInput "Globex Corporation" "globex" (Some free) None).

Definition adminAcme : User.doc :=
  User.mk "650000000000000000000011" "admin@acme.test" "hash" admin acmeId true.
Definition userAcme : User.doc :=
  User.mk "650000000000000000000012" "user@acme.test" "hash" member acmeId true.
Definition adminGlobex : User.doc :=
  User.mk "650000000000000000000013" "admin@globex.test" "hash" admin globexId
    true.
Definition userGlobex : User.doc :=
  User.mk "650000000000000000000014" "user@globex.test" "hash" member globexId
    true.

Definition note1 : Note.doc :=
  Note.mk "650000000000000000000021" "Welcome to Acme Notes" "first note"
    (User._id userAcme) acmeId ["welcome"; "sample"] false.
Definition note2 : Note.doc :=
  Note.mk "650000000000000000000022" "Meeting Notes - Q4 Planning" "goals"
    (User._id adminAcme) acmeId ["meeting"; "planning"; "q4"] false.
Definition note3 : Note.doc :=
  Note.mk "650000000000000000000023" "Globex Project Ideas" "ideas"
    (User._id userGlobex) globexId ["brainstorming"; "projects"] false.

Definition seeded : Store :=
  mkStore [acmeTenant; globexTenant]
    [adminAcme; userAcme; adminGlobex; userGlobex]
    [note1; note2; note3].

(** The seeded store after Acme has filed a third note, an archived one. *)
Definition note4 : Note.doc :=
  Note.mk "650000000000000000000024" "Old minutes" "archived"
    (User._id adminAcme) acmeId [] true.

Definition acmeFull : Store :=
  mkStore (tenants seeded) (users seeded) [note1; note2; note3; note4].
(** Requests against the seeded store. *)
Definition emptyBody : Body := mkBody None None None None.

Definition request (h : option string) (slug : string) : Request :=
  mkRequest h slug (Uncastable "") (Uncastable "") emptyBody [] None None.

(** The request as [authenticate] forwards it for a stored user. *)
Definition signedIn (s : Store) (u : User.doc) (req : Request) : Request :=
  attach req (Some (populate_tenant s u)) (tenantById s (User.tenant u)).

Definition env : Env := mkEnv (Some "s3cret") (Some 60).

Definition claimsOf (u : User.doc) (t : Tenant.doc) : Claims :=
  mkClaims (Castable (User._id u)) (User.email u) (User.role u)
    (Tenant._id t) (Tenant.slug t).

(** The token [generateToken] issues to the Acme member at clock 10
    under the reference codec. *)
Definition userAcmeToken : string :=
  match @generateToken TextCodec.lib env 10 (claimsOf userAcme acmeTenant)
  with
  | Returned t => t
  | Threw _ => ""
  end.
(** A request on the notes routes by a stored user, for the note [id]. *)
Definition noteRequest (s : Store) (u : User.doc) (id : ObjectId) (b : Body)
  : Request :=
  signedIn s u (mkRequest None "" (Castable id) (Uncastable "") b [] None None).

Definition newNoteBody : Body :=
  mkBody (Some "Fourth note") (Some "text") (Some (TagsArray ["a"])) None.

(** A request on the tenant routes by a stored user, for the user [id]. *)
Definition userRequest (s : Store) (u : User.doc) (slug : string)
  (id : ObjectId) (r : option string) : Request :=
  signedIn s u
    (mkRequest None slug (Uncastable "") (Castable id)
       (mkBody None None None r) [] None None).

(** A configuration with tokens that live one second. *)
Definition shortLived : Env := mkEnv (Some "s3cret") (Some 1).

(** What [jwt.verify] decodes from that token before it expires. *)
Definition userAcmePayload : JwtPayload :=
  mkPayload (claimsOf userAcme acmeTenant) 10 (Some 70) (Some "notes-saas").
End Seed.

(** * The rest of the backend

    The route wiring, the tenant information and upgrade handlers, and
    login. *)

(** ** routes/notes.js and routes/tenants.js: the middleware chains *)

(** Middleware in sequence: the next one runs on the request the one
    before it passed to [next()], and not at all after a response. *)
Definition andThen (m : Async Step) (k : Request -> Async Step)
  : Async Step :=
  await st <- m ;;
  match st with
  | Next req' => k req'
  | Respond res => ret (Respond res)
  end.

(** A chain followed by the route's handler; [reject] carries a response
    of the middleware over to the handler's response type. *)
Definition route {R} (chain : Async Step) (reject : Response -> R)
  (handler : Request -> Async R) : Async R :=
  await st <- chain ;;
  match st with
  | Next req' => handler req'
  | Respond res => ret (reject res)
  end.

Section Wiring.
Context {L : JwtLib}.

(** [router.use(authenticate); router.use(requireMember);] *)
Definition notesChain (env : Env) (now : Z) (req : Request) : Async Step :=
  andThen (authenticate env now req) (fun r => ret (requireMember r)).

(** [authenticate, requireMember, validateTenant] *)
Definition tenantMemberChain (env : Env) (now : Z) (req : Request)
  : Async Step :=
  andThen (andThen (authenticate env now req)
             (fun r => ret (requireMember r)))
    validateTenant.

(** [authenticate, requireAdmin, validateTenant] *)
Definition tenantAdminChain (env : Env) (now : Z) (req : Request)
  : Async Step :=
  andThen (andThen (authenticate env now req)
             (fun r => ret (requireAdmin r)))
    validateTenant.

(** A route of routes/notes.js. *)
Definition notesRoute (handler : Request -> Async Response)
  (env : Env) (now : Z) (req : Request) : Async Response :=
  route (notesChain env now req) (fun res => res) handler.
End Wiring.

(** ** controllers/tenantController.js: tenant information and upgrade *)

Record TenantStats := mkTenantStats {
  totalUsers : nat;
  totalNotes : nat;
  canCreateNotes : bool
}.

(** The JSON bodies of [getTenant] and [upgradeTenant], by shape. *)
Inductive TenantJson :=
| TError (error : string)
| TInfo (t : Tenant.doc) (isPro : bool) (stats : TenantStats)
| TUpgraded (message : string) (t : Tenant.doc) (isPro : bool).

Record TenantResponse := mkTenantResponse {
  tstatus : nat;
  tjson : TenantJson
}.

Definition tenantError (code : nat) (msg : string) : TenantResponse :=
  mkTenantResponse code (TError msg).

(** A response of the middleware, on a route whose handler answers with
    a [TenantResponse]. *)
Definition asTenantResponse (res : Response) : TenantResponse :=
  mkTenantResponse (status res)
    (TError (match json res with
             | JError e => e
             | _ => ""
             end)).

(** [User.countDocuments(filter)] *)
Definition User_countDocuments (f : User.doc -> bool) : Async nat :=
  await s <- get_store ;; ret (length (filter f (users s))).

Definition getTenant (req : Request) : Async TenantResponse :=
  try_catch
    (await tenant <- Tenant_findOne_slug (params_slug req) ;;
     match tenant with
     | None => ret (tenantError 404 "Tenant not found")
     | Some t =>
         await nUsers <-
           User_countDocuments
             (fun u => (String.eqb (User.tenant u) (Tenant._id t)
                        && Bool.eqb (User.isActive u) true)%bool) ;;
         await nNotes <-
           Note_countDocuments
             (fun n => (String.eqb (Note.tenant n) (Tenant._id t)
                        && Bool.eqb (Note.isArchived n) false)%bool) ;;
         await can <- canCreateNote t ;;
         ret (mkTenantResponse 200
                (TInfo t (Tenant.isPro t) (mkTenantStats nUsers nNotes can)))
     end)
    (fun _ => ret (tenantError 500 "Internal server error")).

(** [upgradeTenant]; [now] is what [new Date()] reads in [upgradeToPro]. *)
Definition upgradeTenant (now : Z) (req : Request) : Async TenantResponse :=
  try_catch
    (await tenant <- Tenant_findOne_slug (params_slug req) ;;
     match tenant with
     | None => ret (tenantError 404 "Tenant not found")
     | Some t =>
         await own <- user_tenant_id req ;;
         if negb (String.eqb (toString own) (toString (Tenant._id t))) then
           ret (tenantError 403
                  "Access denied. You can only upgrade your own tenant.")
         else
           await u <- user_of req ;;
           if negb (Role_eqb (User.p_role u) admin) then
             ret (tenantError 403
                    "Access denied. Admin privileges required for subscription upgrades.")
           else if Plan_eqb (Tenant.plan t) pro then
             ret (tenantError 400 "Tenant is already on Pro plan")
           else
             await t' <- upgradeToPro now t ;;
             ret (mkTenantResponse 200
                    (TUpgraded "Successfully upgraded to Pro plan" t'
                       (Tenant.isPro t')))
     end)
    (fun _ => ret (tenantError 500 "Internal server error")).

(** ** utils/jwt.js: the access token of a user *)

(** The [tenant] field of the user object [generateAccessToken] is given:
    the populated document, a bare reference, or [null]. *)
Inductive TenantField :=
| TenantDoc (t : Tenant.doc)
| TenantRef (o : ObjectId)
| TenantNull.

(** What [generateAccessToken] returns: the token string, or, when
    [user.tenant.slug] is falsy on a populated tenant, a token whose
    [tenantSlug] claim is the tenant document itself ([user.tenant.slug ||
    user.tenant]); such a payload is not a claim set of strings and its
    token is not given a string here. *)
Inductive AccessToken :=
| TokenString (tok : string)
| TokenWithTenantAsSlug (t : Tenant.doc).

Section AccessTokens.
Context {L : JwtLib}.

Definition generateAccessToken (env : Env) (now : Z) (_id : ObjectId)
  (email : string) (role : Role) (tenant : TenantField)
  : Completion AccessToken :=
  match tenant with
  | TenantNull => Threw (TypeError "Cannot read properties of null")
  | TenantRef o =>
      match generateToken env now (mkClaims (Castable _id) email role o o)
      with
      | Returned tok => Returned (TokenString tok)
      | Threw e => Threw e
      end
  | TenantDoc t =>
      if truthy (Some (Tenant.slug t)) then
        match generateToken env now
                (mkClaims (Castable _id) email role (Tenant._id t)
                   (Tenant.slug t)) with
        | Returned tok => Returned (TokenString tok)
        | Threw e => Threw e
        end
      else if truthy (JWT_SECRET env) then Returned (TokenWithTenantAsSlug t)
      else Threw (Error "secretOrPrivateKey must have a value")
  end.
End AccessTokens.

(** ** controllers/authController.js: login *)

Record LoginBody := mkLoginBody {
  lb_email : option string;
  lb_password : option string
}.

Record LoginRequest := mkLoginRequest {
  l_validationErrors : list string;
  l_body : LoginBody
}.

(** Modelled from the spec: models/User.js is not among the sources.
    [user.comparePassword(candidate)] checks a candidate against the
    hashed credential of the user; it is an operation of an interface, and
    may throw. *)
Class PasswordLib := {
  comparePassword : User.doc -> option string -> Completion bool
}.

Inductive LoginJson :=
| LError (error : string)
| LValidation (details : list string)
| LSuccess (token : AccessToken) (u : User.populated).

Record LoginResponse := mkLoginResponse {
  lstatus : nat;
  ljson : LoginJson
}.

Definition userByEmail (s : Store) (e : string) : option User.doc :=
  find (fun u => String.eqb (User.email u) e) (users s).

(** [User.findOne({ email }).populate("tenant", "name slug subscription")]:
    the stored document, and the document as populated. *)
Definition User_findOne_email_populated (e : string)
  : Async (option (User.doc * User.populated)) :=
  await s <- get_store ;;
  ret (option_map (fun u => (u, populate_tenant s u)) (userByEmail s e)).

Section Login.
Context {L : JwtLib} {P : PasswordLib}.

Definition login (env : Env) (now : Z) (req : LoginRequest)
  : Async LoginResponse :=
  try_catch
    (match l_validationErrors req with
     | _ :: _ =>
         ret (mkLoginResponse 400 (LValidation (l_validationErrors req)))
     | [] =>
         match lb_email (l_body req) with
         | None => throw (TypeError "Cannot read properties of undefined")
         | Some e =>
             await user <- User_findOne_email_populated (toLowerCase e) ;;
             match user with
             | None =>
                 ret (mkLoginResponse 401 (LError "Invalid credentials"))
             | Some (u, pu) =>
                 if negb (User.isActive u) then
                   ret (mkLoginResponse 401
                          (LError "Account is deactivated"))
                 else
                   await isPasswordValid <-
                     lift (comparePassword u (lb_password (l_body req))) ;;
                   if negb isPasswordValid then
                     ret (mkLoginResponse 401 (LError "Invalid credentials"))
                   else
                     await token <-
                       lift (generateAccessToken env now (User._id u)
                               (User.email u) (User.role u)
                               (match User.p_tenant pu with
                                | Some t => TenantDoc t
                                | None => TenantNull
                                end)) ;;
                     ret (mkLoginResponse 200 (LSuccess token pu))
             end
         end
     end)
    (fun _ => ret (mkLoginResponse 500 (LError "Internal server error"))).
End Login.

(** [login] answering with an error body, the store untouched. *)
Definition login_answer (code : nat) (msg : string) (s : Store)
  : Outcome LoginResponse :=
  mkOutcome (Returned (mkLoginResponse code (LError msg))) s [].

(** ** Histories over all writing requests *)

Inductive Action :=
| Write (op : Op)
| Upgrade (now : Z) (req : Request).

Definition perform (s : Store) (a : Action) : Store :=
  match a with
  | Write op => step s op
  | Upgrade now req => store (upgradeTenant now req s)
  end.

Definition perform_all (acts : list Action) (s : Store) : Store :=
  fold_left perform acts s.

(** ** Further notions used in the statements *)

(** No two stored notes share an [_id] (the unique index every
    collection has on [_id]). *)
Definition unique_note_ids (s : Store) : Prop :=
  NoDup (map Note._id (notes s)).

(** The notes that do not belong to tenant [tid]. *)
Definition notesOutside (tid : ObjectId) (s : Store) : list Note.doc :=
  filter (fun n => negb (String.eqb (Note.tenant n) tid)) (notes s).

(** Every free-plan tenant holds at most [max_notes] notes. *)
Definition within_quota (s : Store) : Prop :=
  forall i t, tenantById s i = Some t -> Tenant.plan t = free ->
              noteCount s t <= Tenant.max_notes t.

(** The tenants by what identifies them. *)
Definition tenant_identity (t : Tenant.doc) : ObjectId * string * string :=
  (Tenant._id t, Tenant.slug t, Tenant.name t).

(** The compact serialization never is the empty string. *)
Definition nonempty_tokens (L : JwtLib) : Prop :=
  forall j : Jwt, compact j <> "".

(** A password check for the examples: the credential is stored as it
    is. *)
Definition plainPasswords : PasswordLib :=
  {| comparePassword := fun u candidate =>
       match candidate with
       | Some c => Returned (String.eqb c (User.password u))
       | None => Threw (Error "data and hash arguments required")
       end |}.

(** The request with another note id in its path. *)
Definition set_id (req : Request) (id : QueryId) : Request :=
  mkRequest (header_Authorization req) (params_slug req) id
    (params_userId req) (body req) (validationErrors req) (user req)
    (tenant req).

(** The number of notes of tenant [tid]. *)
Definition countOf (tid : ObjectId) (l : list Note.doc) : nat :=
  length (filter (fun n => String.eqb (Note.tenant n) tid) l).

(** The ids of the archived notes, in store order. *)
Definition archived_ids (s : Store) : list ObjectId :=
  map Note._id (filter Note.isArchived (notes s)).

(** The users by what identifies them, lets them sign in and places them
    in a tenant. *)
Definition user_identity (u : User.doc)
  : ObjectId * string * string * ObjectId :=
  (User._id u, User.email u, User.password u, User.tenant u).

(** ** Further example data *)

Module Demo.
(** The token [generateToken] issues to the Acme admin at clock 10 under
    the reference codec, and what [jwt.verify] decodes from it. *)
Definition adminAcmeToken : string :=
  match @generateToken TextCodec.lib Seed.env 10
          (Seed.claimsOf Seed.adminAcme Seed.acmeTenant)
  with
  | Returned t => t
  | Threw _ => ""
  end.

Definition adminAcmePayload : JwtPayload :=
  mkPayload (Seed.claimsOf Seed.adminAcme Seed.acmeTenant) 10 (Some 70)
    (Some "notes-saas").

(** A request carrying a token, a path slug, a note id and a body. *)
Definition bearer (tok : string) (slug : string) (id : QueryId) (b : Body)
  : Request :=
  mkRequest (Some ("Bearer " ++ tok)) slug id (Uncastable "") b [] None None.

(** The seeded store with Acme's second note archived. *)
(** Code units beyond Basic Latin: the no-break space, and E with acute
    accent in upper and in lower case. *)
Definition nbsp : string := String (ascii_of_nat 160) "".
Definition E_acute : string := String (ascii_of_nat 201) "".
Definition e_acute : string := String (ascii_of_nat 233) "".

(** A note body whose title has no-break spaces around it and whose tag
    is in upper case, accents included. *)
Definition latinBody : Body :=
  mkBody (Some (nbsp ++ "Menu du jour " ++ nbsp)) (Some "text")
    (Some (TagsArray [" " ++ E_acute ++ "T" ++ E_acute ++ nbsp])) None.

(** A note body whose title is white space only. *)
Definition blankTitleBody : Body :=
  mkBody (Some (nbsp ++ " ")) (Some "text") None None.

(** A sign-in of the Acme admin, the address typed with capitals. *)
Definition adminLogin : LoginRequest :=
  mkLoginRequest [] (mkLoginBody (Some "Admin@Acme.Test") (Some "hash")).

(** An environment without a signing secret. *)
Definition noSecret : Env := mkEnv None (Some 60).

Definition archivedOne : Store :=
  mkStore (tenants Seed.seeded) (users Seed.seeded)
    [Seed.note1;
     Note.mk (Note._id Seed.note2) (Note.title Seed.note2)
       (Note.content Seed.note2) (Note.author Seed.note2)
       (Note.tenant Seed.note2) (Note.tags Seed.note2) true;
     Seed.note3].
End Demo.

(** * Properties *)

Unset Implicit Arguments.

(** ** Equality tests *)

Lemma Role_eqb_eq (a b : Role) : Role_eqb a b = true <-> a = b.
Proof. destruct a, b; simpl; split; congruence. Qed.

Lemma Plan_eqb_eq (a b : Plan) : Plan_eqb a b = true <-> a = b.
Proof. destruct a, b; simpl; split; congruence. Qed.

Lemma filter_split_length {A} (p q : A -> bool) (l : list A) :
  length (filter p l) =
  (length (filter q (filter p l))
   + length (filter (fun x => negb (q x)) (filter p l)))%nat.
Proof.
  induction (filter p l) as [|x xs IH]; simpl; [reflexivity|].
  destruct (q x); simpl; lia.
Qed.

(** ** Subscription gate *)

(** C1. A pro tenant may always create a note.  A free tenant may create
    one iff the number of all notes it owns, archived ones included, is
    strictly below its [max_notes]; so not at [max_notes], and yes at
    [max_notes - 1].  The call reads the store and changes nothing.  A
    tenant created without a [max_notes] setting has the limit 3. *)
Theorem canCreateNote_quota (t : Tenant.doc) (s : Store) :
  (Tenant.plan t = pro ->
     canCreateNote t s = mkOutcome (Returned true) s []) /\
  (Tenant.plan t = free ->
     canCreateNote t s =
       mkOutcome (Returned (noteCount s t <? Tenant.max_notes t)) s [] /\
     ((noteCount s t <? Tenant.max_notes t) = true <->
        noteCount s t < Tenant.max_notes t) /\
     (noteCount s t = Tenant.max_notes t ->
        canCreateNote t s = mkOutcome (Returned false) s []) /\
     (noteCount s t = Tenant.max_notes t - 1 ->
        canCreateNote t s = mkOutcome (Returned true) s [])) /\
  length (notesOfTenant s t) =
    (length (filter Note.isArchived (notesOfTenant s t))
     + length (filter (fun n => negb (Note.isArchived n))
                 (notesOfTenant s t)))%nat /\
  (forall oid i, Tenant.in_max_notes i = None ->
     Tenant.max_notes (Tenant.build oid i) = 3).
Proof.
  assert (Hfree : Tenant.plan t = free ->
            canCreateNote t s =
            mkOutcome (Returned (noteCount s t <? Tenant.max_notes t)) s []).
  { intros Hp. unfold canCreateNote. rewrite Hp. reflexivity. }
  repeat split.
  - intros Hp. unfold canCreateNote. rewrite Hp. reflexivity.
  - exact (Hfree H).
  - apply Z.ltb_lt.
  - apply Z.ltb_lt.
  - intros Hc. rewrite (Hfree H).
    replace (noteCount s t <? Tenant.max_notes t) with false; [reflexivity|].
    symmetry. apply Z.ltb_ge. lia.
  - intros Hc. rewrite (Hfree H).
    replace (noteCount s t <? Tenant.max_notes t) with true; [reflexivity|].
    symmetry. apply Z.ltb_lt. lia.
  - apply filter_split_length.
  - intros oid i Hi. unfold Tenant.build. simpl. rewrite Hi. reflexivity.
Qed.

(** The seeded Acme tenant (free plan, default limit) holding three notes,
    one of them archived, is refused; with two notes it may create one. *)
Lemma canCreateNote_quota_witness :
  canCreateNote Seed.acmeTenant Seed.acmeFull =
    mkOutcome (Returned false) Seed.acmeFull [] /\
  canCreateNote Seed.acmeTenant Seed.seeded =
    mkOutcome (Returned true) Seed.seeded [] /\
  canCreateNote (upgradedDoc 0 Seed.acmeTenant) Seed.acmeFull =
    mkOutcome (Returned true) Seed.acmeFull [].
Proof.
  split; [|split].
  - destruct (canCreateNote_quota Seed.acmeTenant Seed.acmeFull)
      as (_ & Hfree & _).
    destruct (Hfree eq_refl) as (_ & _ & Hat & _). apply Hat. reflexivity.
  - destruct (canCreateNote_quota Seed.acmeTenant Seed.seeded)
      as (_ & Hfree & _).
    destruct (Hfree eq_refl) as (_ & _ & _ & Hbelow). apply Hbelow.
    reflexivity.
  - destruct (canCreateNote_quota (upgradedDoc 0 Seed.acmeTenant)
                Seed.acmeFull) as (Hpro & _).
    apply Hpro. reflexivity.
Defined.

(** ** Note ownership policy *)

(** On a note whose [author] path holds the stored reference the test is
    the ownership test. *)
Lemma canModify_unpopulated (n : Note.doc) (uid : ObjectId) (r : Role) :
  canModify (unpopulated n) uid r = Returned (owns_or_admin n uid r).
Proof.
  unfold canModify, unpopulated, owns_or_admin, toString.
  destruct (Role_eqb r admin); reflexivity.
Qed.

(** On a note whose author has been populated the test is the role test:
    the dump of the author's document is the rendering of no id. *)
Lemma canModify_populated (s : Store) (n : Note.doc) (uid : ObjectId)
  (r : Role) :
  canModify (populate_author s n) uid r =
  if Role_eqb r admin then Returned true
  else match userById s (Note.author n) with
       | Some _ => Returned false
       | None => Threw (TypeError "Cannot read properties of null")
       end.
Proof.
  unfold canModify, populate_author. cbn [Note.path_author].
  destruct (Role_eqb r admin); [reflexivity|].
  destruct (userById s (Note.author n)); reflexivity.
Qed.

(** ** Access control chain *)

Lemma truthy_Some (x : string) : truthy (Some x) = true <-> x <> "".
Proof. destruct x; simpl; split; congruence. Qed.

(** Without a path slug the request is answered 400 before anything else
    is looked at. *)
Lemma validateTenant_requires_slug (s : Store) (req : Request) :
  params_slug req = "" ->
  validateTenant req s = answer 400 "Tenant slug is required." s.
Proof. intros H. unfold validateTenant, try_catch. rewrite H. reflexivity. Qed.

(** [find] returns the first element that passes the test. *)
Lemma find_first_such {A} (f : A -> bool) (P : A -> Prop) (l : list A)
  (x : A) :
  (forall y, f y = true <-> P y) ->
  (find f l = Some x <-> first_such P l x).
Proof.
  intros Hf. split.
  - induction l as [|y l IH]; simpl; [discriminate|].
    destruct (f y) eqn:Hy.
    + intros [= <-]. exists [], l. split; [reflexivity|].
      split; [apply Hf; exact Hy | intros z []].
    + intros H. destruct (IH H) as (l1 & l2 & -> & Hx & Hl1).
      exists (y :: l1), l2. split; [reflexivity|]. split; [exact Hx|].
      intros z [<-|Hz]; [|apply Hl1; exact Hz].
      intros Hp. apply Hf in Hp. rewrite Hp in Hy. discriminate.
  - intros (l1 & l2 & -> & Hx & Hl1).
    induction l1 as [|y l1 IH]; simpl.
    + apply Hf in Hx. rewrite Hx. reflexivity.
    + destruct (f y) eqn:Hy.
      * exfalso. apply (Hl1 y); [left; reflexivity | apply Hf; exact Hy].
      * apply IH. intros z Hz. apply Hl1. right. exact Hz.
Qed.

Lemma find_none_such {A} (f : A -> bool) (P : A -> Prop) (l : list A) :
  (forall y, f y = true <-> P y) ->
  (find f l = None <-> forall y, In y l -> ~ P y).
Proof.
  intros Hf. split.
  - intros H y Hin Hp. apply (find_none _ _ H) in Hin.
    apply Hf in Hp. rewrite Hp in Hin. discriminate.
  - intros H. destruct (find f l) as [x|] eqn:E; [|reflexivity].
    apply find_some in E. destruct E as (Hin & Hx).
    destruct (H x Hin). apply Hf. exact Hx.
Qed.

Lemma first_such_unique {A} (P : A -> Prop) (l : list A) (x y : A) :
  first_such P l x -> first_such P l y -> x = y.
Proof.
  intros (l1 & l2 & -> & Hx & Hl1). revert y.
  induction l1 as [|z l1 IH]; intros y (m1 & m2 & E & Hy & Hm1).
  - destruct m1 as [|w m1]; simpl in E.
    + injection E as -> _. reflexivity.
    + injection E as <- _. destruct (Hm1 x (or_introl eq_refl) Hx).
  - destruct m1 as [|w m1]; simpl in E.
    + injection E as <- _. destruct (Hl1 z (or_introl eq_refl) Hy).
    + injection E as <- E. apply IH.
      * intros v Hv. apply Hl1. right. exact Hv.
      * exists m1, m2. split; [exact E|]. split; [exact Hy|].
        intros v Hv. apply Hm1. right. exact Hv.
Qed.

Lemma userById_first (s : Store) (i : ObjectId) (u : User.doc) :
  userById s i = Some u <->
  first_such (fun x => User._id x = i) (users s) u.
Proof.
  apply find_first_such. intros y. apply String.eqb_eq.
Qed.

Lemma userById_None (s : Store) (i : ObjectId) :
  userById s i = None <-> forall u, In u (users s) -> User._id u <> i.
Proof.
  apply (find_none_such (fun u => String.eqb (User._id u) i)
           (fun u => User._id u = i)).
  intros y. apply String.eqb_eq.
Qed.

Lemma tenantById_first (s : Store) (i : ObjectId) (t : Tenant.doc) :
  tenantById s i = Some t <->
  first_such (fun x => Tenant._id x = i) (tenants s) t.
Proof.
  apply find_first_such. intros y. apply String.eqb_eq.
Qed.

(** The model's populate is the populate of the statements. *)
Lemma populate_tenant_from (s : Store) (u : User.doc) :
  populated_from s u (populate_tenant s u).
Proof.
  unfold populated_from, populate_tenant.
  cbn [User.p_id User.p_email User.p_role User.p_isActive User.p_tenant].
  repeat (split; [reflexivity|]).
  destruct (tenantById s (User.tenant u)) as [t|] eqn:Ht.
  - apply tenantById_first. exact Ht.
  - apply (find_none_such (fun t => String.eqb (Tenant._id t) (User.tenant u))
             (fun t => Tenant._id t = User.tenant u)); [|exact Ht].
    intros y. apply String.eqb_eq.
Qed.

Lemma tenantBySlug_first (s : Store) (slug : string) (t : Tenant.doc) :
  tenantBySlug s slug = Some t <->
  first_such (fun x => Tenant.slug x = trim (toLowerCase slug)) (tenants s) t.
Proof.
  apply find_first_such. intros y. apply String.eqb_eq.
Qed.

Lemma tenantBySlug_None (s : Store) (slug : string) :
  tenantBySlug s slug = None <->
  forall t, In t (tenants s) -> Tenant.slug t <> trim (toLowerCase slug).
Proof.
  apply (find_none_such
           (fun t => String.eqb (Tenant.slug t) (castSlug slug))
           (fun t => Tenant.slug t = trim (toLowerCase slug))).
  intros y. apply String.eqb_eq.
Qed.

(** C3. On a request that carries a path slug, [validateTenant] is
    asymmetric.  With a user attached (its tenant populated) it answers
    403 exactly when the path slug is not, character for character, the
    slug of the user's tenant, and otherwise forwards the request as it
    is, without a lookup.  With no user attached it resolves the slug by
    the lookup [Tenant.findOne({ slug })], which casts the slug by the
    schema (lower case, trimmed): it answers 404 exactly when no stored
    tenant has the cast slug, and otherwise forwards the request with the
    first such tenant attached.  The store is left as it was. *)
Theorem validateTenant_asymmetric (s : Store) (req : Request) :
  params_slug req <> "" ->
  (forall u t,
     user req = Some u -> User.p_tenant u = Some t ->
     (rejection (validateTenant req s) = Some 403%nat <->
        Tenant.slug t <> params_slug req) /\
     (Tenant.slug t = params_slug req ->
        validateTenant req s = mkOutcome (Returned (Next req)) s [])) /\
  (user req = None ->
     (rejection (validateTenant req s) = Some 404%nat <->
        forall t, In t (tenants s) ->
                  Tenant.slug t <> trim (toLowerCase (params_slug req))) /\
     (forall t,
        first_such
          (fun x => Tenant.slug x = trim (toLowerCase (params_slug req)))
          (tenants s) t ->
        validateTenant req s =
          mkOutcome
            (Returned
               (Next (mkRequest (header_Authorization req) (params_slug req)
                        (params_id req) (params_userId req) (body req)
                        (validationErrors req) None (Some t))))
            s []) /\
     (rejection (validateTenant req s) = Some 404%nat \/
      exists t, In t (tenants s) /\
                Tenant.slug t = trim (toLowerCase (params_slug req)) /\
                verdict (validateTenant req s) = Forwarded None (Some t))) /\
  store (validateTenant req s) = s.
Proof.
  intros Hslug. apply truthy_Some in Hslug.
  unfold validateTenant, try_catch, rejection.
  rewrite Hslug. simpl negb. cbv iota.
  split; [|split].
  - intros u t Hu Ht. rewrite Hu, Ht.
    destruct (String.eqb_spec (Tenant.slug t) (params_slug req)) as [E|E];
      simpl.
    + split; [split; [discriminate | congruence] | reflexivity].
    + split; [split; [intros _; exact E | reflexivity] | congruence].
  - intros Hu. rewrite Hu.
    unfold Tenant_findOne_slug, bind, get_store, ret, verdict. simpl.
    destruct (tenantBySlug s (params_slug req)) as [t|] eqn:Hfind; simpl.
    + pose proof (proj1 (tenantBySlug_first _ _ _) Hfind) as Hfirst.
      split; [|split].
      * split; [discriminate|]. intros Hnone.
        apply tenantBySlug_None in Hnone. rewrite Hnone in Hfind.
        discriminate.
      * intros t' Ht'. rewrite (first_such_unique _ _ _ _ Ht' Hfirst).
        reflexivity.
      * right. exists t. destruct Hfirst as (l1 & l2 & Hl & Hs & _).
        split; [rewrite Hl; apply in_elt|]. split; [exact Hs | reflexivity].
    + split; [|split].
      * split; [|reflexivity]. intros _. apply tenantBySlug_None.
        exact Hfind.
      * intros t' Ht'. apply tenantBySlug_first in Ht'.
        rewrite Ht' in Hfind. discriminate.
      * left. reflexivity.
  - destruct (user req) as [u|].
    + destruct (User.p_tenant u) as [t|]; simpl; [|reflexivity].
      destruct (String.eqb (Tenant.slug t) (params_slug req)); reflexivity.
    + unfold Tenant_findOne_slug, bind, get_store, ret. simpl.
      destruct (tenantBySlug s (params_slug req)); reflexivity.
Qed.

(** A member of Acme on [/Acme] and on [/globex] is answered 403 and on
    [/acme] forwarded.  Without a user, [/initech] is answered 404, and
    [/globex], [/GLOBEX] and [/ globex ] are forwarded with the Globex
    tenant attached. *)
Lemma validateTenant_asymmetric_witness :
  rejection (validateTenant
               (Seed.signedIn Seed.seeded Seed.userAcme
                  (Seed.request None "Acme")) Seed.seeded) = Some 403%nat /\
  rejection (validateTenant
               (Seed.signedIn Seed.seeded Seed.userAcme
                  (Seed.request None "globex")) Seed.seeded) = Some 403%nat /\
  verdict (validateTenant
             (Seed.signedIn Seed.seeded Seed.userAcme
                (Seed.request None "acme")) Seed.seeded) =
    Forwarded (Some (populate_tenant Seed.seeded Seed.userAcme))
      (Some Seed.acmeTenant) /\
  rejection (validateTenant (Seed.request None "initech") Seed.seeded)
    = Some 404%nat /\
  verdict (validateTenant (Seed.request None "globex") Seed.seeded) =
    Forwarded None (Some Seed.globexTenant) /\
  verdict (validateTenant (Seed.request None "GLOBEX") Seed.seeded) =
    Forwarded None (Some Seed.globexTenant) /\
  verdict (validateTenant (Seed.request None " globex ") Seed.seeded) =
    Forwarded None (Some Seed.globexTenant).
Proof.
  assert (Hne : forall a b : string, String.eqb a b = false -> a <> b)
    by (intros a b; apply String.eqb_neq).
  assert (Hglobex : forall slug,
            trim (toLowerCase slug) = "globex" ->
            first_such (fun x => Tenant.slug x = trim (toLowerCase slug))
              (tenants Seed.seeded) Seed.globexTenant).
  { intros slug E. exists [Seed.acmeTenant], []. rewrite E.
    split; [reflexivity|]. split; [reflexivity|].
    intros y [<-|[]] H. discriminate H. }
  split; [|split; [|split; [|split; [|split; [|split]]]]].
  - destruct (validateTenant_asymmetric Seed.seeded
                (Seed.signedIn Seed.seeded Seed.userAcme
                   (Seed.request None "Acme"))) as (Hu & _);
      [apply Hne; reflexivity|].
    apply (Hu (populate_tenant Seed.seeded Seed.userAcme) Seed.acmeTenant
             eq_refl eq_refl).
    apply Hne; reflexivity.
  - destruct (validateTenant_asymmetric Seed.seeded
                (Seed.signedIn Seed.seeded Seed.userAcme
                   (Seed.request None "globex"))) as (Hu & _);
      [apply Hne; reflexivity|].
    apply (Hu (populate_tenant Seed.seeded Seed.userAcme) Seed.acmeTenant
             eq_refl eq_refl).
    apply Hne; reflexivity.
  - destruct (validateTenant_asymmetric Seed.seeded
                (Seed.signedIn Seed.seeded Seed.userAcme
                   (Seed.request None "acme"))) as (Hu & _);
      [apply Hne; reflexivity|].
    destruct (Hu (populate_tenant Seed.seeded Seed.userAcme) Seed.acmeTenant
                eq_refl eq_refl) as (_ & Hpass).
    rewrite (Hpass eq_refl). reflexivity.
  - destruct (validateTenant_asymmetric Seed.seeded
                (Seed.request None "initech")) as (_ & Hanon & _);
      [apply Hne; reflexivity|].
    destruct (Hanon eq_refl) as (H404 & _). apply H404.
    intros t [<-|[<-|[]]] E; discriminate E.
  - destruct (validateTenant_asymmetric Seed.seeded
                (Seed.request None "globex")) as (_ & Hanon & _);
      [apply Hne; reflexivity|].
    destruct (Hanon eq_refl) as (_ & Hfound & _).
    rewrite (Hfound Seed.globexTenant (Hglobex "globex" eq_refl)).
    reflexivity.
  - destruct (validateTenant_asymmetric Seed.seeded
                (Seed.request None "GLOBEX")) as (_ & Hanon & _);
      [apply Hne; reflexivity|].
    destruct (Hanon eq_refl) as (_ & Hfound & _).
    rewrite (Hfound Seed.globexTenant (Hglobex "GLOBEX" eq_refl)).
    reflexivity.
  - destruct (validateTenant_asymmetric Seed.seeded
                (Seed.request None " globex ")) as (_ & Hanon & _);
      [apply Hne; reflexivity|].
    destruct (Hanon eq_refl) as (_ & Hfound & _).
    rewrite (Hfound Seed.globexTenant (Hglobex " globex " eq_refl)).
    reflexivity.
Defined.

Section Authenticate.
Context {L : JwtLib}.

(** When [jwt.verify] throws: the token does not parse, no secret is
    configured, the signature is not the one of the payload under the
    secret, or the clock has reached [exp]. *)
Lemma jwt_verify_failures (now : Z) (token : string) (secret : option string) :
  (exists e, jwt_verify now token secret = Threw e) <->
  (parseCompact token = None \/
   exists j, parseCompact token = Some j /\
     (truthy secret = false \/
      signature j <> hs256 (str secret) (payload j) \/
      exists e, exp (payload j) = Some e /\ e <= now)).
Proof.
  unfold jwt_verify.
  destruct (parseCompact token) as [j|].
  2:{ split; [intros _; left; reflexivity | intros _; eexists; reflexivity]. }
  destruct (truthy secret) eqn:Hk; simpl.
  2:{ split; [intros _; right; exists j; auto | intros _; eexists; reflexivity]. }
  destruct (String.eqb_spec (signature j) (hs256 (str secret) (payload j)))
    as [Hs|Hs]; simpl.
  2:{ split; [intros _; right; exists j; auto | intros _; eexists; reflexivity]. }
  destruct (exp (payload j)) as [e|] eqn:He.
  - destruct (Z.leb_spec e now) as [Hle|Hgt].
    + split; [intros _; right; exists j; split; [reflexivity|];
              right; right; exists e; auto
             | intros _; eexists; reflexivity].
    + split; [intros [x Hx]; discriminate|].
      intros [H|(j' & [= <-] & [H|[H|(e' & He' & Hle)]])];
        try discriminate; try contradiction.
      rewrite He in He'. injection He' as <-. lia.
  - split; [intros [x Hx]; discriminate|].
    intros [H|(j' & [= <-] & [H|[H|(e' & He' & _)]])];
      try discriminate; try contradiction.
    rewrite He in He'. discriminate.
Qed.

(** [authenticate] as one decision tree over the token, the verification
    result, the cast of the decoded [userId] and the user lookup. *)
Lemma authenticate_cases (env : Env) (now : Z) (req : Request) (s : Store) :
  authenticate env now req s =
  if truthy (token_of req) then
    match jwt_verify now (str (token_of req)) (JWT_SECRET env) with
    | Threw _ => answer 401 "Invalid token." s
    | Returned d =>
        match userId (claims d) with
        | Uncastable _ => answer 401 "Invalid token." s
        | Castable i =>
            match userById s i with
            | None => answer 401 "Invalid token. User not found." s
            | Some u =>
                if User.isActive u then
                  mkOutcome
                    (Returned (Next (attach req (Some (populate_tenant s u))
                                       (tenantById s (User.tenant u)))))
                    s []
                else answer 401 "Account is deactivated." s
            end
        end
    end
  else answer 401 "Access denied. No token provided." s.
Proof.
  unfold authenticate, try_catch, bind, lift, User_findById_populated,
    User_findById, castId, get_store, ret, throw, answer.
  fold (token_of req).
  destruct (truthy (token_of req)); simpl; [|reflexivity].
  destruct (jwt_verify now (str (token_of req)) (JWT_SECRET env)) as [d|e];
    simpl; [|reflexivity].
  destruct (userId (claims d)) as [i|raw]; simpl; [|reflexivity].
  destruct (userById s i) as [u|]; simpl; [|reflexivity].
  destruct (User.isActive u); reflexivity.
Qed.

(** C4. [authenticate] answers 401 in these cases and no other: the
    header yields no token; [jwt.verify] throws on the token (it does not
    parse, its signature is not the one of its payload, or it has
    expired); the lookup by the decoded [userId] finds no user, because no
    stored user has that id or because the value is no id at all (the
    lookup then throws, and the catch block answers); the user found is
    not active.  In the one remaining case it forwards the request with
    two fields set: [user], the first stored user with the decoded id,
    password left out and tenant populated, and [tenant], the stored
    tenant that user refers to.  It never writes to the store. *)
Theorem authenticate_outcomes (env : Env) (now : Z) (req : Request)
  (s : Store) :
  let o := authenticate env now req s in
  let checked := jwt_verify now (str (token_of req)) (JWT_SECRET env) in
  (truthy (token_of req) = false ->
     o = answer 401 "Access denied. No token provided." s) /\
  (truthy (token_of req) = true ->
     (forall e, checked = Threw e -> o = answer 401 "Invalid token." s) /\
     (forall d, checked = Returned d ->
        (forall raw, userId (claims d) = Uncastable raw ->
           o = answer 401 "Invalid token." s) /\
        (forall i, userId (claims d) = Castable i ->
           ((forall u, In u (users s) -> User._id u <> i) ->
              o = answer 401 "Invalid token. User not found." s) /\
           (forall u, first_such (fun x => User._id x = i) (users s) u ->
              (User.isActive u = false ->
                 o = answer 401 "Account is deactivated." s) /\
              (User.isActive u = true ->
                 exists pu,
                   populated_from s u pu /\
                   o = mkOutcome
                         (Returned
                            (Next (attach req (Some pu) (User.p_tenant pu))))
                         s []))))) /\
  (rejection o = Some 401%nat <->
     truthy (token_of req) = false \/
     (exists e, checked = Threw e) \/
     (exists d, checked = Returned d /\
        ((exists raw, userId (claims d) = Uncastable raw) \/
         (exists i, userId (claims d) = Castable i /\
            ((forall u, In u (users s) -> User._id u <> i) \/
             exists u, first_such (fun x => User._id x = i) (users s) u /\
                       User.isActive u = false))))) /\
  (rejection o = Some 401%nat \/
   exists req', completion o = Returned (Next req')) /\
  (forall req', completion o = Returned (Next req') ->
     exists d i u pu,
       truthy (token_of req) = true /\ checked = Returned d /\
       userId (claims d) = Castable i /\
       first_such (fun x => User._id x = i) (users s) u /\
       User.isActive u = true /\ populated_from s u pu /\
       user req' = Some pu /\ tenant req' = User.p_tenant pu /\
       header_Authorization req' = header_Authorization req /\
       params_slug req' = params_slug req /\
       params_id req' = params_id req /\
       params_userId req' = params_userId req /\
       body req' = body req /\
       validationErrors req' = validationErrors req) /\
  (truthy (token_of req) = true ->
   (parseCompact (str (token_of req)) = None \/
    exists j, parseCompact (str (token_of req)) = Some j /\
      (truthy (JWT_SECRET env) = false \/
       signature j <> hs256 (str (JWT_SECRET env)) (payload j) \/
       exists e, exp (payload j) = Some e /\ e <= now)) ->
   o = answer 401 "Invalid token." s) /\
  store o = s.
Proof.
  cbv zeta.
  pose proof (authenticate_cases env now req s) as E.
  split; [|split; [|split; [|split; [|split; [|split]]]]].
  - intros Htok. rewrite E, Htok. reflexivity.
  - intros Htok. rewrite E, Htok. split.
    + intros e He. rewrite He. reflexivity.
    + intros d Hd. rewrite Hd. split.
      * intros raw Hraw. rewrite Hraw. reflexivity.
      * intros i Hi. rewrite Hi. split.
        -- intros Hnone. rewrite (proj2 (userById_None s i) Hnone).
           reflexivity.
        -- intros u Hu. rewrite (proj2 (userById_first s i u) Hu).
           split; intros Ha; rewrite Ha; [reflexivity|].
           exists (populate_tenant s u).
           split; [apply populate_tenant_from | reflexivity].
  - rewrite E. unfold rejection.
    destruct (truthy (token_of req)) eqn:Htok;
      [|split; [intros _; left; reflexivity | reflexivity]].
    destruct (jwt_verify now (str (token_of req)) (JWT_SECRET env))
      as [d|e] eqn:Hv;
      [|split; [intros _; right; left; exists e; reflexivity | reflexivity]].
    destruct (userId (claims d)) as [i|raw] eqn:Hq;
      [|split; [intros _; right; right; exists d; split; [reflexivity|];
                left; exists raw; exact Hq | reflexivity]].
    destruct (userById s i) as [u|] eqn:Hu.
    2:{ split; [|reflexivity]. intros _. right. right. exists d.
        split; [reflexivity|]. right. exists i. split; [exact Hq|].
        left. apply userById_None. exact Hu. }
    apply userById_first in Hu.
    destruct (User.isActive u) eqn:Ha.
    + split; [discriminate|].
      intros [H|[[e H]|(d' & [= <-] & [[raw H]|(i' & Hi' & Hrest)])]];
        try discriminate.
      * rewrite Hq in H. discriminate.
      * rewrite Hq in Hi'. injection Hi' as <-.
        destruct Hrest as [H|(u' & Hu' & Ha')].
        -- destruct Hu as (l1 & l2 & Hl & Hid & _).
           destruct (H u); [rewrite Hl; apply in_elt | exact Hid].
        -- rewrite (first_such_unique _ _ _ _ Hu Hu') in Ha.
           rewrite Ha in Ha'. discriminate.
    + split; [|reflexivity]. intros _. right. right. exists d.
      split; [reflexivity|]. right. exists i. split; [exact Hq|].
      right. exists u. auto.
  - rewrite E. unfold rejection.
    destruct (truthy (token_of req)); [|left; reflexivity].
    destruct (jwt_verify now (str (token_of req)) (JWT_SECRET env)) as [d|e];
      [|left; reflexivity].
    destruct (userId (claims d)) as [i|raw]; [|left; reflexivity].
    destruct (userById s i) as [u|]; [|left; reflexivity].
    destruct (User.isActive u); [|left; reflexivity].
    right. eexists. reflexivity.
  - intros req'. rewrite E.
    destruct (truthy (token_of req)); [|discriminate].
    destruct (jwt_verify now (str (token_of req)) (JWT_SECRET env)) as [d|e];
      [|discriminate].
    destruct (userId (claims d)) as [i|raw] eqn:Hq; [|discriminate].
    destruct (userById s i) as [u|] eqn:Hu; [|discriminate].
    destruct (User.isActive u) eqn:Ha; [|discriminate].
    intros [= <-]. exists d, i, u, (populate_tenant s u).
    split; [reflexivity|]. split; [reflexivity|]. split; [exact Hq|].
    split; [apply userById_first; exact Hu|]. split; [exact Ha|].
    split; [apply populate_tenant_from|].
    repeat split.
  - intros Htok Hbad. rewrite E, Htok.
    destruct (proj2 (jwt_verify_failures now (str (token_of req))
                       (JWT_SECRET env)) Hbad) as (e & He).
    rewrite He. reflexivity.
  - rewrite E.
    destruct (truthy (token_of req)); [|reflexivity].
    destruct (jwt_verify now (str (token_of req)) (JWT_SECRET env)) as [d|e];
      [|reflexivity].
    destruct (userId (claims d)) as [i|raw]; [|reflexivity].
    destruct (userById s i) as [u|]; [|reflexivity].
    destruct (User.isActive u); reflexivity.
Qed.
End Authenticate.

(** The Acme member presents the token issued at clock 10 at clock 20 and
    is forwarded with the stored user and the Acme tenant attached; at
    clock 100 the token has expired and the answer is 401; a request
    without the header is answered 401. *)
Lemma authenticate_outcomes_witness :
  let req := Seed.request (Some ("Bearer " ++ Seed.userAcmeToken)) "" in
  let pu := User.mkPopulated "650000000000000000000012" "user@acme.test"
              member (Some Seed.acmeTenant) true in
  @authenticate TextCodec.lib Seed.env 20 req Seed.seeded =
  mkOutcome
    (Returned
       (Next (mkRequest (Some ("Bearer " ++ Seed.userAcmeToken)) ""
                (Uncastable "") (Uncastable "") Seed.emptyBody []
                (Some pu) (Some Seed.acmeTenant))))
    Seed.seeded [] /\
  @authenticate TextCodec.lib Seed.env 20 (Seed.request None "") Seed.seeded =
  answer 401 "Access denied. No token provided." Seed.seeded /\
  @authenticate TextCodec.lib Seed.env 100 req Seed.seeded =
  answer 401 "Invalid token." Seed.seeded.
Proof.
  cbv zeta. split; [|split].
  - pose proof (@authenticate_outcomes TextCodec.lib Seed.env 20
                  (Seed.request (Some ("Bearer " ++ Seed.userAcmeToken)) "")
                  Seed.seeded) as H.
    cbv zeta in H. destruct H as (_ & H & _).
    assert (Htok : truthy (token_of (Seed.request
                     (Some ("Bearer " ++ Seed.userAcmeToken)) "")) = true)
      by (vm_compute; reflexivity).
    destruct (H Htok) as (_ & Hd).
    assert (Hv : @jwt_verify TextCodec.lib 20
                   (str (token_of (Seed.request
                      (Some ("Bearer " ++ Seed.userAcmeToken)) "")))
                   (JWT_SECRET Seed.env) = Returned Seed.userAcmePayload)
      by (vm_compute; reflexivity).
    destruct (Hd _ Hv) as (_ & Hi).
    destruct (Hi (User._id Seed.userAcme) eq_refl) as (_ & Hu).
    assert (Hfirst : first_such
                       (fun x => User._id x = User._id Seed.userAcme)
                       (users Seed.seeded) Seed.userAcme).
    { exists [Seed.adminAcme], [Seed.adminGlobex; Seed.userGlobex].
      split; [reflexivity|]. split; [reflexivity|].
      intros y [<-|[]] E. discriminate E. }
    destruct (Hu Seed.userAcme Hfirst) as (_ & Hact).
    destruct (Hact eq_refl) as (pu & Hpu & Ho).
    rewrite Ho. clear Ho.
    destruct pu as [pid pemail prole ptenant pactive].
    destruct Hpu as (Hid & Hemail & Hrole & Hactive & Hten).
    cbn [User.p_id User.p_email User.p_role User.p_isActive User.p_tenant]
      in *.
    subst pid pemail prole pactive.
    assert (Et : ptenant = Some Seed.acmeTenant).
    { destruct ptenant as [t|].
      - apply (tenantById_first Seed.seeded) in Hten.
        vm_compute in Hten. injection Hten as <-. reflexivity.
      - exfalso. apply (Hten Seed.acmeTenant); [left; reflexivity|].
        reflexivity. }
    rewrite Et. reflexivity.
  - pose proof (@authenticate_outcomes TextCodec.lib Seed.env 20
                  (Seed.request None "") Seed.seeded) as H.
    cbv zeta in H. destruct H as (H & _).
    exact (H eq_refl).
  - pose proof (@authenticate_outcomes TextCodec.lib Seed.env 100
                  (Seed.request (Some ("Bearer " ++ Seed.userAcmeToken)) "")
                  Seed.seeded) as H.
    cbv zeta in H. destruct H as (_ & _ & _ & _ & _ & H & _).
    apply H; [vm_compute; reflexivity|].
    right.
    exists (mkJwt Seed.userAcmePayload
              (TextCodec.tag "s3cret" Seed.userAcmePayload)).
    split; [vm_compute; reflexivity|].
    right. right. exists 70. split; [reflexivity | lia].
Defined.

(** ** The header format *)

Lemma prefix_app (pat b : string) : String.prefix pat (pat ++ b) = true.
Proof.
  induction pat as [|c pat IH]; simpl.
  - destruct b; reflexivity.
  - destruct (ascii_dec c c) as [_|N]; [exact IH | contradiction].
Qed.

Lemma drop_app (pat b : string) : drop (String.length pat) (pat ++ b) = b.
Proof. induction pat as [|c pat IH]; simpl; [destruct b; reflexivity | exact IH]. Qed.

Lemma replace_unfold (pat rep s : string) :
  replace pat rep s =
  if String.prefix pat s then rep ++ drop (String.length pat) s
  else match s with
       | String c s' => String c (replace pat rep s')
       | EmptyString => EmptyString
       end.
Proof. destruct s; reflexivity. Qed.

Lemma replace_prefixed (pat rep b : string) :
  replace pat rep (pat ++ b) = rep ++ b.
Proof. rewrite replace_unfold, prefix_app, drop_app. reflexivity. Qed.

Lemma includes_unfold (pat s : string) :
  includes pat s =
  if String.prefix pat s then true
  else match s with
       | String _ s' => includes pat s'
       | EmptyString => false
       end.
Proof. destruct s; reflexivity. Qed.

Lemma replace_absent (pat rep s : string) :
  includes pat s = false -> replace pat rep s = s.
Proof.
  induction s as [|c s IH]; intros H;
    rewrite replace_unfold; rewrite includes_unfold in H.
  - destruct (String.prefix pat ""); [discriminate | reflexivity].
  - destruct (String.prefix pat (String c s)); [discriminate|].
    rewrite (IH H). reflexivity.
Qed.

(** The first occurrence is the one that goes. *)
Lemma replace_first_occurrence (pat rep a b : string) :
  no_match_before pat a (pat ++ b) ->
  replace pat rep (a ++ pat ++ b) = a ++ rep ++ b.
Proof.
  induction a as [|c a IH]; intros H.
  - exact (replace_prefixed pat rep b).
  - rewrite replace_unfold.
    rewrite (H "" (String c a) eq_refl) by discriminate.
    simpl. f_equal. apply IH.
    intros a1 a2 E N. apply (H (String c a1) a2); [|exact N].
    simpl. rewrite <- E. reflexivity.
Qed.

Section BearerPrefix.
Context {L : JwtLib}.

(** The decision depends on the request through the token only. *)
Lemma authenticate_by_token (env : Env) (now : Z) (r1 r2 : Request)
  (s : Store) :
  token_of r1 = token_of r2 ->
  verdict (authenticate env now r1 s) = verdict (authenticate env now r2 s).
Proof.
  intros E. rewrite !authenticate_cases, E.
  destruct (truthy (token_of r2)); [|reflexivity].
  destruct (jwt_verify now (str (token_of r2)) (JWT_SECRET env)) as [d|e];
    [|reflexivity].
  destruct (userId (claims d)) as [i|raw] eqn:Hq; [|reflexivity].
  destruct (userById s i) as [u|]; [|reflexivity].
  destruct (User.isActive u); reflexivity.
Qed.

(** C10. The [Bearer ] prefix is optional.  Whatever the header [h] is,
    [authenticate] decides as it does on the documented form carrying the
    token that is left of [h] once the first [Bearer ] in it is removed.
    So a bare token decides as the same token behind the prefix, and so
    does a header with the prefix further in.  A request without the
    header is answered 401, and a bare token that verifies for an active
    user is let through. *)
Theorem authenticate_bearer_optional (env : Env) (now : Z) (req : Request)
  (s : Store) (h : string) :
  verdict (authenticate env now (set_header req (Some h)) s) =
  verdict (authenticate env now
             (set_header req (Some ("Bearer " ++ replace "Bearer " "" h))) s)
  /\
  (includes "Bearer " h = false ->
     verdict (authenticate env now (set_header req (Some h)) s) =
     verdict (authenticate env now
                (set_header req (Some ("Bearer " ++ h))) s)) /\
  (forall a b, h = a ++ "Bearer " ++ b ->
     no_match_before "Bearer " a ("Bearer " ++ b) ->
     verdict (authenticate env now (set_header req (Some h)) s) =
     verdict (authenticate env now
                (set_header req (Some ("Bearer " ++ a ++ b))) s)) /\
  authenticate env now (set_header req None) s =
    answer 401 "Access denied. No token provided." s /\
  (forall d i u,
     h <> "" -> includes "Bearer " h = false ->
     jwt_verify now h (JWT_SECRET env) = Returned d ->
     userId (claims d) = Castable i ->
     userById s i = Some u -> User.isActive u = true ->
     verdict (authenticate env now (set_header req (Some h)) s) =
     Forwarded (Some (populate_tenant s u)) (tenantById s (User.tenant u))).
Proof.
  split; [|split; [|split; [|split]]].
  - apply authenticate_by_token. unfold token_of, set_header.
    cbn [header_Authorization option_map].
    rewrite (replace_prefixed "Bearer " "" (replace "Bearer " "" h)).
    reflexivity.
  - intros Hbare. apply authenticate_by_token. unfold token_of, set_header.
    cbn [header_Authorization option_map].
    rewrite (replace_prefixed "Bearer " "" h), (replace_absent _ _ _ Hbare).
    reflexivity.
  - intros a b -> Hfirst. apply authenticate_by_token. unfold token_of, set_header.
    cbn [header_Authorization option_map].
    rewrite (replace_prefixed "Bearer " "" (a ++ b)).
    rewrite (replace_first_occurrence "Bearer " "" a b Hfirst). reflexivity.
  - rewrite authenticate_cases. reflexivity.
  - intros d i u Hne Hbare Hv Hi Hu Ha. rewrite authenticate_cases.
    unfold token_of, set_header.
    cbn [header_Authorization option_map]. rewrite (replace_absent _ _ _ Hbare).
    apply truthy_Some in Hne. rewrite Hne. simpl str.
    rewrite Hv, Hi, Hu, Ha. reflexivity.
Qed.
End BearerPrefix.

(** The Acme member's token sent bare, and sent with the prefix after a
    scheme word, decides as the documented header does: it is let through. *)
Lemma authenticate_bearer_optional_witness :
  let anon := Seed.request None "" in
  let tok := Seed.userAcmeToken in
  verdict (@authenticate TextCodec.lib Seed.env 20
             (set_header anon (Some tok)) Seed.seeded) =
  verdict (@authenticate TextCodec.lib Seed.env 20
             (set_header anon (Some ("Bearer " ++ tok))) Seed.seeded) /\
  verdict (@authenticate TextCodec.lib Seed.env 20
             (set_header anon (Some ("jwt" ++ "Bearer " ++ tok))) Seed.seeded) =
  verdict (@authenticate TextCodec.lib Seed.env 20
             (set_header anon (Some ("Bearer " ++ "jwt" ++ tok))) Seed.seeded) /\
  verdict (@authenticate TextCodec.lib Seed.env 20
             (set_header anon (Some tok)) Seed.seeded) =
  Forwarded (Some (populate_tenant Seed.seeded Seed.userAcme))
    (tenantById Seed.seeded (User.tenant Seed.userAcme)).
Proof.
  cbv zeta.
  assert (Hbare : includes "Bearer " Seed.userAcmeToken = false)
    by (vm_compute; reflexivity).
  split; [|split].
  - destruct (@authenticate_bearer_optional TextCodec.lib Seed.env 20
                (Seed.request None "") Seed.seeded Seed.userAcmeToken)
      as (_ & H & _).
    exact (H Hbare).
  - destruct (@authenticate_bearer_optional TextCodec.lib Seed.env 20
                (Seed.request None "") Seed.seeded
                ("jwt" ++ "Bearer " ++ Seed.userAcmeToken))
      as (_ & _ & H & _).
    apply (H "jwt" Seed.userAcmeToken eq_refl).
    intros a1 a2 E N.
    destruct a1 as [|c1 [|c2 [|c3 a1]]]; simpl in E.
    + subst a2. vm_compute. reflexivity.
    + injection E as _ <-. vm_compute. reflexivity.
    + injection E as _ _ <-. vm_compute. reflexivity.
    + injection E as _ _ _ E. destruct a1; simpl in E;
        [subst a2; contradiction | discriminate].
  - destruct (@authenticate_bearer_optional TextCodec.lib Seed.env 20
                (Seed.request None "") Seed.seeded Seed.userAcmeToken)
      as (_ & _ & _ & _ & H).
    apply (H Seed.userAcmePayload (User._id Seed.userAcme) Seed.userAcme).
    + vm_compute. discriminate.
    + exact Hbare.
    + vm_compute. reflexivity.
    + reflexivity.
    + reflexivity.
    + reflexivity.
Defined.

(** ** Note handlers *)

Ltac run :=
  repeat (progress unfold try_catch, bind, castId, tenant_of, user_of,
            call_canModify, Note_findOne_id_tenant,
            Note_findOne_id_tenant_populated, Note_findByIdAndDelete,
            Note_findByIdAndUpdate, Note_countDocuments, User_findById,
            User_findOne_id_tenant, Tenant_findOne_slug, user_tenant_id,
            User_save, emit, get_store, put_store, ret, throw, lift,
            catch_note, reply);
  cbv beta iota; cbn [app].

Lemma noteInTenant_tenant (s : Store) (i tid : ObjectId) (n : Note.doc) :
  noteInTenant s i tid = Some n ->
  In n (notes s) /\ Note._id n = i /\ Note.tenant n = tid.
Proof.
  unfold noteInTenant. intros H. apply find_some in H.
  destruct H as (Hin & Hp). apply andb_true_iff in Hp.
  destruct Hp as (Hi & Ht). apply String.eqb_eq in Hi, Ht. auto.
Qed.

Lemma noteInTenant_hidden (s : Store) (i tid : ObjectId) :
  (forall n, In n (notes s) -> Note._id n = i -> Note.tenant n <> tid) ->
  noteInTenant s i tid = None.
Proof.
  intros H. destruct (noteInTenant s i tid) as [n|] eqn:E; [|reflexivity].
  apply noteInTenant_tenant in E. destruct E as (Hin & Hi & Ht).
  destruct (H n Hin Hi Ht).
Qed.

(** [getNote] as a decision tree. *)
Lemma getNote_cases (req : Request) (s : Store) :
  getNote req s =
  match tenant req with
  | None => reply internal_error s []
  | Some t =>
      match params_id req with
      | Uncastable _ => reply note_not_found s []
      | Castable i =>
          match noteInTenant s i (Tenant._id t) with
          | None => reply note_not_found s []
          | Some n => reply (mkResponse 200 (JNote "" (Some n))) s []
          end
      end
  end.
Proof.
  unfold getNote. run.
  destruct (tenant req) as [t|]; simpl; [|reflexivity].
  destruct (params_id req) as [i|raw]; simpl; [|reflexivity].
  destruct (noteInTenant s i (Tenant._id t)); reflexivity.
Qed.

(** [deleteNote] up to the ownership check. *)
Lemma deleteNote_cases (req : Request) (s : Store) :
  deleteNote req s =
  match tenant req with
  | None => reply internal_error s []
  | Some t =>
      match params_id req with
      | Uncastable _ => reply note_not_found s []
      | Castable i =>
          match noteInTenant s i (Tenant._id t) with
          | None => reply note_not_found s []
          | Some n =>
              match user req with
              | None => reply internal_error s []
              | Some u =>
                  if owns_or_admin n (User.p_id u) (User.p_role u) then
                    reply (mkResponse 200
                             (JMessage "Note deleted successfully"))
                      (mkStore (tenants s) (users s)
                         (remove_first
                            (fun x => String.eqb (Note._id x) i) (notes s)))
                      [EvCanModify n (User.p_id u) (User.p_role u);
                       EvNoteDelete i]
                  else
                    reply (mkResponse 403
                             (JError
                                "Access denied. You can only delete your own notes."))
                      s [EvCanModify n (User.p_id u) (User.p_role u)]
              end
          end
      end
  end.
Proof.
  unfold deleteNote. run.
  destruct (tenant req) as [t|]; simpl; [|reflexivity].
  destruct (params_id req) as [i|raw]; simpl; [|reflexivity].
  destruct (noteInTenant s i (Tenant._id t)) as [n|] eqn:Hn; simpl;
    [|reflexivity].
  destruct (user req) as [u|]; simpl; [|reflexivity].
  rewrite canModify_unpopulated.
  destruct (owns_or_admin n (User.p_id u) (User.p_role u)); simpl;
    [|reflexivity].
  apply noteInTenant_tenant in Hn. destruct Hn as (Hin & Hi & _).
  destruct (find (fun x => String.eqb (Note._id x) i) (notes s)) eqn:Hf;
    simpl; [reflexivity|].
  exfalso. apply (find_none _ _ Hf) in Hin. simpl in Hin.
  rewrite Hi, String.eqb_refl in Hin. discriminate.
Qed.

(** [updateNote] as a decision tree. *)
Lemma updateNote_cases (req : Request) (s : Store) :
  updateNote req s =
  match validationErrors req with
  | _ :: _ => reply (mkResponse 400 (JValidation (validationErrors req))) s []
  | [] =>
  match tenant req with
  | None => reply internal_error s []
  | Some t =>
      match params_id req with
      | Uncastable _ => reply note_not_found s []
      | Castable i =>
          match noteInTenant s i (Tenant._id t) with
          | None => reply note_not_found s []
          | Some n =>
              match user req with
              | None => reply internal_error s []
              | Some u =>
                  let call := EvCanModify n (User.p_id u) (User.p_role u) in
                  if Role_eqb (User.p_role u) admin then
                    if valid_update (updateData_of (body req)) then
                      reply (mkResponse 200
                               (JNote "Note updated successfully"
                                  (option_map
                                     (apply_update (updateData_of (body req)))
                                     (find (fun x => String.eqb (Note._id x) i)
                                        (notes s)))))
                        (mkStore (tenants s) (users s)
                           (replace_first
                              (fun x => String.eqb (Note._id x) i)
                              (apply_update (updateData_of (body req)))
                              (notes s)))
                        [call; EvNoteUpdate i]
                    else reply internal_error s [call]
                  else
                    match userById s (Note.author n) with
                    | Some _ =>
                        reply (mkResponse 403
                                 (JError
                                    "Access denied. You can only edit your own notes."))
                          s [call]
                    | None => reply internal_error s [call]
                    end
              end
          end
      end
  end
  end.
Proof.
  unfold updateNote. run.
  destruct (validationErrors req); simpl; [|reflexivity].
  destruct (tenant req) as [t|]; simpl; [|reflexivity].
  destruct (params_id req) as [i|raw]; simpl; [|reflexivity].
  destruct (noteInTenant s i (Tenant._id t)) as [n|] eqn:Hn; simpl;
    [|reflexivity].
  destruct (user req) as [u|]; simpl; [|reflexivity].
  rewrite canModify_populated.
  destruct (Role_eqb (User.p_role u) admin); simpl;
    [|destruct (userById s (Note.author n)); reflexivity].
  destruct (valid_update (updateData_of (body req))); simpl; [|reflexivity].
  apply noteInTenant_tenant in Hn. destruct Hn as (Hin & Hi & _).
  destruct (find (fun x => String.eqb (Note._id x) i) (notes s)) eqn:Hf;
    simpl; [reflexivity|].
  exfalso. apply (find_none _ _ Hf) in Hin. simpl in Hin.
  rewrite Hi, String.eqb_refl in Hin. discriminate.
Qed.

(** The method compares no tenants: whatever the note, an admin is
    allowed.  Keeping an admin inside the tenant is left to the lookup
    the handlers make before they call it. *)
Lemma canModify_admin (this : Note.loaded) (uid : ObjectId) :
  canModify this uid admin = Returned true.
Proof. reflexivity. Qed.

(** C2. The policy of the claim is [canModify_spec]: an admin of the
    note's tenant may always modify, anybody else iff they are the
    author.  For an acting user of the note's tenant, [canModify] returns
    exactly that on a note whose [author] path holds the stored
    reference, which is how [deleteNote] calls it.  [updateNote] calls it
    on a note whose author it has populated: there [canModify] returns
    true for an admin and never true for a member, the author included,
    because the text it compares with the member's id is the dump of the
    author's document.  So a member who is the author of a note is
    answered 403 by [updateNote], where the policy says the author may
    modify, and 200 by [deleteNote]. *)
Theorem canModify_policy (s : Store) (n : Note.doc) (u : User.doc) :
  User.tenant u = Note.tenant n ->
  canModify (unpopulated n) (User._id u) (User.role u) =
    Returned (canModify_spec n u) /\
  (User.role u = admin ->
     canModify_spec n u = true /\
     canModify (populate_author s n) (User._id u) (User.role u) =
       Returned true) /\
  (User.role u = member -> Note.author n <> User._id u ->
     canModify_spec n u = false /\
     canModify (unpopulated n) (User._id u) (User.role u) = Returned false /\
     canModify (populate_author s n) (User._id u) (User.role u) <>
       Returned true) /\
  (User.role u = member -> Note.author n = User._id u ->
     canModify_spec n u = true /\
     canModify (unpopulated n) (User._id u) (User.role u) = Returned true /\
     canModify (populate_author s n) (User._id u) (User.role u) <>
       Returned true /\
     (userById s (User._id u) = Some u ->
        canModify (populate_author s n) (User._id u) (User.role u) =
          Returned false /\
        forall req t,
          validationErrors req = [] ->
          tenant req = Some t ->
          params_id req = Castable (Note._id n) ->
          noteInTenant s (Note._id n) (Tenant._id t) = Some n ->
          user req = Some (populate_tenant s u) ->
          updateNote req s =
            reply (mkResponse 403
                     (JError
                        "Access denied. You can only edit your own notes."))
              s [EvCanModify n (User._id u) member] /\
          status_of (deleteNote req s) = Some 200%nat)).
Proof.
  intros Hten.
  assert (Hspec : canModify_spec n u =
                  owns_or_admin n (User._id u) (User.role u)).
  { unfold canModify_spec, owns_or_admin.
    rewrite Hten, String.eqb_refl, andb_true_r.
    destruct (Role_eqb (User.role u) admin); reflexivity. }
  split; [rewrite canModify_unpopulated, Hspec; reflexivity|].
  split; [|split].
  - intros Hr. rewrite Hspec, canModify_populated, Hr. split; reflexivity.
  - intros Hr Hne. rewrite Hspec, canModify_unpopulated, canModify_populated.
    unfold owns_or_admin. rewrite Hr.
    apply String.eqb_neq in Hne. rewrite Hne.
    split; [reflexivity|]. split; [reflexivity|].
    cbn [Role_eqb]. destruct (userById s (Note.author n)); discriminate.
  - intros Hr Ha. rewrite Hspec, canModify_unpopulated, canModify_populated.
    unfold owns_or_admin. rewrite Hr, Ha, String.eqb_refl.
    split; [reflexivity|]. split; [reflexivity|]. cbn [Role_eqb].
    split; [destruct (userById s (User._id u)); discriminate|].
    intros Hu. rewrite Hu. split; [reflexivity|].
    intros req t Hv Ht Hi Hn Hreq. split.
    + rewrite updateNote_cases, Hv, Ht, Hi, Hn, Hreq.
      cbn [populate_tenant User.p_role User.p_id]. cbv zeta.
      rewrite Hr, Ha, Hu. reflexivity.
    + rewrite deleteNote_cases, Ht, Hi, Hn, Hreq.
      cbn [populate_tenant User.p_role User.p_id].
      unfold owns_or_admin. rewrite Ha, String.eqb_refl, orb_true_r.
      reflexivity.
Qed.

(** user@acme, a member, is the author of Acme's first note: editing it
    is refused, deleting it is not. *)
Lemma canModify_policy_witness :
  let req := Seed.noteRequest Seed.seeded Seed.userAcme
               (Note._id Seed.note1) Seed.newNoteBody in
  User.role Seed.userAcme = member /\
  Note.author Seed.note1 = User._id Seed.userAcme /\
  canModify_spec Seed.note1 Seed.userAcme = true /\
  canModify (populate_author Seed.seeded Seed.note1)
    (User._id Seed.userAcme) (User.role Seed.userAcme) = Returned false /\
  updateNote req Seed.seeded =
    reply (mkResponse 403
             (JError "Access denied. You can only edit your own notes."))
      Seed.seeded [EvCanModify Seed.note1 (User._id Seed.userAcme) member] /\
  status_of (deleteNote req Seed.seeded) = Some 200%nat.
Proof.
  cbv zeta.
  destruct (canModify_policy Seed.seeded Seed.note1 Seed.userAcme eq_refl)
    as (_ & _ & _ & Hauthor).
  destruct (Hauthor eq_refl eq_refl) as (Hspec & _ & _ & Hstored).
  destruct (Hstored eq_refl) as (Hfalse & Hreq).
  destruct (Hreq (Seed.noteRequest Seed.seeded Seed.userAcme
                    (Note._id Seed.note1) Seed.newNoteBody)
              Seed.acmeTenant eq_refl eq_refl eq_refl eq_refl eq_refl)
    as (Hupdate & Hdelete).
  split; [reflexivity|]. split; [reflexivity|].
  split; [exact Hspec|]. split; [exact Hfalse|].
  split; [exact Hupdate | exact Hdelete].
Defined.

Lemma canModify_scoped_get (req : Request) (s : Store) :
  canModify_calls_in_tenant req (getNote req s).
Proof.
  intros n uid r. rewrite getNote_cases.
  destruct (tenant req) as [t|]; [|intros []].
  destruct (params_id req) as [i|raw]; [|intros []].
  destruct (noteInTenant s i (Tenant._id t)); intros [].
Qed.

Lemma canModify_scoped_delete (req : Request) (s : Store) :
  canModify_calls_in_tenant req (deleteNote req s).
Proof.
  intros n uid r. rewrite deleteNote_cases.
  destruct (tenant req) as [t|]; [|intros []].
  destruct (params_id req) as [i|raw]; [|intros []].
  destruct (noteInTenant s i (Tenant._id t)) as [m|] eqn:Hm; [|intros []].
  apply noteInTenant_tenant in Hm. destruct Hm as (_ & _ & Ht).
  destruct (user req) as [u|]; [|intros []].
  destruct (owns_or_admin m (User.p_id u) (User.p_role u)); simpl;
    intros [E|H]; try (injection E as <- _ _; exists t; auto);
    try destruct H as [E|[]]; try discriminate; try contradiction.
Qed.

Lemma canModify_scoped_update (req : Request) (s : Store) :
  canModify_calls_in_tenant req (updateNote req s).
Proof.
  intros n uid r. rewrite updateNote_cases.
  destruct (validationErrors req); [|intros []].
  destruct (tenant req) as [t|]; [|intros []].
  destruct (params_id req) as [i|raw]; [|intros []].
  destruct (noteInTenant s i (Tenant._id t)) as [m|] eqn:Hm; [|intros []].
  apply noteInTenant_tenant in Hm. destruct Hm as (_ & _ & Ht).
  destruct (user req) as [u|]; [|intros []].
  cbv zeta.
  destruct (Role_eqb (User.p_role u) admin);
    [destruct (valid_update (updateData_of (body req)))
    |destruct (userById s (Note.author m))]; simpl;
    intros [E|H]; try (injection E as <- _ _; exists t; auto);
    try destruct H as [E|[]]; try discriminate; try contradiction.
Qed.

(** C5. Reading, updating and deleting look the note up by its id and the
    requester's tenant id together.  So when no note with the requested id
    belongs to the requester's tenant (the note is another tenant's, or
    does not exist), the answer is 404, never 403, the store is left as it
    is and the ownership policy is not run; for an update this is the
    answer once the body has passed validation, and an invalid body is
    answered 400 before the lookup.  Whatever the request, every note the
    policy is run on belongs to the requester's tenant. *)
Theorem cross_tenant_note_not_found (s : Store) (req : Request)
  (t : Tenant.doc) (i : ObjectId) :
  tenant req = Some t ->
  params_id req = Castable i ->
  (forall n, In n (notes s) -> Note._id n = i ->
             Note.tenant n <> Tenant._id t) ->
  getNote req s = reply note_not_found s [] /\
  deleteNote req s = reply note_not_found s [] /\
  (validationErrors req = [] ->
     updateNote req s = reply note_not_found s []) /\
  (validationErrors req <> [] ->
     status_of (updateNote req s) = Some 400%nat) /\
  (status_of (updateNote req s) <> Some 403%nat /\
   store (updateNote req s) = s /\ trace (updateNote req s) = []) /\
  canModify_calls_in_tenant req (getNote req s) /\
  canModify_calls_in_tenant req (updateNote req s) /\
  canModify_calls_in_tenant req (deleteNote req s).
Proof.
  intros Ht Hi Hhidden.
  pose proof (noteInTenant_hidden s i (Tenant._id t) Hhidden) as Hnone.
  split; [|split; [|split; [|split; [|split; [|split; [|split]]]]]].
  - rewrite getNote_cases, Ht, Hi, Hnone. reflexivity.
  - rewrite deleteNote_cases, Ht, Hi, Hnone. reflexivity.
  - intros Hv. rewrite updateNote_cases, Hv, Ht, Hi, Hnone. reflexivity.
  - intros Hv. rewrite updateNote_cases.
    destruct (validationErrors req); [contradiction | reflexivity].
  - rewrite updateNote_cases, Ht, Hi, Hnone.
    destruct (validationErrors req); simpl; repeat split; discriminate.
  - apply canModify_scoped_get.
  - apply canModify_scoped_update.
  - apply canModify_scoped_delete.
Qed.

(** An Acme member asks for, edits and deletes Globex's note: 404 each
    time, nothing changed, the policy not consulted. *)
Lemma cross_tenant_note_not_found_witness :
  let req := Seed.noteRequest Seed.seeded Seed.userAcme
               (Note._id Seed.note3) Seed.newNoteBody in
  getNote req Seed.seeded = reply note_not_found Seed.seeded [] /\
  deleteNote req Seed.seeded = reply note_not_found Seed.seeded [] /\
  updateNote req Seed.seeded = reply note_not_found Seed.seeded [].
Proof.
  cbv zeta.
  destruct (cross_tenant_note_not_found Seed.seeded
              (Seed.noteRequest Seed.seeded Seed.userAcme
                 (Note._id Seed.note3) Seed.newNoteBody)
              Seed.acmeTenant (Note._id Seed.note3) eq_refl eq_refl)
    as (Hget & Hdel & Hupd & _).
  - intros n Hin Hid. simpl in Hin.
    destruct Hin as [<-|[<-|[<-|[]]]];
      first [discriminate Hid | intros H; discriminate H].
  - split; [exact Hget | split; [exact Hdel | exact (Hupd eq_refl)]].
Defined.

(** [createNote] as a decision tree. *)
Lemma createNote_cases (oid : ObjectId) (req : Request) (s : Store) :
  createNote oid req s =
  match validationErrors req with
  | _ :: _ => reply (mkResponse 400 (JValidation (validationErrors req))) s []
  | [] =>
  match tenant req with
  | None => reply internal_error s []
  | Some t =>
      if (Tenant.isPro t || (noteCount s t <? Tenant.max_notes t))%bool then
        match user req with
        | None => reply internal_error s []
        | Some u =>
            match noteSchema_validate oid
                    (mkNoteInput (b_title (body req)) (b_content (body req))
                       (match b_tags (body req) with
                        | Some (TagsArray l) => l
                        | _ => []
                        end) (User.p_id u) (Tenant._id t)) with
            | Threw _ => reply internal_error s []
            | Returned n =>
                match userById s (Note.author n) with
                | None => reply internal_error s []
                | Some a =>
                    if String.eqb (User.tenant a) (Note.tenant n) then
                      reply (mkResponse 201
                               (JNote "Note created successfully" (Some n)))
                        (mkStore (tenants s) (users s) (notes s ++ [n]))
                        [EvNoteInsert n]
                    else reply internal_error s []
                end
            end
        end
      else
        reply (mkResponse 403
                 (JQuota "Note limit reached for your subscription plan"
                    "Upgrade to Pro plan for unlimited notes"
                    ("/tenants/" ++ Tenant.slug t ++ "/upgrade")))
          s []
  end
  end.
Proof.
  unfold createNote, canCreateNote, Note_create, noteSchema_pre_save,
    Tenant.isPro, noteCount, notesOfTenant, toString.
  run.
  destruct (validationErrors req); simpl; [|reflexivity].
  destruct (tenant req) as [t|]; simpl; [|reflexivity].
  destruct (Plan_eqb (Tenant.plan t) pro); simpl.
  - destruct (user req) as [u|]; simpl; [|reflexivity].
    destruct (noteSchema_validate _ _) as [n|e]; simpl; [|reflexivity].
    destruct (userById s (Note.author n)) as [a|]; simpl; [|reflexivity].
    destruct (String.eqb (User.tenant a) (Note.tenant n)); reflexivity.
  - destruct (Z.of_nat _ <? Tenant.max_notes t); simpl; [|reflexivity].
    destruct (user req) as [u|]; simpl; [|reflexivity].
    destruct (noteSchema_validate _ _) as [n|e]; simpl; [|reflexivity].
    destruct (userById s (Note.author n)) as [a|]; simpl; [|reflexivity].
    destruct (String.eqb (User.tenant a) (Note.tenant n)); reflexivity.
Qed.

(** A rejected creation writes nothing. *)
Lemma createNote_rejected_no_write (oid : ObjectId) (req : Request)
  (s : Store) :
  status_of (createNote oid req s) <> Some 201%nat ->
  store (createNote oid req s) = s /\ trace (createNote oid req s) = [].
Proof.
  rewrite createNote_cases.
  destruct (validationErrors req); [|intros _; split; reflexivity].
  destruct (tenant req) as [t|]; [|intros _; split; reflexivity].
  destruct (Tenant.isPro t || _)%bool; [|intros _; split; reflexivity].
  destruct (user req) as [u|]; [|intros _; split; reflexivity].
  destruct (noteSchema_validate _ _) as [n|e]; [|intros _; split; reflexivity].
  destruct (userById s (Note.author n)) as [a|];
    [|intros _; split; reflexivity].
  destruct (String.eqb (User.tenant a) (Note.tenant n));
    [|intros _; split; reflexivity].
  intros H. exfalso. apply H. reflexivity.
Qed.

(** C7. A well-formed creation request by a free-plan tenant whose note
    count has reached [max_notes] is answered 403 with the quota body; the
    store is the one before the request and no store call that writes was
    made.  More generally, every creation request that is not answered 201
    leaves the store as it was. *)
Theorem createNote_quota_rejected (oid : ObjectId) (req : Request)
  (s : Store) (t : Tenant.doc) :
  validationErrors req = [] ->
  tenant req = Some t ->
  Tenant.plan t = free ->
  Tenant.max_notes t <= noteCount s t ->
  createNote oid req s =
    reply (mkResponse 403
             (JQuota "Note limit reached for your subscription plan"
                "Upgrade to Pro plan for unlimited notes"
                ("/tenants/" ++ Tenant.slug t ++ "/upgrade")))
      s [] /\
  notes (store (createNote oid req s)) = notes s /\
  (forall oid' req',
     status_of (createNote oid' req' s) <> Some 201%nat ->
     store (createNote oid' req' s) = s /\
     trace (createNote oid' req' s) = []).
Proof.
  intros Hv Ht Hp Hfull.
  assert (E : createNote oid req s =
              reply (mkResponse 403
                       (JQuota "Note limit reached for your subscription plan"
                          "Upgrade to Pro plan for unlimited notes"
                          ("/tenants/" ++ Tenant.slug t ++ "/upgrade")))
                s []).
  { rewrite createNote_cases, Hv, Ht. unfold Tenant.isPro. rewrite Hp.
    simpl. replace (noteCount s t <? Tenant.max_notes t) with false;
      [reflexivity|]. symmetry. apply Z.ltb_ge. exact Hfull. }
  split; [exact E|]. split; [rewrite E; reflexivity|].
  intros oid' req'. apply createNote_rejected_no_write.
Qed.

(** admin@acme, on the free plan with three notes on file, asks for a
    fourth. *)
Lemma createNote_quota_rejected_witness :
  createNote "650000000000000000000025"
    (Seed.noteRequest Seed.acmeFull Seed.adminAcme "" Seed.newNoteBody)
    Seed.acmeFull =
  reply (mkResponse 403
           (JQuota "Note limit reached for your subscription plan"
              "Upgrade to Pro plan for unlimited notes"
              "/tenants/acme/upgrade"))
    Seed.acmeFull [].
Proof.
  destruct (createNote_quota_rejected "650000000000000000000025"
              (Seed.noteRequest Seed.acmeFull Seed.adminAcme ""
                 Seed.newNoteBody)
              Seed.acmeFull Seed.acmeTenant eq_refl eq_refl eq_refl)
    as (H & _).
  - vm_compute. discriminate.
  - exact H.
Defined.

(** ** Tenant administration handlers *)

(** [updateUserRole] as a decision tree. *)
Lemma updateUserRole_cases (req : Request) (s : Store) :
  updateUserRole req s =
  match Role_parse (b_role (body req)) with
  | None =>
      reply (mkResponse 400 (JError "Invalid role. Must be admin or member."))
        s []
  | Some role =>
  match tenantBySlug s (params_slug req) with
  | None => reply tenant_not_found s []
  | Some t =>
  match user req with
  | None => reply internal_error s []
  | Some u =>
  match User.p_tenant u with
  | None => reply internal_error s []
  | Some own =>
      if negb (String.eqb (Tenant._id own) (Tenant._id t)) then
        reply (mkResponse 403
                 (JError
                    "Access denied. You can only manage users in your own tenant."))
          s []
      else if negb (Role_eqb (User.p_role u) admin) then
        reply (mkResponse 403
                 (JError "Access denied. Admin privileges required."))
          s []
      else
        match params_userId req with
        | Uncastable _ => reply internal_error s []
        | Castable id =>
            match userInTenant s id (Tenant._id t) with
            | None => reply user_not_in_tenant s []
            | Some target =>
                if (String.eqb (User._id target) (User.p_id u)
                    && negb (Role_eqb role admin))%bool
                then
                  reply (mkResponse 400
                           (JError
                              "You cannot remove your own admin privileges"))
                    s []
                else
                  reply (mkResponse 200
                           (JUser "User role updated successfully"
                              (with_role target role)))
                    (mkStore (tenants s)
                       (replace_first
                          (fun x => String.eqb (User._id x) (User._id target))
                          (fun x => with_role x role) (users s))
                       (notes s))
                    [EvUserSave (User._id target)]
            end
        end
  end
  end
  end
  end.
Proof.
  unfold updateUserRole, toString. run.
  destruct (Role_parse (b_role (body req))) as [role|]; [|reflexivity].
  run. destruct (tenantBySlug s (params_slug req)) as [t|]; [|reflexivity].
  run. destruct (user req) as [u|]; [|reflexivity].
  run. destruct (User.p_tenant u) as [own|]; [|reflexivity].
  run. destruct (String.eqb (Tenant._id own) (Tenant._id t)); simpl;
    [|reflexivity].
  destruct (Role_eqb (User.p_role u) admin); simpl; [|reflexivity].
  destruct (params_userId req) as [id|raw]; [|reflexivity].
  run. destruct (userInTenant s id (Tenant._id t)) as [target|];
    [|reflexivity].
  run. destruct (String.eqb (User._id target) (User.p_id u)
                 && negb (Role_eqb role admin))%bool; reflexivity.
Qed.

(** [deactivateUser] as a decision tree. *)
Lemma deactivateUser_cases (req : Request) (s : Store) :
  deactivateUser req s =
  match tenantBySlug s (params_slug req) with
  | None => reply tenant_not_found s []
  | Some t =>
  match user req with
  | None => reply internal_error s []
  | Some u =>
  match User.p_tenant u with
  | None => reply internal_error s []
  | Some own =>
      if (negb (String.eqb (Tenant._id own) (Tenant._id t))
          || negb (Role_eqb (User.p_role u) admin))%bool then
        reply (mkResponse 403
                 (JError "Access denied. Admin privileges required."))
          s []
      else
        match params_userId req with
        | Uncastable _ => reply internal_error s []
        | Castable id =>
            match userInTenant s id (Tenant._id t) with
            | None => reply user_not_in_tenant s []
            | Some target =>
                if String.eqb (User._id target) (User.p_id u) then
                  reply (mkResponse 400
                           (JError "You cannot deactivate your own account"))
                    s []
                else
                  reply (mkResponse 200
                           (JMessage "User deactivated successfully"))
                    (mkStore (tenants s)
                       (replace_first
                          (fun x => String.eqb (User._id x) (User._id target))
                          (fun x => with_isActive x false) (users s))
                       (notes s))
                    [EvUserSave (User._id target)]
            end
        end
  end
  end
  end.
Proof.
  unfold deactivateUser, toString. run.
  destruct (tenantBySlug s (params_slug req)) as [t|]; [|reflexivity].
  run. destruct (user req) as [u|]; [|reflexivity].
  run. destruct (User.p_tenant u) as [own|]; [|reflexivity].
  run. destruct (negb (String.eqb (Tenant._id own) (Tenant._id t))
                 || negb (Role_eqb (User.p_role u) admin))%bool;
    [reflexivity|].
  destruct (params_userId req) as [id|raw]; [|reflexivity].
  run. destruct (userInTenant s id (Tenant._id t)) as [target|];
    [|reflexivity].
  run. destruct (String.eqb (User._id target) (User.p_id u)); reflexivity.
Qed.

Lemma find_conj {A} (p q : A -> bool) (l : list A) (x : A) :
  find p l = Some x -> q x = true ->
  find (fun y => (p y && q y)%bool) l = Some x.
Proof.
  induction l as [|y l IH]; simpl; [discriminate|].
  destruct (p y) eqn:Hp; simpl.
  - intros [= ->] Hq. rewrite Hq. reflexivity.
  - exact IH.
Qed.

Lemma tenantById_id (s : Store) (id : ObjectId) (t : Tenant.doc) :
  tenantById s id = Some t -> Tenant._id t = id.
Proof.
  unfold tenantById. intros H. apply find_some in H.
  destruct H as (_ & H). apply String.eqb_eq. exact H.
Qed.

Lemma Role_parse_admin (v : option string) :
  Role_parse v = Some admin <-> v = Some "admin".
Proof.
  destruct v as [r|]; simpl; [|split; discriminate].
  destruct (String.eqb_spec r "admin") as [->|N].
  - split; reflexivity.
  - destruct (String.eqb r "member"); split; try discriminate;
      intros [= E]; contradiction.
Qed.

(** C9. An admin who addresses their own tenant and names their own id
    as the target cannot give themselves a role other than admin and
    cannot deactivate themselves: both requests are answered 400, the
    store is the one before the request, and no save was issued.  The
    test is the equality of the target's id and the acting user's id, made
    before the write. *)
Theorem admin_self_protection (s : Store) (req : Request)
  (u0 : User.doc) (t0 : Tenant.doc) :
  userById s (User._id u0) = Some u0 ->
  User.role u0 = admin ->
  user req = Some (populate_tenant s u0) ->
  tenantById s (User.tenant u0) = Some t0 ->
  tenantBySlug s (params_slug req) = Some t0 ->
  params_userId req = Castable (User._id u0) ->
  (b_role (body req) <> Some "admin" ->
     status_of (updateUserRole req s) = Some 400%nat /\
     store (updateUserRole req s) = s /\
     trace (updateUserRole req s) = []) /\
  (b_role (body req) = Some "member" ->
     updateUserRole req s =
       reply (mkResponse 400
                (JError "You cannot remove your own admin privileges")) s [])
  /\
  deactivateUser req s =
    reply (mkResponse 400 (JError "You cannot deactivate your own account"))
      s [].
Proof.
  intros Hu0 Hadmin Hreq Ht0 Hslug Hid.
  pose proof (tenantById_id _ _ _ Ht0) as Htid.
  assert (Htarget : userInTenant s (User._id u0) (Tenant._id t0) = Some u0).
  { unfold userInTenant. apply (find_conj _ _ _ _ Hu0).
    rewrite Htid. apply String.eqb_refl. }
  assert (Hself :
            updateUserRole req s =
            match Role_parse (b_role (body req)) with
            | None =>
                reply (mkResponse 400
                         (JError "Invalid role. Must be admin or member."))
                  s []
            | Some r =>
                if negb (Role_eqb r admin) then
                  reply (mkResponse 400
                           (JError
                              "You cannot remove your own admin privileges"))
                    s []
                else
                  reply (mkResponse 200
                           (JUser "User role updated successfully"
                              (with_role u0 r)))
                    (mkStore (tenants s)
                       (replace_first
                          (fun x => String.eqb (User._id x) (User._id u0))
                          (fun x => with_role x r) (users s))
                       (notes s))
                    [EvUserSave (User._id u0)]
            end).
  { rewrite updateUserRole_cases.
    destruct (Role_parse (b_role (body req))) as [r|]; [|reflexivity].
    rewrite Hslug, Hreq.
    cbn [populate_tenant User.p_tenant User.p_role User.p_id].
    rewrite Ht0, String.eqb_refl, Hadmin, Hid, Htarget, String.eqb_refl.
    reflexivity. }
  split; [|split].
  - intros Hne. rewrite Hself.
    destruct (Role_parse (b_role (body req))) as [r|] eqn:Hp;
      [|repeat split].
    destruct r; simpl; [|repeat split].
    apply Role_parse_admin in Hp. contradiction.
  - intros Hm. rewrite Hself, Hm. reflexivity.
  - rewrite deactivateUser_cases, Hslug, Hreq.
    cbn [populate_tenant User.p_tenant User.p_role User.p_id].
    rewrite Ht0, String.eqb_refl, Hadmin, Hid, Htarget, String.eqb_refl.
    reflexivity.
Qed.

(** admin@acme asks to become a member, and to be deactivated. *)
Lemma admin_self_protection_witness :
  let req := Seed.userRequest Seed.seeded Seed.adminAcme "acme"
               (User._id Seed.adminAcme) (Some "member") in
  updateUserRole req Seed.seeded =
    reply (mkResponse 400
             (JError "You cannot remove your own admin privileges"))
      Seed.seeded [] /\
  status_of (updateUserRole req Seed.seeded) = Some 400%nat /\
  deactivateUser req Seed.seeded =
    reply (mkResponse 400 (JError "You cannot deactivate your own account"))
      Seed.seeded [].
Proof.
  cbv zeta.
  destruct (admin_self_protection Seed.seeded
              (Seed.userRequest Seed.seeded Seed.adminAcme "acme"
                 (User._id Seed.adminAcme) (Some "member"))
              Seed.adminAcme Seed.acmeTenant
              eq_refl eq_refl eq_refl eq_refl eq_refl eq_refl)
    as (Hany & Hmember & Hoff).
  split; [exact (Hmember eq_refl)|]. split; [|exact Hoff].
  apply Hany. discriminate.
Defined.

(** ** The tenant of a note is the tenant of its author *)

Lemma In_replace_first {A} (p : A -> bool) (f : A -> A) (l : list A) (y : A) :
  In y (replace_first p f l) -> In y l \/ exists x, In x l /\ y = f x.
Proof.
  induction l as [|x l IH]; simpl; [intros []|].
  destruct (p x); simpl.
  - intros [<-|H]; [right; exists x; auto | left; auto].
  - intros [<-|H]; [left; auto|].
    destruct (IH H) as [H'|(x' & Hx' & ->)]; [left; auto|].
    right. exists x'. auto.
Qed.

Lemma In_remove_first {A} (p : A -> bool) (l : list A) (y : A) :
  In y (remove_first p l) -> In y l.
Proof.
  induction l as [|x l IH]; simpl; [intros []|].
  destruct (p x); simpl; [auto|]. intros [<-|H]; auto.
Qed.

Lemma ownership_replace_first (p : Note.doc -> bool) (u : NoteUpdate)
  (l : list Note.doc) :
  map ownership (replace_first p (apply_update u) l) = map ownership l.
Proof.
  induction l as [|x l IH]; simpl; [reflexivity|].
  destruct (p x); simpl; [reflexivity | rewrite IH; reflexivity].
Qed.

(** A save that leaves [_id] and [tenant] alone keeps every user findable
    under the same tenant. *)
Lemma userById_after_save (p : User.doc -> bool) (f : User.doc -> User.doc)
  (l : list User.doc) (id : ObjectId) (v : User.doc) :
  (forall x, User._id (f x) = User._id x /\ User.tenant (f x) = User.tenant x) ->
  find (fun u => String.eqb (User._id u) id) l = Some v ->
  exists v', find (fun u => String.eqb (User._id u) id)
               (replace_first p f l) = Some v' /\
             User.tenant v' = User.tenant v.
Proof.
  intros Hf. induction l as [|x l IH]; simpl; [discriminate|].
  destruct (p x); simpl.
  - destruct (Hf x) as (Hi & Ht). rewrite Hi.
    destruct (String.eqb (User._id x) id).
    + intros [= <-]. exists (f x). auto.
    + intros H. exists v. auto.
  - destruct (String.eqb (User._id x) id).
    + intros [= <-]. exists x. auto.
    + exact IH.
Qed.

(** One step of the store keeps the invariant when it keeps each user's
    tenant and every note it holds afterwards either has the owner fields
    of a note held before or matches its author. *)
Lemma notes_inv_step (s s' : Store) :
  (forall id v, userById s id = Some v ->
     exists v', userById s' id = Some v' /\ User.tenant v' = User.tenant v) ->
  (forall n', In n' (notes s') ->
     (exists n, In n (notes s) /\ Note.author n' = Note.author n /\
                Note.tenant n' = Note.tenant n) \/
     tenant_matches_author s n') ->
  notes_inv s -> notes_inv s'.
Proof.
  intros Hu Hn Hinv n' Hin'.
  assert (Hold : tenant_matches_author s n').
  { destruct (Hn n' Hin') as [(n & Hin & Ha & Ht)|H]; [|exact H].
    destruct (Hinv n Hin) as (u & Hu' & Hut). exists u.
    rewrite Ha, Ht. auto. }
  destruct Hold as (u & Hfind & Ht).
  destruct (Hu _ _ Hfind) as (v' & Hv' & Htv). exists v'.
  split; [exact Hv' | congruence].
Qed.

Lemma notes_inv_same_users (s : Store) (ns : list Note.doc) :
  (forall n', In n' ns ->
     (exists n, In n (notes s) /\ Note.author n' = Note.author n /\
                Note.tenant n' = Note.tenant n) \/
     tenant_matches_author s n') ->
  notes_inv s -> notes_inv (mkStore (tenants s) (users s) ns).
Proof.
  intros Hn. apply notes_inv_step; [|exact Hn].
  intros id v H. exists v. auto.
Qed.

Lemma notes_inv_user_save (s : Store) (p : User.doc -> bool)
  (f : User.doc -> User.doc) :
  (forall x, User._id (f x) = User._id x /\ User.tenant (f x) = User.tenant x) ->
  notes_inv s ->
  notes_inv (mkStore (tenants s) (replace_first p f (users s)) (notes s)).
Proof.
  intros Hf. apply notes_inv_step.
  - intros id v H. apply (userById_after_save p f (users s) id v Hf H).
  - intros n' Hin. left. exists n'. auto.
Qed.

Lemma createNote_keeps_inv (oid : ObjectId) (req : Request) (s : Store) :
  notes_inv s -> notes_inv (store (createNote oid req s)).
Proof.
  intros Hinv. rewrite createNote_cases.
  destruct (validationErrors req); [|exact Hinv].
  destruct (tenant req) as [t|]; [|exact Hinv].
  destruct (Tenant.isPro t || _)%bool; [|exact Hinv].
  destruct (user req) as [u|]; [|exact Hinv].
  destruct (noteSchema_validate _ _) as [n|e]; [|exact Hinv].
  destruct (userById s (Note.author n)) as [a|] eqn:Ha; [|exact Hinv].
  destruct (String.eqb_spec (User.tenant a) (Note.tenant n)) as [E|E];
    [|exact Hinv].
  apply notes_inv_same_users; [|exact Hinv].
  intros n' Hin. apply in_app_or in Hin.
  destruct Hin as [Hin|[<-|[]]].
  - left. exists n'. auto.
  - right. exists a. auto.
Qed.

Lemma updateNote_keeps_owners (req : Request) (s : Store) :
  map ownership (notes (store (updateNote req s))) = map ownership (notes s)
  /\ users (store (updateNote req s)) = users s.
Proof.
  rewrite updateNote_cases.
  destruct (validationErrors req); [|split; reflexivity].
  destruct (tenant req) as [t|]; [|split; reflexivity].
  destruct (params_id req) as [i|raw]; [|split; reflexivity].
  destruct (noteInTenant s i (Tenant._id t)) as [n|]; [|split; reflexivity].
  destruct (user req) as [u|]; [|split; reflexivity].
  cbv zeta.
  destruct (Role_eqb (User.p_role u) admin);
    [|destruct (userById s (Note.author n)); split; reflexivity].
  destruct (valid_update (updateData_of (body req))); [|split; reflexivity].
  split; [apply ownership_replace_first | reflexivity].
Qed.

Lemma updateNote_keeps_inv (req : Request) (s : Store) :
  notes_inv s -> notes_inv (store (updateNote req s)).
Proof.
  intros Hinv. rewrite updateNote_cases.
  destruct (validationErrors req); [|exact Hinv].
  destruct (tenant req) as [t|]; [|exact Hinv].
  destruct (params_id req) as [i|raw]; [|exact Hinv].
  destruct (noteInTenant s i (Tenant._id t)) as [n|]; [|exact Hinv].
  destruct (user req) as [u|]; [|exact Hinv].
  cbv zeta.
  destruct (Role_eqb (User.p_role u) admin);
    [|destruct (userById s (Note.author n)); exact Hinv].
  destruct (valid_update (updateData_of (body req))); [|exact Hinv].
  apply notes_inv_same_users; [|exact Hinv].
  intros n' Hin. left. apply In_replace_first in Hin.
  destruct Hin as [Hin|(x & Hx & ->)]; [exists n'; auto|].
  exists x. auto.
Qed.

Lemma deleteNote_keeps_inv (req : Request) (s : Store) :
  notes_inv s -> notes_inv (store (deleteNote req s)).
Proof.
  intros Hinv. rewrite deleteNote_cases.
  destruct (tenant req) as [t|]; [|exact Hinv].
  destruct (params_id req) as [i|raw]; [|exact Hinv].
  destruct (noteInTenant s i (Tenant._id t)) as [n|]; [|exact Hinv].
  destruct (user req) as [u|]; [|exact Hinv].
  destruct (owns_or_admin n (User.p_id u) (User.p_role u));
    [|exact Hinv].
  apply notes_inv_same_users; [|exact Hinv].
  intros n' Hin. left. exists n'. split; [|auto].
  apply (In_remove_first _ _ _ Hin).
Qed.

Lemma updateUserRole_keeps_inv (req : Request) (s : Store) :
  notes_inv s -> notes_inv (store (updateUserRole req s)).
Proof.
  intros Hinv. rewrite updateUserRole_cases.
  destruct (Role_parse (b_role (body req))) as [r|]; [|exact Hinv].
  destruct (tenantBySlug s (params_slug req)) as [t|]; [|exact Hinv].
  destruct (user req) as [u|]; [|exact Hinv].
  destruct (User.p_tenant u) as [own|]; [|exact Hinv].
  destruct (negb (String.eqb (Tenant._id own) (Tenant._id t)));
    [exact Hinv|].
  destruct (negb (Role_eqb (User.p_role u) admin)); [exact Hinv|].
  destruct (params_userId req) as [id|raw]; [|exact Hinv].
  destruct (userInTenant s id (Tenant._id t)) as [target|]; [|exact Hinv].
  destruct (String.eqb (User._id target) (User.p_id u)
            && negb (Role_eqb r admin))%bool; [exact Hinv|].
  apply notes_inv_user_save; [|exact Hinv]. intros x. split; reflexivity.
Qed.

Lemma deactivateUser_keeps_inv (req : Request) (s : Store) :
  notes_inv s -> notes_inv (store (deactivateUser req s)).
Proof.
  intros Hinv. rewrite deactivateUser_cases.
  destruct (tenantBySlug s (params_slug req)) as [t|]; [|exact Hinv].
  destruct (user req) as [u|]; [|exact Hinv].
  destruct (User.p_tenant u) as [own|]; [|exact Hinv].
  destruct (negb (String.eqb (Tenant._id own) (Tenant._id t))
            || negb (Role_eqb (User.p_role u) admin))%bool; [exact Hinv|].
  destruct (params_userId req) as [id|raw]; [|exact Hinv].
  destruct (userInTenant s id (Tenant._id t)) as [target|]; [|exact Hinv].
  destruct (String.eqb (User._id target) (User.p_id u)); [exact Hinv|].
  apply notes_inv_user_save; [|exact Hinv]. intros x. split; reflexivity.
Qed.

Lemma Note_create_cases (oid : ObjectId) (i : NoteInput) (s : Store) :
  Note_create oid i s =
  match noteSchema_validate oid i with
  | Threw e => mkOutcome (Threw e) s []
  | Returned n =>
      match userById s (Note.author n) with
      | None => mkOutcome (Threw (Error "Author not found")) s []
      | Some a =>
          if String.eqb (User.tenant a) (Note.tenant n) then
            mkOutcome (Returned n)
              (mkStore (tenants s) (users s) (notes s ++ [n]))
              [EvNoteInsert n]
          else
            mkOutcome (Threw (Error "Note tenant must match author tenant"))
              s []
      end
  end.
Proof.
  unfold Note_create, noteSchema_pre_save, toString.
  destruct (noteSchema_validate oid i) as [n|e]; [|reflexivity].
  run. destruct (userById s (Note.author n)) as [a|]; [|reflexivity].
  destruct (String.eqb (User.tenant a) (Note.tenant n)); reflexivity.
Qed.

Lemma noteSchema_validate_owner (oid : ObjectId) (i : NoteInput)
  (n : Note.doc) :
  noteSchema_validate oid i = Returned n ->
  Note.author n = in_author i /\ Note.tenant n = in_tenant i.
Proof.
  unfold noteSchema_validate.
  destruct (in_title i); [|discriminate].
  destruct (in_content i); [|discriminate].
  destruct (valid_title _ && valid_content _)%bool; [|discriminate].
  intros [= <-]. split; reflexivity.
Qed.

Lemma run_ops_keeps_inv (ops : list Op) (s : Store) :
  notes_inv s -> notes_inv (run_ops ops s).
Proof.
  unfold run_ops. revert s.
  induction ops as [|op ops IH]; intros s Hinv; simpl; [exact Hinv|].
  apply IH. destruct op; simpl.
  - apply createNote_keeps_inv; exact Hinv.
  - apply updateNote_keeps_inv; exact Hinv.
  - apply deleteNote_keeps_inv; exact Hinv.
  - apply updateUserRole_keeps_inv; exact Hinv.
  - apply deactivateUser_keeps_inv; exact Hinv.
Qed.

(** C6. The tenant of a note is the tenant of its author.  Creation
    checks it: [Note.create] throws, and stores nothing, when the author
    is not found or belongs to another tenant than the one supplied; a
    note it does store has the supplied author and tenant and they match.
    An update writes title, content and tags only: after [updateNote] the
    notes have the ids, authors and tenants they had, in the same order.
    So a store in which every note matches its author still is one after
    any sequence of note creations, updates and deletions and of role
    changes and deactivations. *)
Theorem note_tenant_is_author_tenant (s : Store) :
  (forall oid i u,
     userById s (in_author i) = Some u -> User.tenant u <> in_tenant i ->
     exists e, Note_create oid i s = mkOutcome (Threw e) s []) /\
  (forall oid i,
     userById s (in_author i) = None ->
     exists e, Note_create oid i s = mkOutcome (Threw e) s []) /\
  (forall oid i n s' tr,
     Note_create oid i s = mkOutcome (Returned n) s' tr ->
     notes s' = (notes s ++ [n])%list /\ Note.author n = in_author i /\
     Note.tenant n = in_tenant i /\ tenant_matches_author s n) /\
  (forall req,
     map ownership (notes (store (updateNote req s))) =
     map ownership (notes s)) /\
  (notes_inv s -> forall ops, notes_inv (run_ops ops s)).
Proof.
  split; [|split; [|split; [|split]]].
  - intros oid i u Hu Hne. rewrite Note_create_cases.
    destruct (noteSchema_validate oid i) as [n|e] eqn:Hv;
      [|exists e; reflexivity].
    destruct (noteSchema_validate_owner _ _ _ Hv) as (Ha & Ht).
    rewrite Ha, Hu, Ht.
    destruct (String.eqb_spec (User.tenant u) (in_tenant i)) as [E|E];
      [contradiction|]. eexists. reflexivity.
  - intros oid i Hu. rewrite Note_create_cases.
    destruct (noteSchema_validate oid i) as [n|e] eqn:Hv;
      [|exists e; reflexivity].
    destruct (noteSchema_validate_owner _ _ _ Hv) as (Ha & Ht).
    rewrite Ha, Hu. eexists. reflexivity.
  - intros oid i n s' tr. rewrite Note_create_cases.
    destruct (noteSchema_validate oid i) as [m|e] eqn:Hv; [|discriminate].
    destruct (noteSchema_validate_owner _ _ _ Hv) as (Ha & Ht).
    destruct (userById s (Note.author m)) as [a|] eqn:Hu; [|discriminate].
    destruct (String.eqb_spec (User.tenant a) (Note.tenant m)) as [E|E];
      [|discriminate].
    intros [= <- <- _]. repeat split; auto. exists a. auto.
  - intros req. apply updateNote_keeps_owners.
  - intros Hinv ops. apply run_ops_keeps_inv. exact Hinv.
Qed.

Lemma seeded_notes_inv : notes_inv Seed.seeded.
Proof.
  intros n Hin. simpl in Hin.
  destruct Hin as [<-|[<-|[<-|[]]]]; eexists; split; reflexivity.
Qed.

(** A note by an Acme member filed under Globex is refused by the
    creation check; and the seeded store keeps the invariant through a
    creation, an update, a role change and a deletion. *)
Lemma note_tenant_is_author_tenant_witness :
  (exists e,
     Note_create "650000000000000000000025"
       (mkNoteInput (Some "Misfiled") (Some "text") []
          (User._id Seed.userAcme) Seed.globexId)
       Seed.seeded = mkOutcome (Threw e) Seed.seeded []) /\
  notes_inv
    (run_ops
       [OpCreateNote "650000000000000000000025"
          (Seed.noteRequest Seed.seeded Seed.userAcme "" Seed.newNoteBody);
        OpUpdateNote
          (Seed.noteRequest Seed.seeded Seed.userAcme (Note._id Seed.note1)
             Seed.newNoteBody);
        OpUpdateUserRole
          (Seed.userRequest Seed.seeded Seed.adminAcme "acme"
             (User._id Seed.userAcme) (Some "admin"));
        OpDeleteNote
          (Seed.noteRequest Seed.seeded Seed.adminAcme (Note._id Seed.note1)
             Seed.emptyBody)]
       Seed.seeded).
Proof.
  destruct (note_tenant_is_author_tenant Seed.seeded)
    as (Hcheck & _ & _ & _ & Hkeep).
  split.
  - apply (Hcheck _ _ Seed.userAcme); [reflexivity|].
    intros H; discriminate H.
  - apply Hkeep. exact seeded_notes_inv.
Defined.

(** ** Token codec *)

Module TextCodecFacts.
Import TextCodec.

Lemma read_len_marks (n : nat) (r : string) :
  read_len (marks n (String "," r)) = Some (n, r).
Proof.
  induction n as [|n IH]; simpl; [reflexivity|]. rewrite IH. reflexivity.
Qed.

Lemma take_app (a r : string) : take (String.length a) (a ++ r) = a.
Proof. induction a as [|c a IH]; simpl; [destruct r; reflexivity | rewrite IH; reflexivity]. Qed.

Lemma get_put (a r : string) : get (put a r) = Some (a, r).
Proof.
  unfold get, put. rewrite read_len_marks, take_app, drop_app. reflexivity.
Qed.

Lemma length_marks (n : nat) : String.length (marks n "") = n.
Proof. induction n as [|n IH]; simpl; [reflexivity | rewrite IH; reflexivity]. Qed.

Lemma zparse_ztext (z : Z) : zparse (ztext z) = Some z.
Proof.
  unfold zparse, ztext. rewrite length_marks, Zabs2Nat.id_abs.
  destruct (Z.ltb_spec z 0); simpl; f_equal; lia.
Qed.

Lemma oparse_otext {A} (f : A -> string) (g : string -> option A)
  (o : option A) :
  (forall a, g (f a) = Some a) -> oparse g (otext f o) = Some o.
Proof.
  intros H. destruct o as [a|]; simpl; [rewrite H|]; reflexivity.
Qed.

Lemma Role_parse_name (r : Role) : Role_parse (Some (Role_name r)) = Some r.
Proof. destruct r; reflexivity. Qed.

Lemma qparse_qtext (q : QueryId) : qparse (qtext q) = Some q.
Proof. destruct q; reflexivity. Qed.

Lemma parse_payload_text (p : JwtPayload) (r : string) :
  parse_payload (payload_text p r) = Some (p, r).
Proof.
  unfold parse_payload, payload_text.
  rewrite !get_put, qparse_qtext, Role_parse_name, zparse_ztext.
  rewrite (oparse_otext ztext zparse (exp p) zparse_ztext).
  rewrite (oparse_otext (fun x => x) (fun x => Some x) (iss p))
    by reflexivity.
  destruct p as [[] ? ? ?]. reflexivity.
Qed.

(** The reference codec reads back every token it prints. *)
Lemma lib_lossless : lossless TextCodec.lib.
Proof.
  intros [p sg]. simpl. unfold parse, print. simpl.
  rewrite parse_payload_text, get_put. reflexivity.
Qed.
End TextCodecFacts.

Section TokenRoundTrip.
Context {L : JwtLib}.

(** C8. With a signing secret configured and a token library whose
    parser reads back what its serializer writes, [generateToken] issues a
    token for every claim set, and [verifyToken] on that token returns a
    payload carrying exactly those claims at every clock before the expiry
    (issue time plus the configured life time, seven days when none is
    configured), and throws [Invalid token] at the expiry and at every
    clock after it. *)
Theorem token_round_trip (env : Env) (now : Z) (c : Claims) :
  lossless L ->
  truthy (JWT_SECRET env) = true ->
  exists tok,
    generateToken env now c = Returned tok /\
    (forall now', now' < now + expiresIn env ->
       exists d, verifyToken env now' tok = Returned d /\
                 claims d = c /\
                 exp d = Some (now + expiresIn env) /\
                 iss d = Some "notes-saas") /\
    (forall now', now + expiresIn env <= now' ->
       verifyToken env now' tok = Threw (Error "Invalid token")) /\
    (JWT_EXPIRES_IN env = None -> expiresIn env = 604800).
Proof.
  intros Hl Hk.
  unfold generateToken, verifyToken, jwt_sign, jwt_verify.
  rewrite Hk. eexists. split; [reflexivity|].
  rewrite Hl. cbn [payload signature negb exp].
  rewrite String.eqb_refl. cbn [negb].
  split; [|split].
  - intros now' Hlt.
    destruct (Z.leb_spec (now + expiresIn env) now') as [Hle|_]; [lia|].
    eexists. split; [reflexivity|]. repeat split.
  - intros now' Hge.
    destruct (Z.leb_spec (now + expiresIn env) now') as [_|Hlt]; [|lia].
    reflexivity.
  - unfold expiresIn. intros ->. reflexivity.
Qed.
End TokenRoundTrip.

(** A token issued at clock 10 with a life time of one second verifies at
    clock 10 and no longer at clock 12. *)
Lemma token_round_trip_witness :
  let c := Seed.claimsOf Seed.userAcme Seed.acmeTenant in
  exists tok,
    @generateToken TextCodec.lib Seed.shortLived 10 c = Returned tok /\
    (exists d, @verifyToken TextCodec.lib Seed.shortLived 10 tok = Returned d
               /\ claims d = c) /\
    @verifyToken TextCodec.lib Seed.shortLived 12 tok =
      Threw (Error "Invalid token").
Proof.
  cbv zeta.
  destruct (@token_round_trip TextCodec.lib Seed.shortLived 10
              (Seed.claimsOf Seed.userAcme Seed.acmeTenant)
              TextCodecFacts.lib_lossless eq_refl)
    as (tok & Hissue & Hbefore & Hafter & _).
  exists tok. split; [exact Hissue|]. split.
  - destruct (Hbefore 10) as (d & Hd & Hc & _); [simpl; lia|].
    exists d. auto.
  - apply Hafter. simpl. lia.
Defined.

(** * Further properties *)

(** ** The strict token extractor and the middleware *)

Lemma prefix_split (p h : string) :
  String.prefix p h = true -> h = p ++ drop (String.length p) h.
Proof.
  revert h. induction p as [|c p IH]; intros h H.
  - destruct h; reflexivity.
  - destruct h as [|c' h]; simpl in H; [discriminate|].
    destruct (ascii_dec c c') as [<-|N]; [|discriminate].
    simpl. f_equal. apply IH. exact H.
Qed.

(** X1. [extractToken] accepts exactly the headers that start with
    [Bearer ] and returns what follows the prefix; on every header it
    accepts, the token [authenticate] takes from the header is the same
    one.  A header without the prefix is refused by [extractToken], while
    [authenticate] takes the whole header as the token. *)
Theorem extractToken_agrees_with_authenticate (req : Request) :
  (forall t, extractToken (Some ("Bearer " ++ t)) = Some t) /\
  (forall t, extractToken (header_Authorization req) = Some t ->
     header_Authorization req = Some ("Bearer " ++ t) /\
     token_of req = Some t) /\
  (forall h, header_Authorization req = Some h ->
     String.prefix "Bearer " h = false ->
     extractToken (Some h) = None /\
     (includes "Bearer " h = false -> token_of req = Some h)) /\
  extractToken None = None.
Proof.
  split; [|split; [|split]].
  - intros t. unfold extractToken.
    rewrite (prefix_app "Bearer " t). simpl. reflexivity.
  - intros t. unfold extractToken, token_of.
    destruct (header_Authorization req) as [h|]; [|discriminate].
    destruct (truthy (Some h) && String.prefix "Bearer " h)%bool eqn:E;
      [|discriminate].
    apply andb_true_iff in E. destruct E as (_ & Hp).
    intros [= <-]. pose proof (prefix_split _ _ Hp) as Hh.
    change (String.length "Bearer ") with 7%nat in Hh.
    split; [f_equal; exact Hh|].
    simpl option_map. rewrite Hh at 1.
    rewrite (replace_prefixed "Bearer " "" (drop 7 h)). reflexivity.
  - intros h Hh Hp. split.
    + unfold extractToken. rewrite Hp, andb_false_r. reflexivity.
    + intros Hi. unfold token_of. rewrite Hh. simpl option_map.
      rewrite (replace_absent _ _ _ Hi). reflexivity.
  - reflexivity.
Qed.

Lemma extractToken_agrees_with_authenticate_witness :
  extractToken (header_Authorization (Seed.request (Some "Bearer abc") ""))
    = Some "abc" /\
  token_of (Seed.request (Some "Bearer abc") "") = Some "abc" /\
  extractToken (Some "abc") = None /\
  token_of (Seed.request (Some "abc") "") = Some "abc".
Proof.
  destruct (extractToken_agrees_with_authenticate
              (Seed.request (Some "Bearer abc") "")) as (Hacc & Hsame & _).
  destruct (extractToken_agrees_with_authenticate
              (Seed.request (Some "abc") "")) as (_ & _ & Hbare & _).
  destruct (Hsame "abc" (Hacc "abc")) as (_ & Htok).
  destruct (Hbare "abc" eq_refl eq_refl) as (Hnone & Hwhole).
  split; [exact (Hacc "abc")|]. split; [exact Htok|].
  split; [exact Hnone | exact (Hwhole eq_refl)].
Defined.

(** ** The middleware chains *)

Lemma validateTenant_cases (req : Request) (s : Store) :
  validateTenant req s =
  if truthy (Some (params_slug req)) then
    match user req with
    | Some u =>
        match User.p_tenant u with
        | None => answer 500 "Internal server error." s
        | Some t =>
            if String.eqb (Tenant.slug t) (params_slug req) then
              mkOutcome (Returned (Next req)) s []
            else
              answer 403 "Access denied. You do not belong to this tenant." s
        end
    | None =>
        match tenantBySlug s (params_slug req) with
        | None => answer 404 "Tenant not found." s
        | Some t =>
            mkOutcome (Returned (Next (attach req None (Some t)))) s []
        end
    end
  else answer 400 "Tenant slug is required." s.
Proof.
  unfold validateTenant, answer. run.
  destruct (truthy (Some (params_slug req))); [|reflexivity].
  cbn [negb]. destruct (user req) as [u|] eqn:Hu.
  - destruct (User.p_tenant u) as [t|]; [|reflexivity].
    destruct (String.eqb (Tenant.slug t) (params_slug req)); reflexivity.
  - run. destruct (tenantBySlug s (params_slug req)); reflexivity.
Qed.

Section Chains.
Context {L : JwtLib}.

(** The chain in front of the admin-only tenant routes, as a decision
    tree. *)
Lemma tenantAdminChain_cases (env : Env) (now : Z) (req : Request)
  (s : Store) :
  tenantAdminChain env now req s =
  if truthy (token_of req) then
    match jwt_verify now (str (token_of req)) (JWT_SECRET env) with
    | Threw _ => answer 401 "Invalid token." s
    | Returned d =>
        match userId (claims d) with
        | Uncastable _ => answer 401 "Invalid token." s
        | Castable i =>
        match userById s i with
        | None => answer 401 "Invalid token. User not found." s
        | Some u =>
            if User.isActive u then
              if Role_eqb (User.role u) admin then
                if truthy (Some (params_slug req)) then
                  match tenantById s (User.tenant u) with
                  | None => answer 500 "Internal server error." s
                  | Some t =>
                      if String.eqb (Tenant.slug t) (params_slug req) then
                        mkOutcome
                          (Returned
                             (Next (attach req (Some (populate_tenant s u))
                                      (Some t))))
                          s []
                      else
                        answer 403
                          "Access denied. You do not belong to this tenant." s
                  end
                else answer 400 "Tenant slug is required." s
              else answer 403 "Access denied. Admin privileges required." s
            else answer 401 "Account is deactivated." s
        end
        end
    end
  else answer 401 "Access denied. No token provided." s.
Proof.
  unfold tenantAdminChain, andThen, bind. rewrite authenticate_cases.
  destruct (truthy (token_of req)); [|reflexivity].
  destruct (jwt_verify now (str (token_of req)) (JWT_SECRET env)) as [d|e];
    [|reflexivity].
  destruct (userId (claims d)) as [i|raw]; [|reflexivity].
  destruct (userById s i) as [u|]; [|reflexivity].
  destruct (User.isActive u); [|reflexivity].
  unfold answer, ret, requireAdmin.
  cbn [user attach populate_tenant User.p_role].
  destruct (Role_eqb (User.role u) admin); cbn [negb]; [|reflexivity].
  rewrite validateTenant_cases.
  cbn [params_slug attach user populate_tenant User.p_tenant].
  destruct (truthy (Some (params_slug req))); [|reflexivity].
  destruct (tenantById s (User.tenant u)) as [t|]; [|reflexivity].
  destruct (String.eqb (Tenant.slug t) (params_slug req)); reflexivity.
Qed.

(** X2. The chain [authenticate, requireAdmin, validateTenant] of the
    admin-only tenant routes lets a request through to the handler
    exactly when its token verifies, the user it names is stored, active
    and an admin, and the path slug is the slug of that user's tenant;
    the handler then sees that user and that tenant.  Every other request
    is answered 400, 401, 403 or 500 (never 404: with a user attached
    [validateTenant] makes no lookup), and the chain always answers or
    forwards.  A member is answered 403 whatever the slug, and an admin
    naming another tenant's slug is answered 403.  The chain never writes
    to the store. *)
Theorem tenantAdminChain_guard (env : Env) (now : Z) (req : Request)
  (s : Store) :
  (forall req',
     completion (tenantAdminChain env now req s) = Returned (Next req') <->
     exists d i u t,
       truthy (token_of req) = true /\
       jwt_verify now (str (token_of req)) (JWT_SECRET env) = Returned d /\
       userId (claims d) = Castable i /\
       userById s i = Some u /\
       User.isActive u = true /\ User.role u = admin /\
       tenantById s (User.tenant u) = Some t /\
       Tenant.slug t = params_slug req /\ params_slug req <> "" /\
       req' = attach req (Some (populate_tenant s u)) (Some t)) /\
  (forall code, rejection (tenantAdminChain env now req s) = Some code ->
     code = 400%nat \/ code = 401%nat \/ code = 403%nat \/ code = 500%nat) /\
  ((exists code, rejection (tenantAdminChain env now req s) = Some code) \/
   exists req', completion (tenantAdminChain env now req s)
                = Returned (Next req')) /\
  (forall d i u,
     truthy (token_of req) = true ->
     jwt_verify now (str (token_of req)) (JWT_SECRET env) = Returned d ->
     userId (claims d) = Castable i ->
     userById s i = Some u -> User.isActive u = true ->
     (User.role u = member ->
        rejection (tenantAdminChain env now req s) = Some 403%nat) /\
     (forall t, User.role u = admin ->
        tenantById s (User.tenant u) = Some t ->
        params_slug req <> "" -> Tenant.slug t <> params_slug req ->
        rejection (tenantAdminChain env now req s) = Some 403%nat)) /\
  store (tenantAdminChain env now req s) = s /\
  trace (tenantAdminChain env now req s) = [].
Proof.
  rewrite tenantAdminChain_cases.
  split; [|split; [|split; [|split; [|split]]]].
  - intros req'. split.
    + destruct (truthy (token_of req)) eqn:Htok; [|discriminate].
      destruct (jwt_verify now (str (token_of req)) (JWT_SECRET env))
        as [d|e] eqn:Hv; [|discriminate].
      destruct (userId (claims d)) as [i|raw] eqn:Hq; [|discriminate].
      destruct (userById s i) as [u|] eqn:Hu; [|discriminate].
      destruct (User.isActive u) eqn:Ha; [|discriminate].
      destruct (Role_eqb (User.role u) admin) eqn:Hr; [|discriminate].
      destruct (truthy (Some (params_slug req))) eqn:Hs; [|discriminate].
      destruct (tenantById s (User.tenant u)) as [t|] eqn:Ht;
        [|discriminate].
      destruct (String.eqb_spec (Tenant.slug t) (params_slug req))
        as [E|E]; [|discriminate].
      intros [= <-]. exists d, i, u, t.
      apply Role_eqb_eq in Hr. apply truthy_Some in Hs.
      repeat split; auto.
    + intros (d & i & u & t & Htok & Hv & Hq & Hu & Ha & Hr & Ht & Hs & Hne
              & ->).
      apply truthy_Some in Hne.
      rewrite Htok, Hv, Hq, Hu, Ha, Hr, Hne, Ht, Hs, String.eqb_refl.
      reflexivity.
  - intros code. unfold rejection.
    destruct (truthy (token_of req)); [|intros [= <-]; auto].
    destruct (jwt_verify now (str (token_of req)) (JWT_SECRET env)) as [d|e];
      [|intros [= <-]; auto].
    destruct (userId (claims d)) as [i|raw]; [|intros [= <-]; auto].
    destruct (userById s i) as [u|]; [|intros [= <-]; auto].
    destruct (User.isActive u); [|intros [= <-]; auto].
    destruct (Role_eqb (User.role u) admin); [|intros [= <-]; auto].
    destruct (truthy (Some (params_slug req))); [|intros [= <-]; auto].
    destruct (tenantById s (User.tenant u)) as [t|];
      [|intros [= <-]; auto 6].
    destruct (String.eqb (Tenant.slug t) (params_slug req));
      [discriminate | intros [= <-]; auto].
  - unfold rejection.
    destruct (truthy (token_of req)); [|left; eexists; reflexivity].
    destruct (jwt_verify now (str (token_of req)) (JWT_SECRET env)) as [d|e];
      [|left; eexists; reflexivity].
    destruct (userId (claims d)) as [i|raw]; [|left; eexists; reflexivity].
    destruct (userById s i) as [u|]; [|left; eexists; reflexivity].
    destruct (User.isActive u); [|left; eexists; reflexivity].
    destruct (Role_eqb (User.role u) admin); [|left; eexists; reflexivity].
    destruct (truthy (Some (params_slug req)));
      [|left; eexists; reflexivity].
    destruct (tenantById s (User.tenant u)) as [t|];
      [|left; eexists; reflexivity].
    destruct (String.eqb (Tenant.slug t) (params_slug req));
      [right; eexists; reflexivity | left; eexists; reflexivity].
  - intros d i u Htok Hv Hq Hu Ha. rewrite Htok, Hv, Hq, Hu, Ha. split.
    + intros ->. reflexivity.
    + intros t -> Ht Hne Hs. apply truthy_Some in Hne.
      apply String.eqb_neq in Hs. simpl Role_eqb. cbv iota.
      rewrite Hne, Ht, Hs. reflexivity.
  - destruct (truthy (token_of req)); [|reflexivity].
    destruct (jwt_verify now (str (token_of req)) (JWT_SECRET env)) as [d|e];
      [|reflexivity].
    destruct (userId (claims d)) as [i|raw]; [|reflexivity].
    destruct (userById s i) as [u|]; [|reflexivity].
    destruct (User.isActive u); [|reflexivity].
    destruct (Role_eqb (User.role u) admin); [|reflexivity].
    destruct (truthy (Some (params_slug req))); [|reflexivity].
    destruct (tenantById s (User.tenant u)) as [t|]; [|reflexivity].
    destruct (String.eqb (Tenant.slug t) (params_slug req)); reflexivity.
  - destruct (truthy (token_of req)); [|reflexivity].
    destruct (jwt_verify now (str (token_of req)) (JWT_SECRET env)) as [d|e];
      [|reflexivity].
    destruct (userId (claims d)) as [i|raw]; [|reflexivity].
    destruct (userById s i) as [u|]; [|reflexivity].
    destruct (User.isActive u); [|reflexivity].
    destruct (Role_eqb (User.role u) admin); [|reflexivity].
    destruct (truthy (Some (params_slug req))); [|reflexivity].
    destruct (tenantById s (User.tenant u)) as [t|]; [|reflexivity].
    destruct (String.eqb (Tenant.slug t) (params_slug req)); reflexivity.
Qed.
End Chains.

(** user@acme on the admin-only route of Globex, admin@acme on the
    admin-only route of Globex, and admin@acme on that of Acme. *)
Lemma tenantAdminChain_guard_witness :
  rejection (@tenantAdminChain TextCodec.lib Seed.env 20
               (Demo.bearer Seed.userAcmeToken "globex" (Uncastable "")
                  Seed.emptyBody) Seed.seeded) = Some 403%nat /\
  rejection (@tenantAdminChain TextCodec.lib Seed.env 20
               (Demo.bearer Demo.adminAcmeToken "globex" (Uncastable "")
                  Seed.emptyBody) Seed.seeded) = Some 403%nat /\
  completion (@tenantAdminChain TextCodec.lib Seed.env 20
                (Demo.bearer Demo.adminAcmeToken "acme" (Uncastable "")
                   Seed.emptyBody) Seed.seeded) =
  Returned
    (Next (Seed.signedIn Seed.seeded Seed.adminAcme
             (Demo.bearer Demo.adminAcmeToken "acme" (Uncastable "")
                Seed.emptyBody))).
Proof.
  split; [|split].
  - destruct (@tenantAdminChain_guard TextCodec.lib Seed.env 20
                (Demo.bearer Seed.userAcmeToken "globex" (Uncastable "")
                   Seed.emptyBody) Seed.seeded) as (_ & _ & _ & H & _).
    assert (Htok : truthy (token_of
                     (Demo.bearer Seed.userAcmeToken "globex" (Uncastable "")
                        Seed.emptyBody)) = true)
      by (vm_compute; reflexivity).
    assert (Hv : @jwt_verify TextCodec.lib 20
                   (str (token_of
                      (Demo.bearer Seed.userAcmeToken "globex"
                         (Uncastable "") Seed.emptyBody)))
                   (JWT_SECRET Seed.env) = Returned Seed.userAcmePayload)
      by (vm_compute; reflexivity).
    destruct (H Seed.userAcmePayload (User._id Seed.userAcme) Seed.userAcme
                Htok Hv eq_refl eq_refl eq_refl) as (Hm & _).
    apply Hm. reflexivity.
  - destruct (@tenantAdminChain_guard TextCodec.lib Seed.env 20
                (Demo.bearer Demo.adminAcmeToken "globex" (Uncastable "")
                   Seed.emptyBody) Seed.seeded) as (_ & _ & _ & H & _).
    assert (Htok : truthy (token_of
                     (Demo.bearer Demo.adminAcmeToken "globex" (Uncastable "")
                        Seed.emptyBody)) = true)
      by (vm_compute; reflexivity).
    assert (Hv : @jwt_verify TextCodec.lib 20
                   (str (token_of
                      (Demo.bearer Demo.adminAcmeToken "globex"
                         (Uncastable "") Seed.emptyBody)))
                   (JWT_SECRET Seed.env) = Returned Demo.adminAcmePayload)
      by (vm_compute; reflexivity).
    destruct (H Demo.adminAcmePayload (User._id Seed.adminAcme) Seed.adminAcme
                Htok Hv eq_refl eq_refl eq_refl) as (_ & Ha).
    apply (Ha Seed.acmeTenant eq_refl eq_refl);
      intros E; discriminate E.
  - destruct (@tenantAdminChain_guard TextCodec.lib Seed.env 20
                (Demo.bearer Demo.adminAcmeToken "acme" (Uncastable "")
                   Seed.emptyBody) Seed.seeded) as (H & _).
    apply H.
    exists Demo.adminAcmePayload, (User._id Seed.adminAcme), Seed.adminAcme,
      Seed.acmeTenant.
    split; [vm_compute; reflexivity|].
    split; [vm_compute; reflexivity|].
    split; [reflexivity|]. split; [reflexivity|]. split; [reflexivity|].
    split; [reflexivity|]. split; [reflexivity|]. split; [reflexivity|].
    split; [intros E; discriminate E | reflexivity].
Defined.

Section NotesRoute.
Context {L : JwtLib}.

(** A route of routes/notes.js as a decision tree: the handler runs on
    the request as [authenticate] forwards it, and only then. *)
Lemma notesRoute_cases (handler : Request -> Async Response) (env : Env)
  (now : Z) (req : Request) (s : Store) :
  notesRoute handler env now req s =
  if truthy (token_of req) then
    match jwt_verify now (str (token_of req)) (JWT_SECRET env) with
    | Threw _ => reply (mkResponse 401 (JError "Invalid token.")) s []
    | Returned d =>
        match userId (claims d) with
        | Uncastable _ => reply (mkResponse 401 (JError "Invalid token.")) s []
        | Castable i =>
        match userById s i with
        | None =>
            reply (mkResponse 401 (JError "Invalid token. User not found."))
              s []
        | Some u =>
            if User.isActive u then
              handler (attach req (Some (populate_tenant s u))
                         (tenantById s (User.tenant u))) s
            else
              reply (mkResponse 401 (JError "Account is deactivated.")) s []
        end
        end
    end
  else
    reply (mkResponse 401 (JError "Access denied. No token provided.")) s [].
Proof.
  unfold notesRoute, route, notesChain, andThen, bind.
  rewrite authenticate_cases.
  destruct (truthy (token_of req)); [|reflexivity].
  destruct (jwt_verify now (str (token_of req)) (JWT_SECRET env)) as [d|e];
    [|reflexivity].
  destruct (userId (claims d)) as [i|raw] eqn:Hq; [|reflexivity].
  destruct (userById s i) as [u|]; [|reflexivity].
  destruct (User.isActive u); [|reflexivity].
  unfold ret, requireMember.
  cbn [user attach populate_tenant User.p_role].
  destruct (User.role u); cbn [Role_eqb orb negb app];
    destruct (handler _ s) as [c s' tr]; reflexivity.
Qed.

(** X3. Through the notes route, [GET /notes/:id] answers 200 with a note
    only if the token verifies for a stored, active user, and the note it
    returns is a stored note with the requested id that belongs to that
    user's tenant. *)
Theorem notes_route_reads_own_tenant (env : Env) (now : Z) (req : Request)
  (s : Store) (m : string) (n : Note.doc) :
  completion (notesRoute getNote env now req s) =
    Returned (mkResponse 200 (JNote m (Some n))) ->
  exists d i u,
    jwt_verify now (str (token_of req)) (JWT_SECRET env) = Returned d /\
    userId (claims d) = Castable i /\
    userById s i = Some u /\
    User.isActive u = true /\
    In n (notes s) /\
    params_id req = Castable (Note._id n) /\
    Note.tenant n = User.tenant u.
Proof.
  rewrite notesRoute_cases.
  destruct (truthy (token_of req)); [|discriminate].
  destruct (jwt_verify now (str (token_of req)) (JWT_SECRET env)) as [d|e];
    [|discriminate].
  destruct (userId (claims d)) as [i|raw] eqn:Hq; [|discriminate].
  destruct (userById s i) as [u|] eqn:Hu; [|discriminate].
  destruct (User.isActive u) eqn:Ha; [|discriminate].
  rewrite getNote_cases. cbn [tenant attach params_id].
  destruct (tenantById s (User.tenant u)) as [t|] eqn:Ht; [|discriminate].
  destruct (params_id req) as [j|raw'] eqn:Hi; [|discriminate].
  destruct (noteInTenant s j (Tenant._id t)) as [n'|] eqn:Hn;
    [|discriminate].
  intros [= <- <-].
  apply noteInTenant_tenant in Hn. destruct Hn as (Hin & Hid & Htn).
  apply tenantById_id in Ht.
  exists d, i, u. repeat split; auto; congruence.
Qed.
End NotesRoute.

(** The Acme member reads Acme's first note through the route. *)
Lemma notes_route_reads_own_tenant_witness :
  exists d i u,
    @jwt_verify TextCodec.lib 20
      (str (token_of (Demo.bearer Seed.userAcmeToken ""
                        (Castable (Note._id Seed.note1)) Seed.emptyBody)))
      (JWT_SECRET Seed.env) = Returned d /\
    userId (claims d) = Castable i /\
    userById Seed.seeded i = Some u /\
    User.isActive u = true /\
    In Seed.note1 (notes Seed.seeded) /\
    params_id (Demo.bearer Seed.userAcmeToken ""
                 (Castable (Note._id Seed.note1)) Seed.emptyBody) =
      Castable (Note._id Seed.note1) /\
    Note.tenant Seed.note1 = User.tenant u.
Proof.
  apply (@notes_route_reads_own_tenant TextCodec.lib Seed.env 20
           (Demo.bearer Seed.userAcmeToken ""
              (Castable (Note._id Seed.note1)) Seed.emptyBody)
           Seed.seeded "" Seed.note1).
  vm_compute. reflexivity.
Defined.

(** ** Writes stay inside the tenant *)

Lemma find_by_unique_id (q : Note.doc -> bool) (l : list Note.doc)
  (i : ObjectId) (n : Note.doc) :
  NoDup (map Note._id l) ->
  find (fun x => (String.eqb (Note._id x) i && q x)%bool) l = Some n ->
  find (fun x => String.eqb (Note._id x) i) l = Some n.
Proof.
  induction l as [|x l IH]; simpl; [discriminate|].
  intros Hnd Hf. inversion Hnd as [|? ? Hnotin Hnd']; subst.
  destruct (String.eqb_spec (Note._id x) i) as [E|E]; simpl in Hf.
  - destruct (q x); [exact Hf|].
    exfalso. apply find_some in Hf. destruct Hf as (Hin & Hp).
    apply andb_true_iff in Hp. destruct Hp as (Hi & _).
    apply String.eqb_eq in Hi. apply Hnotin. rewrite E, <- Hi.
    apply in_map. exact Hin.
  - apply IH; assumption.
Qed.

Lemma filter_remove_first {A} (p q : A -> bool) (l : list A) (n : A) :
  find p l = Some n -> q n = false ->
  filter q (remove_first p l) = filter q l.
Proof.
  induction l as [|x l IH]; simpl; [discriminate|].
  destruct (p x).
  - intros [= ->] Hq. rewrite Hq. reflexivity.
  - intros Hf Hq. simpl. rewrite (IH Hf Hq). reflexivity.
Qed.

Lemma filter_replace_first {A} (p q : A -> bool) (f : A -> A) (l : list A)
  (n : A) :
  find p l = Some n -> q n = false -> q (f n) = false ->
  filter q (replace_first p f l) = filter q l.
Proof.
  induction l as [|x l IH]; simpl; [discriminate|].
  destruct (p x).
  - intros [= ->] Hq Hqf. simpl. rewrite Hq, Hqf. reflexivity.
  - intros Hf Hq Hqf. simpl. rewrite (IH Hf Hq Hqf). reflexivity.
Qed.

Lemma filter_app_one {A} (q : A -> bool) (l : list A) (n : A) :
  q n = false -> filter q (l ++ [n]) = filter q l.
Proof.
  intros Hq. rewrite filter_app. simpl. rewrite Hq. apply app_nil_r.
Qed.

(** X4. A note request changes no note of another tenant: given that
    stored notes have distinct ids, the notes outside the requester's
    tenant are, after [createNote], [updateNote] and [deleteNote], the
    ones they were before, whatever the request says and whoever sends
    it.  (The write itself is by id alone; it is the tenant-filtered
    lookup before it that keeps it inside the tenant.) *)
Theorem note_writes_stay_in_tenant (s : Store) (req : Request)
  (t : Tenant.doc) (oid : ObjectId) :
  tenant req = Some t ->
  unique_note_ids s ->
  notesOutside (Tenant._id t) (store (createNote oid req s)) =
    notesOutside (Tenant._id t) s /\
  notesOutside (Tenant._id t) (store (updateNote req s)) =
    notesOutside (Tenant._id t) s /\
  notesOutside (Tenant._id t) (store (deleteNote req s)) =
    notesOutside (Tenant._id t) s.
Proof.
  intros Ht Huniq. unfold notesOutside.
  split; [|split].
  - rewrite createNote_cases, Ht.
    destruct (validationErrors req); [|reflexivity].
    destruct (Tenant.isPro t || _)%bool; [|reflexivity].
    destruct (user req) as [u|]; [|reflexivity].
    destruct (noteSchema_validate _ _) as [n|e] eqn:Hv; [|reflexivity].
    destruct (userById s (Note.author n)) as [a|]; [|reflexivity].
    destruct (String.eqb (User.tenant a) (Note.tenant n)); [|reflexivity].
    destruct (noteSchema_validate_owner _ _ _ Hv) as (_ & Htn).
    cbn [store notes reply]. apply filter_app_one.
    rewrite Htn. cbn [in_tenant]. rewrite String.eqb_refl. reflexivity.
  - rewrite updateNote_cases, Ht.
    destruct (validationErrors req); [|reflexivity].
    destruct (params_id req) as [i|raw]; [|reflexivity].
    destruct (noteInTenant s i (Tenant._id t)) as [n|] eqn:Hn;
      [|reflexivity].
    destruct (user req) as [u|]; [|reflexivity].
    cbv zeta.
    destruct (Role_eqb (User.p_role u) admin);
      [|destruct (userById s (Note.author n)); reflexivity].
    destruct (valid_update (updateData_of (body req))); [|reflexivity].
    cbn [store notes reply].
    pose proof (find_by_unique_id _ _ _ _ Huniq Hn) as Hfirst.
    apply noteInTenant_tenant in Hn. destruct Hn as (_ & _ & Htn).
    apply (filter_replace_first _ _ _ _ n Hfirst); cbn [apply_update Note.tenant];
      rewrite Htn, String.eqb_refl; reflexivity.
  - rewrite deleteNote_cases, Ht.
    destruct (params_id req) as [i|raw]; [|reflexivity].
    destruct (noteInTenant s i (Tenant._id t)) as [n|] eqn:Hn;
      [|reflexivity].
    destruct (user req) as [u|]; [|reflexivity].
    destruct (owns_or_admin n (User.p_id u) (User.p_role u));
      [|reflexivity].
    cbn [store notes reply].
    pose proof (find_by_unique_id _ _ _ _ Huniq Hn) as Hfirst.
    apply noteInTenant_tenant in Hn. destruct Hn as (_ & _ & Htn).
    apply (filter_remove_first _ _ _ n Hfirst).
    rewrite Htn, String.eqb_refl. reflexivity.
Qed.

Lemma seeded_unique_note_ids : unique_note_ids Seed.seeded.
Proof.
  unfold unique_note_ids. simpl.
  repeat (constructor;
          [simpl; intros H;
           repeat (destruct H as [H|H]; [discriminate H|]); exact H|]).
  constructor.
Qed.

(** The Acme admin deletes, edits and adds a note: Globex's note stays. *)
Lemma note_writes_stay_in_tenant_witness :
  let req := Seed.noteRequest Seed.seeded Seed.adminAcme
               (Note._id Seed.note1) Seed.newNoteBody in
  notesOutside Seed.acmeId
    (store (createNote "650000000000000000000025" req Seed.seeded))
    = [Seed.note3] /\
  notesOutside Seed.acmeId (store (updateNote req Seed.seeded))
    = [Seed.note3] /\
  notesOutside Seed.acmeId (store (deleteNote req Seed.seeded))
    = [Seed.note3].
Proof.
  cbv zeta.
  destruct (note_writes_stay_in_tenant Seed.seeded
              (Seed.noteRequest Seed.seeded Seed.adminAcme
                 (Note._id Seed.note1) Seed.newNoteBody)
              Seed.acmeTenant "650000000000000000000025" eq_refl
              seeded_unique_note_ids) as (Hc & Hu & Hd).
  split; [exact Hc | split; [exact Hu | exact Hd]].
Defined.

(** ** The quota under sequential requests *)

Lemma length_filter_replace_first {A} (p q : A -> bool) (f : A -> A)
  (l : list A) :
  (forall x, q (f x) = q x) ->
  length (filter q (replace_first p f l)) = length (filter q l).
Proof.
  intros Hq. induction l as [|x l IH]; simpl; [reflexivity|].
  destruct (p x); simpl.
  - rewrite Hq. destruct (q x); reflexivity.
  - destruct (q x); simpl; rewrite IH; reflexivity.
Qed.

Lemma length_filter_remove_first {A} (p q : A -> bool) (l : list A) :
  (length (filter q (remove_first p l)) <= length (filter q l))%nat.
Proof.
  induction l as [|x l IH]; simpl; [lia|].
  destruct (p x); simpl; destruct (q x); simpl; lia.
Qed.

(** A step that leaves the tenants alone and raises no tenant's note
    count keeps the quota. *)
Lemma within_quota_step (s s' : Store) :
  tenants s' = tenants s ->
  (forall t, noteCount s' t <= noteCount s t) ->
  within_quota s -> within_quota s'.
Proof.
  intros Ht Hc Hq i t Hi Hp.
  unfold tenantById in Hi. rewrite Ht in Hi.
  specialize (Hq i t Hi Hp). specialize (Hc t). lia.
Qed.

Lemma updateNote_keeps_quota (req : Request) (s : Store) :
  within_quota s -> within_quota (store (updateNote req s)).
Proof.
  rewrite updateNote_cases.
  destruct (validationErrors req); [|auto].
  destruct (tenant req) as [t|]; [|auto].
  destruct (params_id req) as [i|raw]; [|auto].
  destruct (noteInTenant s i (Tenant._id t)) as [n|]; [|auto].
  destruct (user req) as [u|]; [|auto].
  cbv zeta.
  destruct (Role_eqb (User.p_role u) admin);
    [|destruct (userById s (Note.author n)); auto].
  destruct (valid_update (updateData_of (body req))); [|auto].
  apply within_quota_step; [reflexivity|].
  intros t'. unfold noteCount, notesOfTenant. cbn [store notes reply].
  rewrite length_filter_replace_first; [lia | reflexivity].
Qed.

Lemma deleteNote_keeps_quota (req : Request) (s : Store) :
  within_quota s -> within_quota (store (deleteNote req s)).
Proof.
  rewrite deleteNote_cases.
  destruct (tenant req) as [t|]; [|auto].
  destruct (params_id req) as [i|raw]; [|auto].
  destruct (noteInTenant s i (Tenant._id t)) as [n|]; [|auto].
  destruct (user req) as [u|]; [|auto].
  destruct (owns_or_admin n (User.p_id u) (User.p_role u));
    [|auto].
  apply within_quota_step; [reflexivity|].
  intros t'. unfold noteCount, notesOfTenant. cbn [store notes reply].
  apply inj_le. apply length_filter_remove_first.
Qed.

(** [createNote] keeps the quota when the tenant attached to the request
    is the stored document of its id. *)
Lemma createNote_keeps_quota (oid : ObjectId) (req : Request) (s : Store) :
  (forall t0, tenant req = Some t0 ->
              tenantById s (Tenant._id t0) = Some t0) ->
  within_quota s -> within_quota (store (createNote oid req s)).
Proof.
  intros Hfresh Hq. rewrite createNote_cases.
  destruct (validationErrors req); [|exact Hq].
  destruct (tenant req) as [t0|] eqn:Ht0; [|exact Hq].
  destruct (Tenant.isPro t0 || (noteCount s t0 <? Tenant.max_notes t0))%bool
    eqn:Hcan; [|exact Hq].
  destruct (user req) as [u|]; [|exact Hq].
  destruct (noteSchema_validate _ _) as [n|e] eqn:Hv; [|exact Hq].
  destruct (userById s (Note.author n)) as [a|]; [|exact Hq].
  destruct (String.eqb (User.tenant a) (Note.tenant n)); [|exact Hq].
  destruct (noteSchema_validate_owner _ _ _ Hv) as (_ & Htn).
  cbn [in_tenant] in Htn.
  intros i t Hi Hp. cbn [store reply] in *.
  change (tenantById s i = Some t) in Hi.
  pose proof (Hq i t Hi Hp) as Hold.
  unfold noteCount, notesOfTenant in *. cbn [notes].
  rewrite filter_app, length_app. simpl. rewrite Htn.
  destruct (String.eqb_spec (Tenant._id t0) (Tenant._id t)) as [E|E];
    simpl; [|lia].
  assert (t = t0).
  { pose proof (tenantById_id _ _ _ Hi) as Hid.
    pose proof (Hfresh t0 eq_refl) as H0.
    rewrite E, Hid, Hi in H0. congruence. }
  subst t. unfold Tenant.isPro in Hcan. rewrite Hp in Hcan. simpl in Hcan.
  apply Z.ltb_lt in Hcan. lia.
Qed.

Section Quota.
Context {L : JwtLib}.

(** X5. Served one after the other through the notes route, requests
    never take a free-plan tenant above its limit: if every free-plan
    tenant holds at most [max_notes] notes, it still does after any
    creation, update or deletion request, whatever the request carries. *)
Theorem quota_kept_by_note_routes (env : Env) (now : Z) (req : Request)
  (s : Store) (oid : ObjectId) :
  within_quota s ->
  within_quota (store (notesRoute (createNote oid) env now req s)) /\
  within_quota (store (notesRoute updateNote env now req s)) /\
  within_quota (store (notesRoute deleteNote env now req s)).
Proof.
  intros Hq. rewrite !notesRoute_cases.
  destruct (truthy (token_of req)); [|auto].
  destruct (jwt_verify now (str (token_of req)) (JWT_SECRET env)) as [d|e];
    [|auto].
  destruct (userId (claims d)) as [i|raw]; [|auto].
  destruct (userById s i) as [u|]; [|auto].
  destruct (User.isActive u); [|auto].
  split; [|split].
  - apply createNote_keeps_quota; [|exact Hq].
    cbn [tenant attach]. intros t0 Ht0.
    rewrite (tenantById_id _ _ _ Ht0). exact Ht0.
  - apply updateNote_keeps_quota; exact Hq.
  - apply deleteNote_keeps_quota; exact Hq.
Qed.
End Quota.

Lemma acmeFull_within_quota : within_quota Seed.acmeFull.
Proof.
  intros i t Hi Hp. unfold tenantById in Hi. apply find_some in Hi.
  destruct Hi as (Hin & _). simpl in Hin.
  destruct Hin as [<-|[<-|[]]]; vm_compute; discriminate.
Qed.

(** Acme is at its limit of three; after a creation request by its admin
    through the route it still holds at most three. *)
Lemma quota_kept_by_note_routes_witness :
  within_quota
    (store (@notesRoute TextCodec.lib (createNote "650000000000000000000025")
              Seed.env 20
              (Demo.bearer Demo.adminAcmeToken "" (Uncastable "")
                 Seed.newNoteBody)
              Seed.acmeFull)).
Proof.
  apply (@quota_kept_by_note_routes TextCodec.lib Seed.env 20
           (Demo.bearer Demo.adminAcmeToken "" (Uncastable "")
              Seed.newNoteBody)
           Seed.acmeFull "650000000000000000000025" acmeFull_within_quota).
Defined.

(** ** Who may delete, and what a deletion leaves *)

Lemma find_remove_first_unique (l : list Note.doc) (i tid : ObjectId) :
  NoDup (map Note._id l) ->
  find (fun x => (String.eqb (Note._id x) i
                  && String.eqb (Note.tenant x) tid)%bool)
       (remove_first (fun x => String.eqb (Note._id x) i) l) = None.
Proof.
  induction l as [|x l IH]; simpl; [reflexivity|].
  intros Hnd. inversion Hnd as [|? ? Hnotin Hnd']; subst.
  destruct (String.eqb_spec (Note._id x) i) as [E|E].
  - destruct (find _ l) as [m|] eqn:Hf; [|reflexivity].
    exfalso. apply find_some in Hf. destruct Hf as (Hin & Hp).
    apply andb_true_iff in Hp. destruct Hp as (Hi & _).
    apply String.eqb_eq in Hi. apply Hnotin. rewrite E, <- Hi.
    apply in_map. exact Hin.
  - simpl. destruct (String.eqb_spec (Note._id x) i); [contradiction|].
    simpl. apply IH. exact Hnd'.
Qed.

(** X6. On a note of the requester's tenant, [deleteNote] answers 403 to
    a member who is not the author and deletes nothing; it answers 200 to
    the author and to any admin, and then, stored ids being distinct, the
    note is gone: a read of the same id answers 404, and every note with
    another id is still there. *)
Theorem deleteNote_ownership (s : Store) (req : Request) (t : Tenant.doc)
  (u : User.populated) (i : ObjectId) (n : Note.doc) :
  tenant req = Some t ->
  user req = Some u ->
  params_id req = Castable i ->
  noteInTenant s i (Tenant._id t) = Some n ->
  (User.p_role u = member -> Note.author n <> User.p_id u ->
     status_of (deleteNote req s) = Some 403%nat /\
     store (deleteNote req s) = s) /\
  (User.p_role u = admin \/ Note.author n = User.p_id u ->
     status_of (deleteNote req s) = Some 200%nat /\
     (unique_note_ids s ->
        getNote req (store (deleteNote req s)) =
          reply note_not_found (store (deleteNote req s)) [] /\
        (forall m, In m (notes s) -> Note._id m <> i ->
                   In m (notes (store (deleteNote req s)))))).
Proof.
  intros Ht Hu Hi Hn.
  rewrite deleteNote_cases, Ht, Hi, Hn, Hu.
  unfold owns_or_admin. split.
  - intros Hr Hne. rewrite Hr. simpl.
    apply String.eqb_neq in Hne. rewrite Hne. split; reflexivity.
  - intros Hallowed.
    assert (Hcan : (Role_eqb (User.p_role u) admin
                    || String.eqb (Note.author n) (User.p_id u))%bool = true).
    { destruct Hallowed as [Hr | Ha]; [rewrite Hr; reflexivity|]. rewrite Ha.
      rewrite String.eqb_refl. apply orb_true_r. }
    rewrite Hcan. split; [reflexivity|].
    intros Huniq. cbn [store reply]. split.
    + rewrite getNote_cases, Ht, Hi. unfold noteInTenant. cbn [notes].
      rewrite (find_remove_first_unique _ i (Tenant._id t) Huniq).
      reflexivity.
    + intros m Hin Hm. cbn [notes].
      clear - Hin Hm. induction (notes s) as [|x l IH]; [destruct Hin|].
      simpl. destruct (String.eqb_spec (Note._id x) i) as [E|E].
      * destruct Hin as [<-|Hin]; [contradiction | exact Hin].
      * destruct Hin as [<-|Hin]; [left; reflexivity | right; auto].
Qed.

(** The Acme member may not delete the admin's note; the admin deletes
    the member's note, and it is gone. *)
Lemma deleteNote_ownership_witness :
  status_of (deleteNote
               (Seed.noteRequest Seed.seeded Seed.userAcme
                  (Note._id Seed.note2) Seed.emptyBody) Seed.seeded)
    = Some 403%nat /\
  status_of (deleteNote
               (Seed.noteRequest Seed.seeded Seed.adminAcme
                  (Note._id Seed.note1) Seed.emptyBody) Seed.seeded)
    = Some 200%nat /\
  status_of
    (getNote
       (Seed.noteRequest Seed.seeded Seed.adminAcme
          (Note._id Seed.note1) Seed.emptyBody)
       (store (deleteNote
                 (Seed.noteRequest Seed.seeded Seed.adminAcme
                    (Note._id Seed.note1) Seed.emptyBody) Seed.seeded)))
    = Some 404%nat.
Proof.
  destruct (deleteNote_ownership Seed.seeded
              (Seed.noteRequest Seed.seeded Seed.userAcme
                 (Note._id Seed.note2) Seed.emptyBody)
              Seed.acmeTenant (populate_tenant Seed.seeded Seed.userAcme)
              (Note._id Seed.note2) Seed.note2
              eq_refl eq_refl eq_refl eq_refl) as (Hmember & _).
  destruct (deleteNote_ownership Seed.seeded
              (Seed.noteRequest Seed.seeded Seed.adminAcme
                 (Note._id Seed.note1) Seed.emptyBody)
              Seed.acmeTenant (populate_tenant Seed.seeded Seed.adminAcme)
              (Note._id Seed.note1) Seed.note1
              eq_refl eq_refl eq_refl eq_refl) as (_ & Hadmin).
  destruct Hmember as (H403 & _); [reflexivity | intros E; discriminate E|].
  destruct (Hadmin (or_introl eq_refl)) as (H200 & Hgone).
  destruct (Hgone seeded_unique_note_ids) as (Hget & _).
  split; [exact H403|]. split; [exact H200|].
  rewrite Hget. reflexivity.
Defined.

(** ** What a creation stores *)

(** The two setters of a path commute, so the order in which Mongoose
    runs them does not show. *)
Lemma is_space_lower_unit (c : ascii) : is_space (lower_unit c) = is_space c.
Proof. destruct c as [[] [] [] [] [] [] [] []]; reflexivity. Qed.

Lemma toLowerCase_trimStart (s : string) :
  toLowerCase (trimStart s) = trimStart (toLowerCase s).
Proof.
  induction s as [|c s IH]; [reflexivity|].
  cbn [trimStart toLowerCase]. rewrite is_space_lower_unit.
  destruct (is_space c); [exact IH | reflexivity].
Qed.

Lemma toLowerCase_trimEnd (s : string) :
  toLowerCase (trimEnd s) = trimEnd (toLowerCase s).
Proof.
  induction s as [|c s IH]; [reflexivity|].
  cbn [trimEnd toLowerCase]. rewrite <- IH, is_space_lower_unit.
  destruct (trimEnd s) as [|c' r]; cbn [toLowerCase];
    [destruct (is_space c)|]; reflexivity.
Qed.

Lemma toLowerCase_trim (s : string) :
  toLowerCase (trim s) = trim (toLowerCase s).
Proof.
  unfold trim. rewrite toLowerCase_trimEnd, toLowerCase_trimStart.
  reflexivity.
Qed.

Lemma userById_exists_id (s : Store) (x : User.doc) (i : ObjectId) :
  In x (users s) -> User._id x = i -> exists y, userById s i = Some y.
Proof.
  intros Hin Hid. destruct (userById s i) as [y|] eqn:Hf;
    [exists y; reflexivity|].
  destruct (proj1 (userById_None s i) Hf x Hin Hid).
Qed.

Lemma valid_title_iff (t : string) :
  valid_title t = true <->
  trim t <> "" /\ Z.of_nat (String.length (trim t)) <= 200.
Proof.
  unfold valid_title. rewrite andb_true_iff, negb_true_iff, Z.leb_le.
  rewrite String.eqb_neq. reflexivity.
Qed.

Lemma valid_content_iff (c : string) :
  valid_content c = true <->
  c <> "" /\ Z.of_nat (String.length c) <= 10000.
Proof.
  unfold valid_content. rewrite andb_true_iff, negb_true_iff, Z.leb_le.
  rewrite String.eqb_neq. reflexivity.
Qed.

(** X7. A creation request that passes the route's validation and the
    gate, whose title is not empty once trimmed and then at most 200
    characters long, whose content is not empty and at most 10000
    characters long, and whose sender is a stored user of the tenant, is
    answered 201 and appends one note: the given title trimmed, the
    content as given, the tags trimmed and lower-cased, the requester as
    author, the requester's tenant, not archived.  When no stored note had
    the new id, a read of that id by the same requester returns exactly
    this note. *)
Theorem createNote_then_getNote (s : Store) (req : Request) (oid : ObjectId)
  (t : Tenant.doc) (u : User.populated) (a : User.doc)
  (ttl cnt : string) :
  validationErrors req = [] ->
  tenant req = Some t ->
  user req = Some u ->
  (Tenant.plan t = pro \/ noteCount s t < Tenant.max_notes t) ->
  b_title (body req) = Some ttl ->
  trim ttl <> "" -> Z.of_nat (String.length (trim ttl)) <= 200 ->
  b_content (body req) = Some cnt ->
  cnt <> "" -> Z.of_nat (String.length cnt) <= 10000 ->
  In a (users s) -> User._id a = User.p_id u ->
  (forall x, In x (users s) -> User._id x = User.p_id u ->
             User.tenant x = Tenant._id t) ->
  let n := Note.mk oid (trim ttl) cnt (User.p_id u) (Tenant._id t)
             (map (fun tag => toLowerCase (trim tag))
                (match b_tags (body req) with
                 | Some (TagsArray l) => l
                 | _ => []
                 end)) false in
  let s' := mkStore (tenants s) (users s) (notes s ++ [n]) in
  createNote oid req s =
    reply (mkResponse 201 (JNote "Note created successfully" (Some n)))
      s' [EvNoteInsert n] /\
  ((forall m, In m (notes s) -> Note._id m <> oid) ->
     getNote (set_id req (Castable oid)) s' =
       reply (mkResponse 200 (JNote "" (Some n))) s' []).
Proof.
  intros Hv Ht Hu Hgate Htitle Hne Hlen Hcontent Hcne Hclen Hin Hid Hsame
    n s'.
  assert (Hcan : (Tenant.isPro t || (noteCount s t <? Tenant.max_notes t))%bool
                 = true).
  { unfold Tenant.isPro. destruct Hgate as [Hp|Hlt].
    - rewrite Hp. reflexivity.
    - apply Z.ltb_lt in Hlt. rewrite Hlt. apply orb_true_r. }
  assert (Hvt : valid_title ttl = true) by (apply valid_title_iff; auto).
  assert (Hvc : valid_content cnt = true) by (apply valid_content_iff; auto).
  destruct (userById_exists_id s a (User.p_id u) Hin Hid) as (a' & Ha).
  assert (Hat : User.tenant a' = Tenant._id t).
  { apply userById_first in Ha. destruct Ha as (l1 & l2 & Hl & Hi & _).
    apply Hsame; [rewrite Hl; apply in_elt | exact Hi]. }
  split.
  - rewrite createNote_cases, Hv, Ht, Hcan, Hu.
    unfold noteSchema_validate. cbn [in_title in_content].
    rewrite Htitle, Hcontent, Hvt, Hvc. cbn [andb in_author in_tenant in_tags
                                              Note.author Note.tenant].
    rewrite Ha, Hat, String.eqb_refl. reflexivity.
  - intros Hfresh. rewrite getNote_cases.
    cbn [tenant set_id params_id]. rewrite Ht.
    unfold noteInTenant. subst s'. cbn [notes].
    assert (Hnone : forall l, (forall m, In m l -> Note._id m <> oid) ->
              find (fun x => (String.eqb (Note._id x) oid
                              && String.eqb (Note.tenant x) (Tenant._id t))%bool)
                   (l ++ [n]) = Some n).
    { induction l as [|x l IH]; intros Hl; simpl.
      - subst n. cbn [Note._id Note.tenant]. rewrite !String.eqb_refl.
        reflexivity.
      - destruct (String.eqb_spec (Note._id x) oid) as [E|E].
        + destruct (Hl x (or_introl eq_refl) E).
        + simpl. apply IH. intros m Hm. apply Hl. right. exact Hm. }
    rewrite (Hnone _ Hfresh). reflexivity.
Qed.

(** user@acme files a note whose title is wrapped in no-break spaces and
    whose tag is in upper case: it is stored trimmed and in lower case,
    and read back.  A title of white space only is refused. *)
Lemma createNote_then_getNote_witness :
  let req := Seed.noteRequest Seed.seeded Seed.userAcme "" Demo.latinBody in
  let n := Note.mk "650000000000000000000025" "Menu du jour" "text"
             (User._id Seed.userAcme) Seed.acmeId
             [Demo.e_acute ++ "t" ++ Demo.e_acute] false in
  let s' := mkStore (tenants Seed.seeded) (users Seed.seeded)
              (notes Seed.seeded ++ [n]) in
  createNote "650000000000000000000025" req Seed.seeded =
    reply (mkResponse 201 (JNote "Note created successfully" (Some n)))
      s' [EvNoteInsert n] /\
  getNote (set_id req (Castable "650000000000000000000025")) s' =
    reply (mkResponse 200 (JNote "" (Some n))) s' [] /\
  createNote "650000000000000000000025"
    (Seed.noteRequest Seed.seeded Seed.userAcme "" Demo.blankTitleBody)
    Seed.seeded = reply internal_error Seed.seeded [].
Proof.
  cbv zeta.
  destruct (createNote_then_getNote Seed.seeded
              (Seed.noteRequest Seed.seeded Seed.userAcme ""
                 Demo.latinBody)
              "650000000000000000000025" Seed.acmeTenant
              (populate_tenant Seed.seeded Seed.userAcme) Seed.userAcme
              (Demo.nbsp ++ "Menu du jour " ++ Demo.nbsp) "text"
              eq_refl eq_refl eq_refl)
    as (Hcreate & Hget).
  - right. vm_compute. reflexivity.
  - reflexivity.
  - intros E. vm_compute in E. discriminate E.
  - vm_compute. discriminate.
  - reflexivity.
  - intros E. discriminate E.
  - vm_compute. discriminate.
  - right. left. reflexivity.
  - reflexivity.
  - intros x Hx Hxid. simpl in Hx.
    destruct Hx as [<-|[<-|[<-|[<-|[]]]]];
      first [reflexivity | discriminate Hxid].
  - split; [exact Hcreate|]. split.
    + apply Hget. intros m Hin. simpl in Hin.
      destruct Hin as [<-|[<-|[<-|[]]]]; intros E; discriminate E.
    + vm_compute. reflexivity.
Defined.

(** ** Tenant information and upgrade *)

Ltac run_tenant :=
  repeat (progress unfold User_countDocuments, upgradeToPro, Tenant_save,
            canCreateNote, tenantError);
  run.

(** [getTenant] as a decision tree. *)
Lemma getTenant_cases (req : Request) (s : Store) :
  getTenant req s =
  match tenantBySlug s (params_slug req) with
  | None =>
      mkOutcome (Returned (mkTenantResponse 404 (TError "Tenant not found")))
        s []
  | Some t =>
      mkOutcome
        (Returned
           (mkTenantResponse 200
              (TInfo t (Tenant.isPro t)
                 (mkTenantStats
                    (length
                       (filter
                          (fun u => (String.eqb (User.tenant u) (Tenant._id t)
                                     && Bool.eqb (User.isActive u) true)%bool)
                          (users s)))
                    (length
                       (filter
                          (fun n => (String.eqb (Note.tenant n) (Tenant._id t)
                                     && Bool.eqb (Note.isArchived n) false)%bool)
                          (notes s)))
                    (Tenant.isPro t
                     || (noteCount s t <? Tenant.max_notes t))%bool))))
        s []
  end.
Proof.
  unfold getTenant. run_tenant.
  destruct (tenantBySlug s (params_slug req)) as [t|]; [|reflexivity].
  run_tenant. unfold Tenant.isPro, noteCount, notesOfTenant.
  destruct (Plan_eqb (Tenant.plan t) pro); reflexivity.
Qed.

Lemma length_filter_and {A} (p q : A -> bool) (l : list A) :
  length (filter p l) =
  (length (filter (fun x => (p x && q x)%bool) l)
   + length (filter (fun x => (p x && negb (q x))%bool) l))%nat.
Proof.
  induction l as [|x l IH]; simpl; [reflexivity|].
  destruct (p x), (q x); simpl; lia.
Qed.

(** X8. [getTenant] looks the path slug up after the schema has cast it
    (lower case, trimmed): it answers 404 when no stored tenant has the
    cast slug and otherwise 200 with the first such tenant, without
    touching the store.  The [totalNotes] it reports leaves archived notes
    out, while [canCreateNotes] is decided on all of them: for a free-plan
    tenant, [canCreateNotes] is true exactly when [totalNotes] plus the
    number of the tenant's archived notes is below [max_notes].  So the
    response can show [totalNotes] below the limit together with
    [canCreateNotes] false. *)
Theorem getTenant_stats (s : Store) (req : Request) :
  ((forall t, In t (tenants s) ->
              Tenant.slug t <> trim (toLowerCase (params_slug req))) ->
     getTenant req s =
       mkOutcome (Returned (mkTenantResponse 404 (TError "Tenant not found")))
         s []) /\
  (forall t,
     first_such
       (fun x => Tenant.slug x = trim (toLowerCase (params_slug req)))
       (tenants s) t ->
     exists stats,
       getTenant req s =
         mkOutcome
           (Returned (mkTenantResponse 200 (TInfo t (Tenant.isPro t) stats)))
           s [] /\
       let archived :=
         length (filter Note.isArchived (notesOfTenant s t)) in
       noteCount s t = Z.of_nat (totalNotes stats) + Z.of_nat archived /\
       (Tenant.plan t = free ->
          (canCreateNotes stats = true <->
             Z.of_nat (totalNotes stats) + Z.of_nat archived
             < Tenant.max_notes t)) /\
       (Tenant.plan t = pro -> canCreateNotes stats = true)).
Proof.
  rewrite getTenant_cases. split.
  - intros Hnone. apply tenantBySlug_None in Hnone. rewrite Hnone.
    reflexivity.
  - intros t Hfirst. apply tenantBySlug_first in Hfirst. rewrite Hfirst.
    eexists. split; [reflexivity|].
    cbn [totalNotes canCreateNotes].
    assert (Hsplit :
              noteCount s t =
              Z.of_nat
                (length
                   (filter
                      (fun n => (String.eqb (Note.tenant n) (Tenant._id t)
                                 && Bool.eqb (Note.isArchived n) false)%bool)
                      (notes s)))
              + Z.of_nat (length (filter Note.isArchived (notesOfTenant s t)))).
    { unfold noteCount, notesOfTenant.
      rewrite (length_filter_and
                 (fun n => String.eqb (Note.tenant n) (Tenant._id t))
                 (fun n => Bool.eqb (Note.isArchived n) false) (notes s)).
      rewrite Nat2Z.inj_add. f_equal. f_equal.
      induction (notes s) as [|x l IH]; simpl; [reflexivity|].
      destruct (String.eqb (Note.tenant x) (Tenant._id t)); simpl;
        [|exact IH].
      destruct (Note.isArchived x); simpl; rewrite IH; reflexivity. }
    split; [exact Hsplit|]. unfold Tenant.isPro. split.
    + intros ->. simpl. rewrite <- Hsplit. apply Z.ltb_lt.
    + intros ->. reflexivity.
Qed.

(** Acme holds three notes, one archived, and a limit of three: asked
    for as [/ACME], the response shows two notes and says no further note
    can be created; [/initech] is answered 404. *)
Lemma getTenant_stats_witness :
  (exists stats,
     getTenant (Seed.request None "ACME") Seed.acmeFull =
       mkOutcome
         (Returned
            (mkTenantResponse 200 (TInfo Seed.acmeTenant false stats)))
         Seed.acmeFull [] /\
     totalNotes stats = 2%nat /\ canCreateNotes stats = false /\
     Tenant.max_notes Seed.acmeTenant = 3) /\
  getTenant (Seed.request None "initech") Seed.acmeFull =
    mkOutcome (Returned (mkTenantResponse 404 (TError "Tenant not found")))
      Seed.acmeFull [].
Proof.
  destruct (getTenant_stats Seed.acmeFull (Seed.request None "ACME"))
    as (_ & H).
  destruct (getTenant_stats Seed.acmeFull (Seed.request None "initech"))
    as (H404 & _).
  split.
  - assert (Hfirst : first_such
                       (fun x => Tenant.slug x =
                                 trim (toLowerCase
                                         (params_slug
                                            (Seed.request None "ACME"))))
                       (tenants Seed.acmeFull) Seed.acmeTenant).
    { exists [], [Seed.globexTenant].
      split; [reflexivity|]. split; [reflexivity | intros y []]. }
    destruct (H Seed.acmeTenant Hfirst) as (stats & Hresp & _).
    exists stats. split; [exact Hresp|].
    vm_compute in Hresp. injection Hresp as <-.
    split; [reflexivity|]. split; reflexivity.
  - apply H404. intros t [<-|[<-|[]]] E; discriminate E.
Defined.

(** [upgradeTenant] as a decision tree. *)
Lemma upgradeTenant_cases (now : Z) (req : Request) (s : Store) :
  upgradeTenant now req s =
  let answer500 :=
    mkOutcome (Returned (tenantError 500 "Internal server error")) s [] in
  match tenantBySlug s (params_slug req) with
  | None => mkOutcome (Returned (tenantError 404 "Tenant not found")) s []
  | Some t =>
  match user req with
  | None => answer500
  | Some u =>
  match User.p_tenant u with
  | None => answer500
  | Some own =>
      if negb (String.eqb (Tenant._id own) (Tenant._id t)) then
        mkOutcome
          (Returned
             (tenantError 403
                "Access denied. You can only upgrade your own tenant."))
          s []
      else if negb (Role_eqb (User.p_role u) admin) then
        mkOutcome
          (Returned
             (tenantError 403
                "Access denied. Admin privileges required for subscription upgrades."))
          s []
      else if Plan_eqb (Tenant.plan t) pro then
        mkOutcome (Returned (tenantError 400 "Tenant is already on Pro plan"))
          s []
      else
        mkOutcome
          (Returned
             (mkTenantResponse 200
                (TUpgraded "Successfully upgraded to Pro plan"
                   (upgradedDoc now t) true)))
          (mkStore
             (replace_first
                (fun x => String.eqb (Tenant._id x) (Tenant._id t))
                (upgradedDoc now) (tenants s))
             (users s) (notes s))
          [EvTenantSave (Tenant._id t)]
  end
  end
  end.
Proof.
  cbv zeta. unfold upgradeTenant, toString. run_tenant.
  destruct (tenantBySlug s (params_slug req)) as [t|]; [|reflexivity].
  run_tenant. destruct (user req) as [u|]; [|reflexivity].
  run_tenant. destruct (User.p_tenant u) as [own|]; [|reflexivity].
  run_tenant.
  destruct (String.eqb (Tenant._id own) (Tenant._id t)); [|reflexivity].
  cbn [negb].
  destruct (Role_eqb (User.p_role u) admin); [|reflexivity].
  cbn [negb].
  destruct (Plan_eqb (Tenant.plan t) pro); reflexivity.
Qed.

Lemma find_after_replace_first {A} (p q : A -> bool) (f : A -> A)
  (l : list A) (t : A) :
  (forall x, q (f x) = q x) ->
  find p l = Some t -> find q l = Some t ->
  find q (replace_first p f l) = Some (f t).
Proof.
  intros Hq. induction l as [|x l IH]; simpl; [discriminate|].
  destruct (p x) eqn:Hp.
  - intros [= ->]. simpl. rewrite Hq. destruct (q t) eqn:Hqt.
    + intros _. reflexivity.
    + intros Hf. apply find_some in Hf. destruct Hf as (_ & Hf).
      rewrite Hqt in Hf. discriminate.
  - intros Hfp. simpl. destruct (q x) eqn:Hqx.
    + intros [= ->]. apply find_some in Hfp. destruct Hfp as (_ & Hfp).
      rewrite Hp in Hfp. discriminate.
    + intros Hfq. apply IH; assumption.
Qed.

(** X9. An admin upgrading their own free-plan tenant (the stored
    document of its id) is answered 200; the stored tenant then is on the
    pro plan with [max_notes] -1 and the upgrade time, users and notes are
    untouched, [canCreateNote] on it is true whatever the note count, and
    the same request again is answered 400, the store unchanged. *)
Theorem upgradeTenant_effect (now : Z) (s : Store) (req : Request)
  (u : User.populated) (own t : Tenant.doc) :
  user req = Some u ->
  User.p_role u = admin ->
  User.p_tenant u = Some own ->
  Tenant._id own = Tenant._id t ->
  tenantBySlug s (params_slug req) = Some t ->
  tenantById s (Tenant._id t) = Some t ->
  Tenant.plan t = free ->
  let s' := store (upgradeTenant now req s) in
  completion (upgradeTenant now req s) =
    Returned
      (mkTenantResponse 200
         (TUpgraded "Successfully upgraded to Pro plan" (upgradedDoc now t)
            true)) /\
  tenantBySlug s' (params_slug req) = Some (upgradedDoc now t) /\
  tenantById s' (Tenant._id t) = Some (upgradedDoc now t) /\
  Tenant.plan (upgradedDoc now t) = pro /\
  Tenant.max_notes (upgradedDoc now t) = -1 /\
  Tenant.upgraded_at (upgradedDoc now t) = Some now /\
  users s' = users s /\ notes s' = notes s /\
  (forall s'', canCreateNote (upgradedDoc now t) s'' =
               mkOutcome (Returned true) s'' []) /\
  (forall now',
     upgradeTenant now' req s' =
       mkOutcome (Returned (tenantError 400 "Tenant is already on Pro plan"))
         s' []).
Proof.
  intros Hu Hr Hown Hid Hslug Hbyid Hplan.
  assert (E : upgradeTenant now req s =
              mkOutcome
                (Returned
                   (mkTenantResponse 200
                      (TUpgraded "Successfully upgraded to Pro plan"
                         (upgradedDoc now t) true)))
                (mkStore
                   (replace_first
                      (fun x => String.eqb (Tenant._id x) (Tenant._id t))
                      (upgradedDoc now) (tenants s))
                   (users s) (notes s))
                [EvTenantSave (Tenant._id t)]).
  { rewrite upgradeTenant_cases. cbv zeta.
    rewrite Hslug, Hu, Hown, Hid, String.eqb_refl, Hr, Hplan. reflexivity. }
  cbv zeta. rewrite E. cbn [completion store users notes].
  assert (Hslug' :
            tenantBySlug
              (mkStore
                 (replace_first
                    (fun x => String.eqb (Tenant._id x) (Tenant._id t))
                    (upgradedDoc now) (tenants s))
                 (users s) (notes s)) (params_slug req)
            = Some (upgradedDoc now t)).
  { unfold tenantBySlug. cbn [tenants].
    apply find_after_replace_first; [reflexivity | exact Hbyid | exact Hslug]. }
  split; [reflexivity|]. split; [exact Hslug'|]. split.
  { unfold tenantById. cbn [tenants].
    apply find_after_replace_first; [reflexivity | exact Hbyid | exact Hbyid]. }
  split; [reflexivity|]. split; [reflexivity|]. split; [reflexivity|].
  split; [reflexivity|]. split; [reflexivity|]. split.
  - intros s''. reflexivity.
  - intros now'. rewrite upgradeTenant_cases. cbv zeta.
    rewrite Hslug'. cbn [user]. rewrite Hu, Hown.
    cbn [upgradedDoc Tenant._id Tenant.plan].
    rewrite Hid, String.eqb_refl, Hr. reflexivity.
Qed.

(** admin@acme upgrades Acme, at its limit of three notes, at clock 50:
    the gate opens, and a second upgrade is refused. *)
Lemma upgradeTenant_effect_witness :
  let req := Seed.userRequest Seed.acmeFull Seed.adminAcme "acme" "" None in
  let s' := store (upgradeTenant 50 req Seed.acmeFull) in
  tenantById s' Seed.acmeId = Some (upgradedDoc 50 Seed.acmeTenant) /\
  canCreateNote (upgradedDoc 50 Seed.acmeTenant) s' =
    mkOutcome (Returned true) s' [] /\
  upgradeTenant 60 req s' =
    mkOutcome (Returned (tenantError 400 "Tenant is already on Pro plan"))
      s' [].
Proof.
  cbv zeta.
  destruct (upgradeTenant_effect 50 Seed.acmeFull
              (Seed.userRequest Seed.acmeFull Seed.adminAcme "acme" "" None)
              (populate_tenant Seed.acmeFull Seed.adminAcme)
              Seed.acmeTenant Seed.acmeTenant
              eq_refl eq_refl eq_refl eq_refl eq_refl eq_refl eq_refl)
    as (_ & _ & Hid & _ & _ & _ & _ & _ & Hgate & Hagain).
  split; [exact Hid|]. split; [apply Hgate | apply Hagain].
Defined.

(** ** What no request does to a tenant *)

Ltac split_cases :=
  repeat match goal with
         | |- context [match ?x with _ => _ end] => destruct x
         end.

Lemma step_keeps_tenants (s : Store) (op : Op) :
  tenants (step s op) = tenants s.
Proof.
  destruct op; simpl.
  - rewrite createNote_cases. split_cases; reflexivity.
  - rewrite updateNote_cases. cbv zeta. split_cases; reflexivity.
  - rewrite deleteNote_cases. split_cases; reflexivity.
  - rewrite updateUserRole_cases. split_cases; reflexivity.
  - rewrite deactivateUser_cases. split_cases; reflexivity.
Qed.

Lemma find_replace_first_either {A} (hit p : A -> bool) (f : A -> A)
  (l : list A) (v : A) :
  (forall x, hit (f x) = hit x) ->
  find hit l = Some v ->
  find hit (replace_first p f l) = Some v \/
  find hit (replace_first p f l) = Some (f v).
Proof.
  intros Hf. induction l as [|x l IH]; simpl; [discriminate|].
  destruct (p x); simpl.
  - rewrite Hf. destruct (hit x).
    + intros [= <-]. right. reflexivity.
    + intros H. left. exact H.
  - destruct (hit x); [intros H; left; exact H | exact IH].
Qed.

Lemma identity_replace_first (p : Tenant.doc -> bool) (now : Z)
  (l : list Tenant.doc) :
  map tenant_identity (replace_first p (upgradedDoc now) l) =
  map tenant_identity l.
Proof.
  induction l as [|x l IH]; simpl; [reflexivity|].
  destruct (p x); simpl; [reflexivity | rewrite IH; reflexivity].
Qed.

(** One request: tenants keep their identity, a pro tenant stays pro and
    a tenant that is free afterwards is the document it was. *)
Lemma perform_tenants (s : Store) (a : Action) :
  map tenant_identity (tenants (perform s a)) =
    map tenant_identity (tenants s) /\
  (forall i t, tenantById s i = Some t ->
     exists t', tenantById (perform s a) i = Some t' /\
                (Tenant.plan t = pro -> Tenant.plan t' = pro) /\
                (Tenant.plan t' = free -> t' = t)).
Proof.
  assert (Hsame : forall s', tenants s' = tenants s ->
            map tenant_identity (tenants s') = map tenant_identity (tenants s)
            /\ (forall i t, tenantById s i = Some t ->
                  exists t', tenantById s' i = Some t' /\
                    (Tenant.plan t = pro -> Tenant.plan t' = pro) /\
                    (Tenant.plan t' = free -> t' = t))).
  { intros s' E. split; [rewrite E; reflexivity|].
    intros i t Hi. exists t. unfold tenantById in *. rewrite E. auto. }
  destruct a as [op|now req]; simpl.
  - apply Hsame. apply step_keeps_tenants.
  - rewrite upgradeTenant_cases. cbv zeta.
    destruct (tenantBySlug s (params_slug req)) as [t0|]; [|apply Hsame; reflexivity].
    destruct (user req) as [u|]; [|apply Hsame; reflexivity].
    destruct (User.p_tenant u) as [own|]; [|apply Hsame; reflexivity].
    destruct (negb (String.eqb (Tenant._id own) (Tenant._id t0)));
      [apply Hsame; reflexivity|].
    destruct (negb (Role_eqb (User.p_role u) admin));
      [apply Hsame; reflexivity|].
    destruct (Plan_eqb (Tenant.plan t0) pro); [apply Hsame; reflexivity|].
    cbn [store tenants]. split; [apply identity_replace_first|].
    intros i t Hi. unfold tenantById in *. cbn [tenants].
    destruct (find_replace_first_either
                (fun x => String.eqb (Tenant._id x) i)
                (fun x => String.eqb (Tenant._id x) (Tenant._id t0))
                (upgradedDoc now) (tenants s) t (fun x => eq_refl) Hi)
      as [H|H]; rewrite H.
    + exists t. auto.
    + exists (upgradedDoc now t). split; [reflexivity|].
      split; [reflexivity | discriminate].
Qed.

(** X10. Whatever sequence of note creations, updates and deletions,
    role changes, deactivations and upgrades is served: the tenants stay
    the same in number, order, ids, slugs and names; a tenant on the pro
    plan stays on it (no request downgrades); and a tenant that is still
    on the free plan is the document it was, limit included. *)
Theorem tenants_only_upgrade (acts : list Action) (s : Store) :
  map tenant_identity (tenants (perform_all acts s)) =
    map tenant_identity (tenants s) /\
  (forall i t, tenantById s i = Some t ->
     exists t', tenantById (perform_all acts s) i = Some t' /\
                (Tenant.plan t = pro -> Tenant.plan t' = pro) /\
                (Tenant.plan t' = free -> t' = t)).
Proof.
  unfold perform_all. revert s.
  induction acts as [|a acts IH]; intros s; simpl.
  - split; [reflexivity|]. intros i t Hi. exists t. auto.
  - destruct (perform_tenants s a) as (Hid & Hstep).
    destruct (IH (perform s a)) as (Hid' & Hrest).
    split; [congruence|].
    intros i t Hi. destruct (Hstep i t Hi) as (t1 & H1 & Hpro1 & Hfree1).
    destruct (Hrest i t1 H1) as (t2 & H2 & Hpro2 & Hfree2).
    exists t2. split; [exact H2|]. split; [auto|].
    intros Hf. pose proof (Hfree2 Hf) as E. subst t2. auto.
Qed.

(** Acme is upgraded, then a note is created and a role changed: Acme is
    on the pro plan at the end, and Globex is the document it was. *)
Lemma tenants_only_upgrade_witness :
  let acts :=
    [Upgrade 50
       (Seed.userRequest Seed.seeded Seed.adminAcme "acme" "" None);
     Write (OpCreateNote "650000000000000000000025"
              (Seed.noteRequest Seed.seeded Seed.userAcme ""
                 Seed.newNoteBody));
     Write (OpUpdateUserRole
              (Seed.userRequest Seed.seeded Seed.adminAcme "acme"
                 (User._id Seed.userAcme) (Some "admin")))] in
  (exists t', tenantById (perform_all acts Seed.seeded) Seed.globexId
                = Some t' /\
              (Tenant.plan t' = free -> t' = Seed.globexTenant)) /\
  tenantById (perform_all acts Seed.seeded) Seed.acmeId =
    Some (upgradedDoc 50 Seed.acmeTenant).
Proof.
  cbv zeta. split.
  - destruct (tenants_only_upgrade
                [Upgrade 50
                   (Seed.userRequest Seed.seeded Seed.adminAcme "acme" ""
                      None);
                 Write (OpCreateNote "650000000000000000000025"
                          (Seed.noteRequest Seed.seeded Seed.userAcme ""
                             Seed.newNoteBody));
                 Write (OpUpdateUserRole
                          (Seed.userRequest Seed.seeded Seed.adminAcme "acme"
                             (User._id Seed.userAcme) (Some "admin")))]
                Seed.seeded) as (_ & H).
    destruct (H Seed.globexId Seed.globexTenant eq_refl)
      as (t' & Ht' & _ & Hfree).
    exists t'. split; assumption.
  - vm_compute. reflexivity.
Defined.

(** ** User administration takes effect at the next request *)

Lemma userInTenant_id (s : Store) (i tid : ObjectId) (x : User.doc) :
  userInTenant s i tid = Some x -> In x (users s) /\ User._id x = i.
Proof.
  unfold userInTenant. intros H. apply find_some in H.
  destruct H as (Hin & Hp). apply andb_true_iff in Hp.
  destruct Hp as (Hi & _). apply String.eqb_eq in Hi. auto.
Qed.

Lemma userById_exists (s : Store) (x : User.doc) :
  In x (users s) -> exists y, userById s (User._id x) = Some y.
Proof.
  intros Hin. unfold userById.
  destruct (find _ (users s)) as [y|] eqn:Hf; [exists y; reflexivity|].
  apply (find_none _ _ Hf) in Hin. simpl in Hin.
  rewrite String.eqb_refl in Hin. discriminate.
Qed.

Section NextRequest.
Context {L : JwtLib}.

(** X11. Once [deactivateUser] has answered 200 for a user id, every
    later request whose token verifies and names that id is answered 401
    by [authenticate], however long the token is still valid: the active
    flag is read from the store at each request. *)
Theorem deactivated_user_locked_out (s : Store) (req : Request)
  (id : ObjectId) (env : Env) (now' : Z) (req' : Request) (d : JwtPayload) :
  status_of (deactivateUser req s) = Some 200%nat ->
  params_userId req = Castable id ->
  truthy (token_of req') = true ->
  jwt_verify now' (str (token_of req')) (JWT_SECRET env) = Returned d ->
  userId (claims d) = Castable id ->
  authenticate env now' req' (store (deactivateUser req s)) =
    answer 401 "Account is deactivated." (store (deactivateUser req s)).
Proof.
  intros H200 Hid Htok Hv Hd.
  rewrite authenticate_cases, Htok, Hv, Hd.
  revert H200. rewrite deactivateUser_cases.
  destruct (tenantBySlug s (params_slug req)) as [t|]; [|discriminate].
  destruct (user req) as [u|]; [|discriminate].
  destruct (User.p_tenant u) as [own|]; [|discriminate].
  destruct (negb (String.eqb (Tenant._id own) (Tenant._id t))
            || negb (Role_eqb (User.p_role u) admin))%bool; [discriminate|].
  rewrite Hid.
  destruct (userInTenant s id (Tenant._id t)) as [target|] eqn:Ht;
    [|discriminate].
  destruct (String.eqb (User._id target) (User.p_id u)); [discriminate|].
  intros _. cbn [store reply].
  destruct (userInTenant_id _ _ _ _ Ht) as (Hin & Hti).
  destruct (userById_exists s target Hin) as (x & Hx). rewrite Hti in *.
  unfold userById in *. cbn [users].
  rewrite (find_after_replace_first
             (fun y => String.eqb (User._id y) id)
             (fun y => String.eqb (User._id y) id)
             (fun y => with_isActive y false)
             (users s) x (fun y => eq_refl) Hx Hx).
  reflexivity.
Qed.

(** X12. The role [authenticate] attaches is the stored one, not the
    token's claim.  Once [updateUserRole] has answered 200 giving a user
    id the role [r], a later request whose token verifies and names that
    id (the stored user being active) is forwarded with role [r] whatever
    role the token carries; [requireAdmin] then lets it through when [r]
    is admin and answers 403 when it is member. *)
Theorem role_change_takes_effect (s : Store) (req : Request)
  (id : ObjectId) (r : Role) (x : User.doc) (env : Env) (now' : Z)
  (req' : Request) (d : JwtPayload) :
  status_of (updateUserRole req s) = Some 200%nat ->
  params_userId req = Castable id ->
  Role_parse (b_role (body req)) = Some r ->
  userById s id = Some x ->
  User.isActive x = true ->
  truthy (token_of req') = true ->
  jwt_verify now' (str (token_of req')) (JWT_SECRET env) = Returned d ->
  userId (claims d) = Castable id ->
  let s' := store (updateUserRole req s) in
  exists fwd,
    authenticate env now' req' s' = mkOutcome (Returned (Next fwd)) s' [] /\
    user fwd = Some (populate_tenant s' (with_role x r)) /\
    (r = admin -> requireAdmin fwd = Next fwd) /\
    (r = member ->
       requireAdmin fwd =
         Respond (mkResponse 403
                    (JError "Access denied. Admin privileges required."))).
Proof.
  intros H200 Hid Hrole Hx Ha Htok Hv Hd. cbv zeta.
  rewrite authenticate_cases, Htok, Hv, Hd.
  revert H200. rewrite updateUserRole_cases, Hrole.
  destruct (tenantBySlug s (params_slug req)) as [t|]; [|discriminate].
  destruct (user req) as [u|]; [|discriminate].
  destruct (User.p_tenant u) as [own|]; [|discriminate].
  destruct (negb (String.eqb (Tenant._id own) (Tenant._id t)));
    [discriminate|].
  destruct (negb (Role_eqb (User.p_role u) admin)); [discriminate|].
  rewrite Hid.
  destruct (userInTenant s id (Tenant._id t)) as [target|] eqn:Ht;
    [|discriminate].
  destruct (String.eqb (User._id target) (User.p_id u)
            && negb (Role_eqb r admin))%bool; [discriminate|].
  intros _. cbn [store reply].
  destruct (userInTenant_id _ _ _ _ Ht) as (_ & Hti). rewrite Hti.
  unfold userById in *. cbn [users].
  rewrite (find_after_replace_first
             (fun y => String.eqb (User._id y) id)
             (fun y => String.eqb (User._id y) id)
             (fun y => with_role y r)
             (users s) x (fun y => eq_refl) Hx Hx).
  cbn [with_role User.isActive]. rewrite Ha.
  eexists. split; [reflexivity|].
  cbn [user attach]. split; [reflexivity|].
  unfold requireAdmin. cbn [user attach populate_tenant User.p_role with_role
                              User.role].
  split; intros ->; reflexivity.
Qed.
End NextRequest.

(** admin@acme deactivates user@acme; the member's token, valid until
    clock 70, is refused at clock 20. *)
Lemma deactivated_user_locked_out_witness :
  let s' := store (deactivateUser
                     (Seed.userRequest Seed.seeded Seed.adminAcme "acme"
                        (User._id Seed.userAcme) None) Seed.seeded) in
  @authenticate TextCodec.lib Seed.env 20
    (Demo.bearer Seed.userAcmeToken "" (Uncastable "") Seed.emptyBody) s' =
  answer 401 "Account is deactivated." s'.
Proof.
  cbv zeta.
  assert (Htok : truthy (token_of
                   (Demo.bearer Seed.userAcmeToken "" (Uncastable "")
                      Seed.emptyBody)) = true)
    by (vm_compute; reflexivity).
  assert (Hv : @jwt_verify TextCodec.lib 20
                 (str (token_of
                    (Demo.bearer Seed.userAcmeToken "" (Uncastable "")
                       Seed.emptyBody)))
                 (JWT_SECRET Seed.env) = Returned Seed.userAcmePayload)
    by (vm_compute; reflexivity).
  exact (@deactivated_user_locked_out TextCodec.lib Seed.seeded
           (Seed.userRequest Seed.seeded Seed.adminAcme "acme"
              (User._id Seed.userAcme) None)
           (User._id Seed.userAcme) Seed.env 20
           (Demo.bearer Seed.userAcmeToken "" (Uncastable "") Seed.emptyBody)
           Seed.userAcmePayload eq_refl eq_refl Htok Hv eq_refl).
Defined.

(** admin@acme makes user@acme an admin; the member's old token, whose
    role claim still says member, now passes [requireAdmin]. *)
Lemma role_change_takes_effect_witness :
  let s' := store (updateUserRole
                     (Seed.userRequest Seed.seeded Seed.adminAcme "acme"
                        (User._id Seed.userAcme) (Some "admin"))
                     Seed.seeded) in
  role (claims Seed.userAcmePayload) = member /\
  exists fwd,
    @authenticate TextCodec.lib Seed.env 20
      (Demo.bearer Seed.userAcmeToken "" (Uncastable "") Seed.emptyBody) s' =
      mkOutcome (Returned (Next fwd)) s' [] /\
    requireAdmin fwd = Next fwd.
Proof.
  cbv zeta. split; [reflexivity|].
  assert (Htok : truthy (token_of
                   (Demo.bearer Seed.userAcmeToken "" (Uncastable "")
                      Seed.emptyBody)) = true)
    by (vm_compute; reflexivity).
  assert (Hv : @jwt_verify TextCodec.lib 20
                 (str (token_of
                    (Demo.bearer Seed.userAcmeToken "" (Uncastable "")
                       Seed.emptyBody)))
                 (JWT_SECRET Seed.env) = Returned Seed.userAcmePayload)
    by (vm_compute; reflexivity).
  destruct (@role_change_takes_effect TextCodec.lib Seed.seeded
              (Seed.userRequest Seed.seeded Seed.adminAcme "acme"
                 (User._id Seed.userAcme) (Some "admin"))
              (User._id Seed.userAcme) admin Seed.userAcme Seed.env 20
              (Demo.bearer Seed.userAcmeToken "" (Uncastable "")
                 Seed.emptyBody)
              Seed.userAcmePayload eq_refl eq_refl eq_refl eq_refl eq_refl
              Htok Hv eq_refl)
    as (fwd & Hauth & _ & Hadmin & _).
  exists fwd. split; [exact Hauth | exact (Hadmin eq_refl)].
Defined.

(** ** Login *)

Section LoginFacts.
Context {L : JwtLib} {P : PasswordLib}.

(** [login] as a decision tree. *)
Lemma login_cases (env : Env) (now : Z) (req : LoginRequest) (s : Store) :
  login env now req s =
  match l_validationErrors req with
  | _ :: _ =>
      mkOutcome
        (Returned (mkLoginResponse 400 (LValidation (l_validationErrors req))))
        s []
  | [] =>
  match lb_email (l_body req) with
  | None => login_answer 500 "Internal server error" s
  | Some e =>
  match userByEmail s (toLowerCase e) with
  | None => login_answer 401 "Invalid credentials" s
  | Some u =>
      if User.isActive u then
        match comparePassword u (lb_password (l_body req)) with
        | Threw _ => login_answer 500 "Internal server error" s
        | Returned false => login_answer 401 "Invalid credentials" s
        | Returned true =>
            match generateAccessToken env now (User._id u) (User.email u)
                    (User.role u)
                    (match tenantById s (User.tenant u) with
                     | Some t => TenantDoc t
                     | None => TenantNull
                     end) with
            | Threw _ => login_answer 500 "Internal server error" s
            | Returned token =>
                mkOutcome
                  (Returned
                     (mkLoginResponse 200
                        (LSuccess token (populate_tenant s u))))
                  s []
            end
        end
      else login_answer 401 "Account is deactivated" s
  end
  end
  end.
Proof.
  unfold login, login_answer, User_findOne_email_populated. run.
  destruct (l_validationErrors req); [|reflexivity].
  destruct (lb_email (l_body req)) as [e|]; [|reflexivity].
  run. destruct (userByEmail s (toLowerCase e)) as [u|]; [|reflexivity].
  cbn [option_map]. destruct (User.isActive u); [|reflexivity].
  cbn [negb].
  destruct (comparePassword u (lb_password (l_body req))) as [[|]|err];
    try reflexivity.
  cbn [negb populate_tenant User.p_tenant].
  destruct (generateAccessToken _ _ _ _ _ _) as [token|err]; reflexivity.
Qed.

(** X13. A token handed out by [login] logs its user in.  When [login]
    answers 200 with a token string, a stored, active user has the given
    email (lower-cased) and the password check succeeded; and, the
    library's parser reading back what its serializer writes and tokens
    being non-empty, [authenticate] on a request carrying [Bearer ]
    followed by that token forwards it with that user attached at every
    clock before the expiry, and answers 401 from the expiry on; this for
    a store in which the lookup by that user's id finds the user (as it
    does when user ids are distinct). *)
Theorem login_then_authenticate (env : Env) (now : Z) (req : LoginRequest)
  (s : Store) (tok : string) (pu : User.populated) :
  lossless L -> nonempty_tokens L ->
  completion (login env now req s) =
    Returned (mkLoginResponse 200 (LSuccess (TokenString tok) pu)) ->
  exists e u,
    lb_email (l_body req) = Some e /\
    userByEmail s (toLowerCase e) = Some u /\
    User.isActive u = true /\
    comparePassword u (lb_password (l_body req)) = Returned true /\
    pu = populate_tenant s u /\
    store (login env now req s) = s /\
    (forall now' r,
       header_Authorization r = Some ("Bearer " ++ tok) ->
       userById s (User._id u) = Some u ->
       (now' < now + expiresIn env ->
          authenticate env now' r s =
            mkOutcome
              (Returned (Next (attach r (Some pu) (User.p_tenant pu)))) s [])
       /\
       (now + expiresIn env <= now' ->
          authenticate env now' r s = answer 401 "Invalid token." s)).
Proof.
  intros Hl Hne. rewrite login_cases.
  destruct (l_validationErrors req); [|discriminate].
  destruct (lb_email (l_body req)) as [e|]; [|discriminate].
  destruct (userByEmail s (toLowerCase e)) as [u|] eqn:Hu; [|discriminate].
  destruct (User.isActive u) eqn:Ha; [|discriminate].
  destruct (comparePassword u (lb_password (l_body req))) as [[|]|err] eqn:Hp;
    try discriminate.
  destruct (generateAccessToken _ _ _ _ _ _) as [token|err] eqn:Hg;
    [|discriminate].
  intros [= -> <-]. exists e, u.
  split; [reflexivity|]. split; [exact Hu|]. split; [exact Ha|].
  split; [exact Hp|]. split; [reflexivity|]. split; [reflexivity|].
  intros now' r Hh Hid.
  (* the token is the one [generateToken] issued for the user's claims *)
  assert (Hissued : exists c,
            userId c = Castable (User._id u) /\
            truthy (JWT_SECRET env) = true /\
            tok = compact
                    (mkJwt (mkPayload c now (Some (now + expiresIn env))
                              (Some "notes-saas"))
                       (hs256 (str (JWT_SECRET env))
                          (mkPayload c now (Some (now + expiresIn env))
                             (Some "notes-saas"))))).
  { unfold generateAccessToken, generateToken, jwt_sign in Hg.
    destruct (tenantById s (User.tenant u)) as [t|]; [|discriminate].
    destruct (truthy (Some (Tenant.slug t))).
    - destruct (truthy (JWT_SECRET env)) eqn:Hk; [|discriminate].
      injection Hg as <-. eexists. split; [|split; reflexivity].
      reflexivity.
    - destruct (truthy (JWT_SECRET env)); discriminate. }
  destruct Hissued as (c & Hc & Hk & ->).
  rewrite authenticate_cases. unfold token_of. rewrite Hh.
  cbn [option_map].
  rewrite (replace_prefixed "Bearer " ""). cbn [append].
  pose proof (Hne (mkJwt (mkPayload c now (Some (now + expiresIn env))
                            (Some "notes-saas"))
                     (hs256 (str (JWT_SECRET env))
                        (mkPayload c now (Some (now + expiresIn env))
                           (Some "notes-saas"))))) as Hnonempty.
  apply truthy_Some in Hnonempty. rewrite Hnonempty. cbn [str].
  unfold jwt_verify. rewrite Hl, Hk. cbn [negb payload signature exp].
  rewrite String.eqb_refl. cbn [negb].
  split; intros Hclock.
  - destruct (Z.leb_spec (now + expiresIn env) now') as [Hle|_]; [lia|].
    cbn [claims]. rewrite Hc, Hid, Ha. reflexivity.
  - destruct (Z.leb_spec (now + expiresIn env) now') as [_|Hlt]; [|lia].
    reflexivity.
Qed.

(** X14. Without a signing secret the backend fails closed: whatever the
    request, [authenticate] answers 401 and [login] answers with a status
    other than 200, both leaving the store as it is. *)
Theorem no_secret_fails_closed (env : Env) (now : Z) (s : Store) :
  truthy (JWT_SECRET env) = false ->
  (forall req, exists msg, authenticate env now req s = answer 401 msg s) /\
  (forall req, exists r,
     login env now req s = mkOutcome (Returned r) s [] /\
     lstatus r <> 200%nat).
Proof.
  intros Hk. split; intros req.
  - rewrite authenticate_cases.
    destruct (truthy (token_of req)); [|eexists; reflexivity].
    unfold jwt_verify.
    destruct (parseCompact (str (token_of req))); [|eexists; reflexivity].
    rewrite Hk. cbn [negb]. eexists; reflexivity.
  - assert (Hg : forall i e r t, exists err,
              generateAccessToken env now i e r t = Threw err).
    { intros i e r t. unfold generateAccessToken, generateToken, jwt_sign.
      rewrite Hk. destruct t as [t|o|]; [|eexists; reflexivity ..].
      destruct (truthy (Some (Tenant.slug t))); eexists; reflexivity. }
    rewrite login_cases. unfold login_answer.
    destruct (l_validationErrors req);
      [|eexists; split; [reflexivity | cbn [lstatus]; lia]].
    destruct (lb_email (l_body req)) as [e|];
      [|eexists; split; [reflexivity | cbn [lstatus]; lia]].
    destruct (userByEmail s (toLowerCase e)) as [u|];
      [|eexists; split; [reflexivity | cbn [lstatus]; lia]].
    destruct (User.isActive u);
      [|eexists; split; [reflexivity | cbn [lstatus]; lia]].
    destruct (comparePassword u (lb_password (l_body req))) as [[|]|err];
      try (eexists; split; [reflexivity | cbn [lstatus]; lia]).
    destruct (Hg (User._id u) (User.email u) (User.role u)
                (match tenantById s (User.tenant u) with
                 | Some t => TenantDoc t
                 | None => TenantNull
                 end)) as (err & ->).
    eexists; split; [reflexivity | cbn [lstatus]; lia].
Qed.
End LoginFacts.

Lemma TextCodec_nonempty : nonempty_tokens TextCodec.lib.
Proof.
  intros [p sg]. unfold compact, TextCodec.lib, TextCodec.print,
    TextCodec.payload_text.
  unfold TextCodec.put at 1.
  destruct (String.length
              (TextCodec.qtext (userId (claims (payload (mkJwt p sg))))));
    cbn [TextCodec.marks]; intros H; discriminate H.
Qed.

(** The Acme admin signs in at clock 10 under a life time of 60 seconds:
    the token is accepted at clock 69 and refused at clock 70. *)
Lemma login_then_authenticate_witness :
  let r := Demo.bearer Demo.adminAcmeToken "acme" (Uncastable "")
             Seed.emptyBody in
  @authenticate TextCodec.lib Seed.env 69 r Seed.seeded =
    mkOutcome
      (Returned (Next (Seed.signedIn Seed.seeded Seed.adminAcme r)))
      Seed.seeded [] /\
  @authenticate TextCodec.lib Seed.env 70 r Seed.seeded =
    answer 401 "Invalid token." Seed.seeded.
Proof.
  cbv zeta.
  assert (Hlogin :
    completion (@login TextCodec.lib plainPasswords Seed.env 10
                  Demo.adminLogin Seed.seeded) =
    Returned (mkLoginResponse 200
                (LSuccess (TokenString Demo.adminAcmeToken)
                   (populate_tenant Seed.seeded Seed.adminAcme))))
    by (vm_compute; reflexivity).
  destruct (@login_then_authenticate TextCodec.lib plainPasswords Seed.env 10
              Demo.adminLogin Seed.seeded Demo.adminAcmeToken
              (populate_tenant Seed.seeded Seed.adminAcme)
              TextCodecFacts.lib_lossless TextCodec_nonempty Hlogin)
    as (e & u & He & Hu & _ & _ & _ & _ & Hauth).
  injection He as <-.
  assert (Eu : u = Seed.adminAcme)
    by (vm_compute in Hu; injection Hu as <-; reflexivity).
  subst u.
  assert (Hid : userById Seed.seeded (User._id Seed.adminAcme) =
                Some Seed.adminAcme) by (vm_compute; reflexivity).
  destruct (Hauth 69 (Demo.bearer Demo.adminAcmeToken "acme" (Uncastable "")
                        Seed.emptyBody) eq_refl Hid) as (Hin & _).
  destruct (Hauth 70 (Demo.bearer Demo.adminAcmeToken "acme" (Uncastable "")
                        Seed.emptyBody) eq_refl Hid) as (_ & Hout).
  split.
  - exact (Hin ltac:(vm_compute; reflexivity)).
  - exact (Hout ltac:(vm_compute; discriminate)).
Defined.

(** No secret is configured: every request is answered 401, and the Acme
    admin's sign-in is not answered 200. *)
Lemma no_secret_fails_closed_witness :
  (forall req, exists msg,
     @authenticate TextCodec.lib Demo.noSecret 10 req Seed.seeded =
       answer 401 msg Seed.seeded) /\
  (exists r,
     @login TextCodec.lib plainPasswords Demo.noSecret 10 Demo.adminLogin
       Seed.seeded = mkOutcome (Returned r) Seed.seeded [] /\
     lstatus r <> 200%nat).
Proof.
  destruct (@no_secret_fails_closed TextCodec.lib plainPasswords
              Demo.noSecret 10 Seed.seeded eq_refl) as (Hauth & Hlogin).
  split; [exact Hauth | exact (Hlogin Demo.adminLogin)].
Defined.

(** ** What no request does *)

Lemma archived_replace_first (p : Note.doc -> bool)
  (f : Note.doc -> Note.doc) (l : list Note.doc) :
  (forall x, Note._id (f x) = Note._id x) ->
  (forall x, Note.isArchived (f x) = Note.isArchived x) ->
  map Note._id (filter Note.isArchived (replace_first p f l)) =
  map Note._id (filter Note.isArchived l).
Proof.
  intros Hid Har. induction l as [|x l IH]; simpl; [reflexivity|].
  destruct (p x); simpl.
  - rewrite Har. destruct (Note.isArchived x); simpl;
      [rewrite Hid|]; reflexivity.
  - destruct (Note.isArchived x); simpl; rewrite IH; reflexivity.
Qed.

Lemma archived_remove_first (p : Note.doc -> bool) (l : list Note.doc) :
  incl (map Note._id (filter Note.isArchived (remove_first p l)))
       (map Note._id (filter Note.isArchived l)).
Proof.
  induction l as [|x l IH]; simpl; [apply incl_refl|].
  destruct (p x); simpl.
  - destruct (Note.isArchived x); simpl;
      [apply incl_tl|]; apply incl_refl.
  - destruct (Note.isArchived x); simpl;
      [apply incl_cons; [left; reflexivity | apply incl_tl; exact IH]
      | exact IH].
Qed.

Lemma noteSchema_validate_unarchived (oid : ObjectId) (i : NoteInput)
  (n : Note.doc) :
  noteSchema_validate oid i = Returned n -> Note.isArchived n = false.
Proof.
  unfold noteSchema_validate.
  destruct (in_title i); [|discriminate].
  destruct (in_content i); [|discriminate].
  destruct (_ && _)%bool; [|discriminate].
  intros [= <-]. reflexivity.
Qed.

(** One request archives nothing. *)
Lemma perform_archived (s : Store) (a : Action) :
  incl (archived_ids (perform s a)) (archived_ids s).
Proof.
  unfold archived_ids. destruct a as [[oid req|req|req|req|req]|now req];
    simpl.
  - rewrite createNote_cases.
    destruct (validationErrors req); [|apply incl_refl].
    destruct (tenant req) as [t|]; [|apply incl_refl].
    destruct (_ || _)%bool; [|apply incl_refl].
    destruct (user req) as [u|]; [|apply incl_refl].
    destruct (noteSchema_validate _ _) as [n|e] eqn:Hn; [|apply incl_refl].
    destruct (userById s (Note.author n)) as [au|]; [|apply incl_refl].
    destruct (String.eqb (User.tenant au) (Note.tenant n));
      [|apply incl_refl].
    cbn [store reply notes]. rewrite filter_app. cbn [filter].
    rewrite (noteSchema_validate_unarchived _ _ _ Hn), app_nil_r.
    apply incl_refl.
  - rewrite updateNote_cases. cbv zeta.
    destruct (validationErrors req); [|apply incl_refl].
    destruct (tenant req) as [t|]; [|apply incl_refl].
    destruct (params_id req) as [i|raw]; [|apply incl_refl].
    destruct (noteInTenant s i (Tenant._id t)) as [n|]; [|apply incl_refl].
    destruct (user req) as [u|]; [|apply incl_refl].
    destruct (Role_eqb (User.p_role u) admin);
      [|destruct (userById s (Note.author n)); apply incl_refl].
    destruct (valid_update (updateData_of (body req))); [|apply incl_refl].
    cbn [store reply notes].
    rewrite archived_replace_first by reflexivity. apply incl_refl.
  - rewrite deleteNote_cases.
    destruct (tenant req) as [t|]; [|apply incl_refl].
    destruct (params_id req) as [i|raw]; [|apply incl_refl].
    destruct (noteInTenant s i (Tenant._id t)) as [n|]; [|apply incl_refl].
    destruct (user req) as [u|]; [|apply incl_refl].
    destruct (owns_or_admin n (User.p_id u) (User.p_role u));
      [|apply incl_refl].
    cbn [store reply notes]. apply archived_remove_first.
  - rewrite updateUserRole_cases. split_cases; apply incl_refl.
  - rewrite deactivateUser_cases. split_cases; apply incl_refl.
  - rewrite upgradeTenant_cases. cbv zeta. split_cases; apply incl_refl.
Qed.

(** X15. No request archives a note.  Whatever sequence of note
    creations, updates and deletions, role changes, deactivations and
    upgrades is served, every note that is archived afterwards has the id
    of a note that was archived before; so a store without archived notes
    stays without. *)
Theorem nothing_archives (acts : list Action) (s : Store) :
  incl (archived_ids (perform_all acts s)) (archived_ids s) /\
  (archived_ids s = [] -> archived_ids (perform_all acts s) = []).
Proof.
  assert (H : incl (archived_ids (perform_all acts s)) (archived_ids s)).
  { unfold perform_all. revert s.
    induction acts as [|a acts IH]; intros s; simpl; [apply incl_refl|].
    eapply incl_tran; [apply IH | apply perform_archived]. }
  split; [exact H|]. intros E. rewrite E in H.
  destruct (archived_ids (perform_all acts s)) as [|x l]; [reflexivity|].
  destruct (H x (or_introl eq_refl)).
Qed.

(** A note is created and Acme upgraded on the seeded store, which has
    no archived note: there is none afterwards. *)
Lemma nothing_archives_witness :
  archived_ids
    (perform_all
       [Write (OpCreateNote "650000000000000000000025"
                 (Seed.noteRequest Seed.seeded Seed.userAcme ""
                    Seed.newNoteBody));
        Upgrade 50
          (Seed.userRequest Seed.seeded Seed.adminAcme "acme" "" None)]
       Seed.seeded) = [].
Proof.
  assert (Hnone : archived_ids Seed.seeded = [])
    by (vm_compute; reflexivity).
  destruct (nothing_archives
              [Write (OpCreateNote "650000000000000000000025"
                        (Seed.noteRequest Seed.seeded Seed.userAcme ""
                           Seed.newNoteBody));
               Upgrade 50
                 (Seed.userRequest Seed.seeded Seed.adminAcme "acme" ""
                    None)]
              Seed.seeded) as (_ & H).
  exact (H Hnone).
Defined.

Lemma user_identity_replace_first (p : User.doc -> bool)
  (f : User.doc -> User.doc) (l : list User.doc) :
  (forall x, user_identity (f x) = user_identity x) ->
  map user_identity (replace_first p f l) = map user_identity l.
Proof.
  intros Hf. induction l as [|x l IH]; simpl; [reflexivity|].
  destruct (p x); simpl; [rewrite Hf | rewrite IH]; reflexivity.
Qed.

(** One request keeps the users' identities. *)
Lemma perform_users (s : Store) (a : Action) :
  map user_identity (users (perform s a)) = map user_identity (users s).
Proof.
  destruct a as [[oid req|req|req|req|req]|now req]; simpl.
  - rewrite createNote_cases. split_cases; reflexivity.
  - rewrite updateNote_cases. cbv zeta. split_cases; reflexivity.
  - rewrite deleteNote_cases. split_cases; reflexivity.
  - rewrite updateUserRole_cases.
    split_cases; try reflexivity;
      cbn [store reply users];
      apply user_identity_replace_first; reflexivity.
  - rewrite deactivateUser_cases.
    split_cases; try reflexivity;
      cbn [store reply users];
      apply user_identity_replace_first; reflexivity.
  - rewrite upgradeTenant_cases. cbv zeta. split_cases; reflexivity.
Qed.

(** X16. Deactivation is a soft delete and no request moves a user.
    Whatever sequence of note creations, updates and deletions, role
    changes, deactivations and upgrades is served, the users stay the same
    in number, order, ids, email addresses, stored credentials and
    tenants; only roles and activity flags change. *)
Theorem users_keep_identity (acts : list Action) (s : Store) :
  map user_identity (users (perform_all acts s)) =
  map user_identity (users s).
Proof.
  unfold perform_all. revert s.
  induction acts as [|a acts IH]; intros s; simpl; [reflexivity|].
  rewrite IH. apply perform_users.
Qed.
